(** * Streaming suggestions: the Ollama service, the relay routes and the chat
      consumer of LUMI

    A shallow embedding of
    - [src/implementations/OllamaService.ts] (class [OllamaService]),
    - the Express routes [/api/v1/h5p/chat/suggestions] and
      [/api/v1/h5p/chat/suggestions/stream],
    - the React component [H5PChat] and its [handleSubmit],
    together with the parts of the JavaScript platform these use (strings of
    UTF-16 code units, [split], [trim], [TextDecoder], [JSON.parse],
    [JSON.stringify], property lookup along the prototype chain).

    Conventions.  A JavaScript string is the list of its UTF-16 code units
    ([jsstring]); a [Uint8Array] is a list of bytes.  An [async] function is
    written in direct style over a script of what its [await]s resolve to; an
    exception is a value of [Throws].  Objects that the source mutates in
    place (the [Message] objects of the chat log, the [AbortController]s of
    the service) live in a store and are named by references. *)

From Stdlib Require Import ZArith String Ascii List Bool Lia.
From stdpp Require Import base tactics option list numbers.

Open Scope Z_scope.

(** ** JavaScript strings *)

Module JS.

(** A string is its sequence of UTF-16 code units. *)
Abbreviation jsstring := (list Z).

(** A source-code string literal (ASCII). *)
Definition lit (s : string) : jsstring :=
  map (fun a => Z.of_N (N_of_ascii a)) (list_ascii_of_string s).
Arguments lit : simpl never.

(** A literal in which the apostrophe stands for the double quote, to write
    JSON texts. *)
Definition dq (s : string) : jsstring :=
  map (fun c => if c =? 39 then 34 else c) (lit s).

Definition streq (a b : jsstring) : bool := bool_decide (a = b).

(** [String.prototype.split] with a one-unit separator. *)
Fixpoint split (sep : Z) (s : jsstring) : list jsstring :=
  match s with
  | [] => [[]]
  | c :: s' =>
      if c =? sep then [] :: split sep s'
      else match split sep s' with
           | [] => [[c]]
           | l :: ls => (c :: l) :: ls
           end
  end.

(** [WhiteSpace] and [LineTerminator] code units, the ones [trim] strips. *)
Definition is_js_space (c : Z) : bool :=
  (c =? 0x09) || (c =? 0x0A) || (c =? 0x0B) || (c =? 0x0C) || (c =? 0x0D)
  || (c =? 0x20) || (c =? 0xA0) || (c =? 0x1680)
  || ((0x2000 <=? c) && (c <=? 0x200A))
  || (c =? 0x2028) || (c =? 0x2029) || (c =? 0x202F) || (c =? 0x205F)
  || (c =? 0x3000) || (c =? 0xFEFF).

Fixpoint trimStart (s : jsstring) : jsstring :=
  match s with
  | c :: s' => if is_js_space c then trimStart s' else s
  | [] => []
  end.

Definition trim (s : jsstring) : jsstring :=
  rev (trimStart (rev (trimStart s))).

(** Truthiness of a string: the empty string is the only falsy one. *)
Definition truthy (s : jsstring) : bool :=
  match s with [] => false | _ => true end.

(** ** Bytes and the UTF-8 codec

    The codec is written with the arithmetic of its bit fields: a shift by
    [k] bits is a multiplication or a division by [2^k], a mask of [k] bits a
    remainder. *)

Abbreviation bytes := (list Byte.byte).

Definition byte_val (b : Byte.byte) : Z := Z.of_N (Byte.to_N b).

Definition byte_of (z : Z) : Byte.byte :=
  match Byte.of_N (Z.to_N (z mod 256)) with
  | Some b => b
  | None => Byte.x00
  end.

(** State of the WHATWG UTF-8 decoder. *)
Record Utf8State := {
  code_point : Z;
  bytes_seen : Z;
  bytes_needed : Z;
  lower_boundary : Z;
  upper_boundary : Z
}.

Definition utf8_init : Utf8State :=
  {| code_point := 0; bytes_seen := 0; bytes_needed := 0;
     lower_boundary := 0x80; upper_boundary := 0xBF |}.

Definition REPLACEMENT : Z := 0xFFFD.

(** The handler on a byte when no sequence is open.  The payload bits of a
    lead byte, which the standard masks out, are what is left of the byte
    above the first byte of its range. *)
Definition utf8_lead (b : Z) : Utf8State * list Z :=
  if b <=? 0x7F then (utf8_init, [b])
  else if (0xC2 <=? b) && (b <=? 0xDF) then
    ({| code_point := b - 0xC0; bytes_seen := 0; bytes_needed := 1;
        lower_boundary := 0x80; upper_boundary := 0xBF |}, [])
  else if (0xE0 <=? b) && (b <=? 0xEF) then
    ({| code_point := b - 0xE0; bytes_seen := 0; bytes_needed := 2;
        lower_boundary := if b =? 0xE0 then 0xA0 else 0x80;
        upper_boundary := if b =? 0xED then 0x9F else 0xBF |}, [])
  else if (0xF0 <=? b) && (b <=? 0xF4) then
    ({| code_point := b - 0xF0; bytes_seen := 0; bytes_needed := 3;
        lower_boundary := if b =? 0xF0 then 0x90 else 0x80;
        upper_boundary := if b =? 0xF4 then 0x8F else 0xBF |}, [])
  else (utf8_init, [REPLACEMENT]).

(** The handler on any byte: a byte that cannot continue the open sequence
    yields U+FFFD and is then handled again as a lead byte; a continuation
    byte shifts the code point by six bits and adds its own six. *)
Definition utf8_step (st : Utf8State) (b : Z) : Utf8State * list Z :=
  if bytes_needed st =? 0 then utf8_lead b
  else if (b <? lower_boundary st) || (upper_boundary st <? b) then
    let '(st', out) := utf8_lead b in (st', REPLACEMENT :: out)
  else
    let cp := code_point st * 64 + (b - 0x80) in
    if bytes_seen st + 1 =? bytes_needed st then (utf8_init, [cp])
    else ({| code_point := cp; bytes_seen := bytes_seen st + 1;
             bytes_needed := bytes_needed st;
             lower_boundary := 0x80; upper_boundary := 0xBF |}, []).

(** Runs the decoder to the end of the input; an open sequence at the end
    yields U+FFFD. *)
Fixpoint utf8_run (st : Utf8State) (bs : bytes) : list Z :=
  match bs with
  | [] => if bytes_needed st =? 0 then [] else [REPLACEMENT]
  | b :: bs' =>
      let '(st', out) := utf8_step st (byte_val b) in
      out ++ utf8_run st' bs'
  end.

(** A code point as UTF-16 code units. *)
Definition utf16_units (cp : Z) : list Z :=
  if cp <? 0x10000 then [cp]
  else [0xD800 + (cp - 0x10000) / 1024;
        0xDC00 + (cp - 0x10000) mod 1024].

(** [new TextDecoder().decode(value)]: the call carries no [stream] option,
    so every call decodes its argument as a complete input, flushes an open
    sequence as U+FFFD and strips a leading byte order mark. *)
Definition TextDecoder_decode (value : bytes) : jsstring :=
  let cps := utf8_run utf8_init value in
  let cps' := match cps with
              | c :: rest => if c =? 0xFEFF then rest else cps
              | [] => []
              end in
  concat (map utf16_units cps').

Definition is_high_surrogate (c : Z) : bool := (0xD800 <=? c) && (c <=? 0xDBFF).
Definition is_low_surrogate (c : Z) : bool := (0xDC00 <=? c) && (c <=? 0xDFFF).

Definition utf8_of_code_point (cp : Z) : bytes :=
  if cp <? 0x80 then [byte_of cp]
  else if cp <? 0x800 then
    [byte_of (0xC0 + cp / 64); byte_of (0x80 + cp mod 64)]
  else if cp <? 0x10000 then
    [byte_of (0xE0 + cp / 4096);
     byte_of (0x80 + (cp / 64) mod 64);
     byte_of (0x80 + cp mod 64)]
  else
    [byte_of (0xF0 + cp / 262144);
     byte_of (0x80 + (cp / 4096) mod 64);
     byte_of (0x80 + (cp / 64) mod 64);
     byte_of (0x80 + cp mod 64)].

(** The bytes a Node stream writes for a string pushed with the default
    encoding: UTF-8, an unpaired surrogate written as U+FFFD. *)
Fixpoint utf8_encode (s : jsstring) : bytes :=
  match s with
  | [] => []
  | c :: s' =>
      if is_high_surrogate c then
        match s' with
        | c2 :: s'' =>
            if is_low_surrogate c2 then
              utf8_of_code_point (0x10000 + (c - 0xD800) * 1024 + (c2 - 0xDC00))
                ++ utf8_encode s''
            else utf8_of_code_point REPLACEMENT ++ utf8_encode s'
        | [] => utf8_of_code_point REPLACEMENT
        end
      else if is_low_surrogate c then utf8_of_code_point REPLACEMENT ++ utf8_encode s'
      else utf8_of_code_point c ++ utf8_encode s'
  end.

(** A string whose units are 16-bit and whose surrogates come in pairs. *)
Fixpoint well_formed_string (s : jsstring) : bool :=
  match s with
  | [] => true
  | c :: s' =>
      if is_high_surrogate c then
        match s' with
        | c2 :: s'' => is_low_surrogate c2 && well_formed_string s''
        | [] => false
        end
      else if is_low_surrogate c then false
      else (0 <=? c) && (c <? 0x10000) && well_formed_string s'
  end.

(** A string of 16-bit units. *)
Definition valid_string (s : jsstring) : bool :=
  forallb (fun c => (0 <=? c) && (c <? 0x10000)) s.

(** ** Exceptions *)

Inductive Exn :=
| TypeError
| SyntaxError
| AbortError
| Error (message : jsstring).

(** The result of an expression or of an [await]: a value or a thrown
    exception. *)
Inductive Throws (A : Type) :=
| Ok (a : A)
| Throw (e : Exn).
Arguments Ok {A} a.
Arguments Throw {A} e.

Definition bind {A B} (x : Throws A) (k : A -> Throws B) : Throws B :=
  match x with
  | Ok a => k a
  | Throw e => Throw e
  end.

(** ** What the engine leaves open

    Three texts depend on double-precision arithmetic or on the engine and
    are taken as given: the text of a number (given by its JSON lexeme) under
    [ToString], the text [JSON.stringify] writes for it ([null] when it is
    not finite), and the text of a built-in member of [Object.prototype]. *)

Class Engine := {
  Number_toString : jsstring -> jsstring;
  Number_toJSON : jsstring -> jsstring;
  Builtin_toString : jsstring -> jsstring
}.

(** ** JSON values *)

(** The values [JSON.parse] returns.  The members of an object are its own
    properties in creation order, each key once. *)
Unset Elimination Schemes.
Inductive JValue :=
| JNull
| JBool (b : bool)
| JNumber (lexeme : jsstring)
| JString (s : jsstring)
| JArray (elements : list JValue)
| JObject (members : list (jsstring * JValue)).
Set Elimination Schemes.

(** A value read from a property: [None] is [undefined]. *)
Abbreviation JSValue := (option JValue).

Fixpoint own_property (key : jsstring) (members : list (jsstring * JValue)) : JSValue :=
  match members with
  | [] => None
  | (k, v) :: rest => if streq k key then Some v else own_property key rest
  end.

(** [CreateDataProperty]: a key already present keeps its place and takes
    the new value. *)
Fixpoint define_property (key : jsstring) (v : JValue)
    (members : list (jsstring * JValue)) : list (jsstring * JValue) :=
  match members with
  | [] => [(key, v)]
  | (k, v') :: rest =>
      if streq k key then (k, v) :: rest
      else (k, v') :: define_property key v rest
  end.

(** [parsed.response]: reading a property of [null] throws; no primitive and
    no array has a property of that name, and [Object.prototype] has none
    either. *)
Definition get_response (parsed : JValue) : Throws JSValue :=
  match parsed with
  | JNull => Throw TypeError
  | JObject members => Ok (own_property (lit "response") members)
  | _ => Ok None
  end.

Fixpoint join (sep : jsstring) (parts : list jsstring) : jsstring :=
  match parts with
  | [] => []
  | [p] => p
  | p :: rest => p ++ sep ++ join sep rest
  end.

(** [ToString] of a value, as string concatenation applies it.  An object
    converts through [Object.prototype.toString] unless an own (hence not
    callable) [toString] shadows it, an array through [join]. *)
Fixpoint ToString `{engine : Engine} (v : JValue) : Throws jsstring :=
  match v with
  | JNull => Ok (lit "null")
  | JBool true => Ok (lit "true")
  | JBool false => Ok (lit "false")
  | JNumber lexeme => Ok (Number_toString lexeme)
  | JString s => Ok s
  | JArray elements =>
      bind
        ((fix elems (l : list JValue) : Throws (list jsstring) :=
            match l with
            | [] => Ok []
            | x :: rest =>
                bind (match x with JNull => Ok [] | _ => ToString x end) (fun sx =>
                bind (elems rest) (fun srest => Ok (sx :: srest)))
            end) elements)
        (fun parts => Ok (join (lit ",") parts))
  | JObject members =>
      match own_property (lit "toString") members with
      | Some _ => Throw TypeError
      | None => Ok (lit "[object Object]")
      end
  end.

Definition ToString_value `{engine : Engine} (v : JSValue) : Throws jsstring :=
  match v with
  | None => Ok (lit "undefined")
  | Some j => ToString j
  end.

(** ** [JSON.parse] *)

Definition is_json_ws (c : Z) : bool :=
  (c =? 0x20) || (c =? 0x09) || (c =? 0x0A) || (c =? 0x0D).

Fixpoint skip_ws (s : jsstring) : jsstring :=
  match s with
  | c :: s' => if is_json_ws c then skip_ws s' else s
  | [] => []
  end.

Definition is_digit (c : Z) : bool := (48 <=? c) && (c <=? 57).

Definition hex_value (c : Z) : option Z :=
  if is_digit c then Some (c - 48)
  else if (97 <=? c) && (c <=? 102) then Some (c - 87)
  else if (65 <=? c) && (c <=? 70) then Some (c - 55)
  else None.

(** The unit a one-letter escape stands for. *)
Definition escape_unit (e : Z) : option Z :=
  if e =? 34 then Some 34
  else if e =? 92 then Some 92
  else if e =? 47 then Some 47
  else if e =? 98 then Some 8
  else if e =? 102 then Some 12
  else if e =? 110 then Some 10
  else if e =? 114 then Some 13
  else if e =? 116 then Some 9
  else None.

(** The characters of a string literal after its opening quote, up to and
    including the closing quote. *)
Fixpoint parse_chars (s : jsstring) : option (jsstring * jsstring) :=
  match s with
  | [] => None
  | c :: r =>
      if c =? 34 then Some ([], r)
      else if c =? 92 then
        match r with
        | [] => None
        | e :: r' =>
            if e =? 117 then
              match r' with
              | h1 :: h2 :: h3 :: h4 :: r'' =>
                  match hex_value h1, hex_value h2, hex_value h3, hex_value h4 with
                  | Some a, Some b, Some c', Some d =>
                      match parse_chars r'' with
                      | Some (str, rest) =>
                          Some ((((a * 16 + b) * 16 + c') * 16 + d) :: str, rest)
                      | None => None
                      end
                  | _, _, _, _ => None
                  end
              | _ => None
              end
            else
              match escape_unit e with
              | Some u =>
                  match parse_chars r' with
                  | Some (str, rest) => Some (u :: str, rest)
                  | None => None
                  end
              | None => None
              end
        end
      else if c <? 0x20 then None
      else
        match parse_chars r with
        | Some (str, rest) => Some (c :: str, rest)
        | None => None
        end
  end.

Fixpoint take_digits (s : jsstring) : jsstring * jsstring :=
  match s with
  | c :: s' =>
      if is_digit c then let '(d, r) := take_digits s' in (c :: d, r)
      else ([], s)
  | [] => ([], [])
  end.

(** The exponent part of a number, if any. *)
Definition parse_exponent (pre s : jsstring) : option (jsstring * jsstring) :=
  match s with
  | e :: r =>
      if (e =? 101) || (e =? 69) then
        let '(sign, r1) :=
          match r with
          | x :: r' => if (x =? 43) || (x =? 45) then ([x], r') else ([], r)
          | [] => ([], r)
          end in
        match take_digits r1 with
        | ([], _) => None
        | (d, r2) => Some (pre ++ [e] ++ sign ++ d, r2)
        end
      else Some (pre, s)
  | [] => Some (pre, s)
  end.

(** The fraction part of a number, if any, then the exponent. *)
Definition parse_fraction (pre s : jsstring) : option (jsstring * jsstring) :=
  match s with
  | c :: r =>
      if c =? 46 then
        match take_digits r with
        | ([], _) => None
        | (d, r') => parse_exponent (pre ++ [46] ++ d) r'
        end
      else parse_exponent pre s
  | [] => parse_exponent pre s
  end.

(** A number: its lexeme and the rest of the input. *)
Definition parse_number (s : jsstring) : option (jsstring * jsstring) :=
  let '(sign, s1) :=
    match s with
    | c :: r => if c =? 45 then ([45], r) else ([], s)
    | [] => ([], s)
    end in
  match s1 with
  | c :: r =>
      if c =? 48 then parse_fraction (sign ++ [48]) r
      else if is_digit c then
        let '(d, r') := take_digits s1 in parse_fraction (sign ++ d) r'
      else None
  | [] => None
  end.

Fixpoint strip_prefix (prefix s : jsstring) : option jsstring :=
  match prefix, s with
  | [], _ => Some s
  | p :: prefix', c :: s' => if p =? c then strip_prefix prefix' s' else None
  | _ :: _, [] => None
  end.

(** Recursive descent over the JSON grammar, in three parts that call each
    other: a value, the elements of an array after its bracket, the members
    of an object after its brace.  Each part is given the parts it calls. *)
Abbreviation parser := (jsstring -> option (JValue * jsstring)).

Definition value_step
    (elements : jsstring -> list JValue -> option (JValue * jsstring))
    (members : jsstring -> list (jsstring * JValue) -> option (JValue * jsstring))
    : parser := fun s =>
  match skip_ws s with
  | [] => None
  | c :: r =>
      if c =? 34 then
        match parse_chars r with
        | Some (str, rest) => Some (JString str, rest)
        | None => None
        end
      else if c =? 91 then
        match skip_ws r with
        | c' :: r' =>
            if c' =? 93 then Some (JArray [], r')
            else elements r []
        | [] => None
        end
      else if c =? 123 then
        match skip_ws r with
        | c' :: r' =>
            if c' =? 125 then Some (JObject [], r')
            else members r []
        | [] => None
        end
      else if c =? 116 then
        match strip_prefix (lit "true") (c :: r) with
        | Some rest => Some (JBool true, rest)
        | None => None
        end
      else if c =? 102 then
        match strip_prefix (lit "false") (c :: r) with
        | Some rest => Some (JBool false, rest)
        | None => None
        end
      else if c =? 110 then
        match strip_prefix (lit "null") (c :: r) with
        | Some rest => Some (JNull, rest)
        | None => None
        end
      else
        match parse_number (c :: r) with
        | Some (lexeme, rest) => Some (JNumber lexeme, rest)
        | None => None
        end
  end.

Definition elements_step (value : parser)
    (elements : jsstring -> list JValue -> option (JValue * jsstring))
    (s : jsstring) (acc : list JValue) : option (JValue * jsstring) :=
  match value s with
  | Some (v, r) =>
      match skip_ws r with
      | c :: r' =>
          if c =? 44 then elements r' (v :: acc)
          else if c =? 93 then Some (JArray (rev (v :: acc)), r')
          else None
      | [] => None
      end
  | None => None
  end.

Definition members_step (value : parser)
    (members : jsstring -> list (jsstring * JValue) -> option (JValue * jsstring))
    (s : jsstring) (acc : list (jsstring * JValue)) : option (JValue * jsstring) :=
  match skip_ws s with
  | q :: r =>
      if q =? 34 then
        match parse_chars r with
        | Some (key, r1) =>
            match skip_ws r1 with
            | colon :: r2 =>
                if colon =? 58 then
                  match value r2 with
                  | Some (v, r3) =>
                      match skip_ws r3 with
                      | c :: r4 =>
                          if c =? 44 then members r4 (define_property key v acc)
                          else if c =? 125 then
                            Some (JObject (define_property key v acc), r4)
                          else None
                      | [] => None
                      end
                  | None => None
                  end
                else None
            | [] => None
            end
        | None => None
        end
      else None
  | [] => None
  end.

(** The three parts tied together.  Every call takes one unit of [fuel];
    twice the length of the input is enough (see [JSON_parse_adequate]). *)
Fixpoint parse_value (fuel : nat) : parser :=
  match fuel with
  | O => fun _ => None
  | S fuel' => value_step (parse_elements fuel') (parse_members fuel')
  end
with parse_elements (fuel : nat) (s : jsstring) (acc : list JValue)
    : option (JValue * jsstring) :=
  match fuel with
  | O => None
  | S fuel' => elements_step (parse_value fuel') (parse_elements fuel') s acc
  end
with parse_members (fuel : nat) (s : jsstring) (acc : list (jsstring * JValue))
    : option (JValue * jsstring) :=
  match fuel with
  | O => None
  | S fuel' => members_step (parse_value fuel') (parse_members fuel') s acc
  end.

(** [JSON.parse(text)]: one value, white space around it, nothing else;
    anything else is a [SyntaxError]. *)
Definition JSON_parse (text : jsstring) : Throws JValue :=
  match parse_value (2 * length text + 2) text with
  | Some (v, rest) =>
      match skip_ws rest with
      | [] => Ok v
      | _ :: _ => Throw SyntaxError
      end
  | None => Throw SyntaxError
  end.

(** A part of the parser consumes when every answer leaves a strictly
    shorter rest; this is what bounds the fuel it needs. *)
Definition consumes {A} (p : jsstring -> A -> option (JValue * jsstring)) : Prop :=
  forall s acc v r, p s acc = Some (v, r) -> (length r < length s)%nat.

Definition consumes0 (p : parser) : Prop :=
  forall s v r, p s = Some (v, r) -> (length r < length s)%nat.

(** ** [JSON.stringify] *)

Definition hex_digit (n : Z) : Z := if n <? 10 then 48 + n else 87 + n.

Definition unicode_escape (c : Z) : jsstring :=
  [92; 117; hex_digit (c / 4096 mod 16); hex_digit (c / 256 mod 16);
   hex_digit (c / 16 mod 16); hex_digit (c mod 16)].

(** What [QuoteJSONString] writes for one unit that is not half of a
    surrogate pair. *)
Definition quote_unit (c : Z) : jsstring :=
  if c =? 8 then [92; 98]
  else if c =? 9 then [92; 116]
  else if c =? 10 then [92; 110]
  else if c =? 12 then [92; 102]
  else if c =? 13 then [92; 114]
  else if c =? 34 then [92; 34]
  else if c =? 92 then [92; 92]
  else if c <? 0x20 then unicode_escape c
  else if is_high_surrogate c || is_low_surrogate c then unicode_escape c
  else [c].

(** The characters [QuoteJSONString] writes between the quotes: a surrogate
    pair as it is, every other unit by [quote_unit]. *)
Fixpoint quote_chars (s : jsstring) : jsstring :=
  match s with
  | [] => []
  | c :: r =>
      if is_high_surrogate c then
        match r with
        | c2 :: r' =>
            if is_low_surrogate c2 then c :: c2 :: quote_chars r'
            else quote_unit c ++ quote_chars r
        | [] => quote_unit c
        end
      else quote_unit c ++ quote_chars r
  end.

Definition QuoteJSONString (s : jsstring) : jsstring :=
  [34] ++ quote_chars s ++ [34].

(** The array index a property key denotes, if it is one. *)
Definition array_index (k : jsstring) : option Z :=
  match k with
  | [] => None
  | c :: r =>
      if forallb is_digit k && (negb (c =? 48) || bool_decide (r = [])) then
        let n := fold_left (fun acc d => acc * 10 + (d - 48)) k 0 in
        if n <=? 4294967294 then Some n else None
      else None
  end.

Fixpoint insert_by_index {A} (i : Z) (x : A) (sorted : list (Z * A)) : list (Z * A) :=
  match sorted with
  | [] => [(i, x)]
  | (j, y) :: rest =>
      if i <? j then (i, x) :: sorted else (j, y) :: insert_by_index i x rest
  end.

(** [OrdinaryOwnPropertyKeys]: array indices ascending, then the other keys
    in creation order. *)
Definition enumeration_order {A} (members : list (jsstring * A)) : list (jsstring * A) :=
  let indexed :=
    fold_left (fun acc '(k, x) =>
                 match array_index k with
                 | Some i => insert_by_index i (k, x) acc
                 | None => acc
                 end) members [] in
  map snd indexed
  ++ filter (fun '(k, _) => array_index k = None) members.

Fixpoint stringify `{engine : Engine} (v : JValue) : jsstring :=
  match v with
  | JNull => lit "null"
  | JBool true => lit "true"
  | JBool false => lit "false"
  | JNumber lexeme => Number_toJSON lexeme
  | JString s => QuoteJSONString s
  | JArray elements => [91] ++ join [44] (map stringify elements) ++ [93]
  | JObject members =>
      let texts := map (fun m => let '(k, x) := m in (k, stringify x)) members in
      [123]
      ++ join [44] (map (fun '(k, t) => QuoteJSONString k ++ [58] ++ t)
                        (enumeration_order texts))
      ++ [125]
  end.

(** [JSON.stringify({ response: chunk })]: a property whose value is
    [undefined] is left out. *)
Definition stringify_response `{engine : Engine} (chunk : JSValue) : jsstring :=
  match chunk with
  | None => lit "{}"
  | Some v => [123] ++ QuoteJSONString (lit "response") ++ [58] ++ stringify v ++ [125]
  end.

(** A Unicode scalar value. *)
Definition scalar (cp : Z) : Prop :=
  0 <= cp < 0x110000 /\ ~ (0xD800 <= cp <= 0xDFFF).

(** What [parse_chars] returns with one more unit in front. *)
Definition parsed_after (c : Z) (r : option (jsstring * jsstring)) : option (jsstring * jsstring) :=
  match r with
  | Some (str, rest) => Some (c :: str, rest)
  | None => None
  end.

(** A unit below the surrogates other than the line feed. *)
Definition plain (u : Z) : Prop :=
  0 <= u < 0xD800 /\ u <> 10.

(** A text that can stand in a line: it holds no line feed, and it is well
    formed on its own, so that it leaves what follows as well formed as it
    was. *)
Definition line_text (s : jsstring) : Prop :=
  (10 ∉ s) /\ forall tail, well_formed_string (s ++ tail) = well_formed_string tail.

(** The line the relay writes for a delta text, without its line feed, and
    with it. *)
Definition fragment_line `{engine : Engine} (delta : jsstring) : jsstring :=
  stringify_response (Some (JString delta)).

Definition serialize `{engine : Engine} (delta : jsstring) : jsstring :=
  fragment_line delta ++ [10].

(** ** Fragments *)

(** The delta text a line carries, when the line parses to a value whose
    [response] is a string. *)
Definition delta_of (line : jsstring) : option jsstring :=
  match bind (JSON_parse line) get_response with
  | Ok (Some (JString delta)) => Some delta
  | _ => None
  end.

(** The lines a sequence of reads is cut into: every read is decoded and
    split on its own. *)
Definition lines_of (reads : list bytes) : list jsstring :=
  concat (map (fun value => split 10 (TextDecoder_decode value)) reads).

(** Texts that end their lines: every line followed by a line feed. *)
Definition terminated (lines : list jsstring) : jsstring :=
  concat (map (fun line => line ++ [10]) lines).

End JS.

(** ** src/implementations/OllamaService.ts *)

Module OllamaService.
Import JS.

(** A value read from an object literal whose own properties are strings:
    a string, a built-in inherited from [Object.prototype], or [undefined]. *)
Inductive PropValue :=
| PString (s : jsstring)
| PBuiltin (name : jsstring)
| PUndefined.

(** The properties every ordinary object inherits from [Object.prototype]. *)
Definition Object_prototype_members : list jsstring :=
  map lit
    ["constructor"; "__defineGetter__"; "__defineSetter__"; "hasOwnProperty";
     "__lookupGetter__"; "__lookupSetter__"; "isPrototypeOf";
     "propertyIsEnumerable"; "toString"; "valueOf"; "__proto__";
     "toLocaleString"]%string.

Fixpoint own_string (key : jsstring) (own : list (jsstring * jsstring)) : option jsstring :=
  match own with
  | [] => None
  | (k, v) :: rest => if streq k key then Some v else own_string key rest
  end.

(** [object[key]]: own properties first, then the prototype. *)
Definition lookup_property (own : list (jsstring * jsstring)) (key : jsstring) : PropValue :=
  match own_string key own with
  | Some v => PString v
  | None =>
      if existsb (streq key) Object_prototype_members then PBuiltin key
      else PUndefined
  end.

(** [a || b]: [a] unless it is falsy ([undefined] or the empty string). *)
Definition or_else (a b : PropValue) : PropValue :=
  match a with
  | PUndefined => b
  | PString [] => b
  | _ => a
  end.

(** A value interpolated into a template literal. *)
Definition interpolate `{engine : Engine} (v : PropValue) : jsstring :=
  match v with
  | PString s => s
  | PBuiltin name => Builtin_toString name
  | PUndefined => lit "undefined"
  end.

Definition contentTypePrompts : list (jsstring * jsstring) :=
  [ (lit "H5P.InteractiveVideo",
     lit "Consider: timestamps for interactions, types of questions to ask at each point, visual cues, and branching scenarios.");
    (lit "H5P.Course",
     lit "Structure your course with: main topics, subtopics, learning objectives, assessment criteria, and progression rules.");
    (lit "H5P.QuestionSet",
     lit "Include variety in question types: multiple choice, true/false, fill in the blanks, matching, and drag-and-drop.");
    (lit "H5P.InteractiveBook",
     lit "Plan chapters with: multimedia content, interactive elements, self-assessment, and navigation structure.");
    (lit "H5P.Timeline",
     lit "Organize events with: dates, descriptions, media elements, and connections between events.");
    (lit "H5P.BranchingScenario",
     lit "Design decision trees with: multiple paths, consequences, feedback, and learning outcomes.") ].

Definition fallbackPrompt : jsstring :=
  lit "Consider the best way to present this content interactively.".

Definition getContentTypePrompt (contentType : jsstring) : PropValue :=
  or_else (lookup_property contentTypePrompts contentType) (PString fallbackPrompt).

(** The body of [POST {baseUrl}/api/generate].  The two numbers of [options]
    are kept as the decimal literals of the source. *)
Record GenerateOptions := { temperature : jsstring; top_p : jsstring }.

Record GenerateRequest := {
  url : jsstring;
  model : jsstring;
  prompt : JSValue;
  context : option (list Z);
  stream : bool;
  options : GenerateOptions
}.

(** What the transport of a streamed reply does while [chatStream] awaits
    its next read: bytes arrive, or another task calls [stopStream]. *)
Inductive Event :=
| Arrives (value : bytes)
| Stops.

(** How a reply body finishes when it is not cut short. *)
Inductive Ending :=
| EndOfStream
| Breaks (e : Exn).

Record Body := { schedule : list Event; ending : Ending }.

(** The upstream endpoint as the service meets it: what [axios.post]
    resolves to ([response.data]: the reply parsed as JSON, or the reply
    text as a string when it is not JSON) and what [fetch] resolves to (a
    response whose [body] may be missing). *)
Record Upstream := {
  post_generate : GenerateRequest -> Throws JValue;
  fetch_generate : GenerateRequest -> Throws (option Body)
}.

(** The [AbortController]s allocated so far, each by its [signal.aborted]
    flag, and the requests sent upstream so far. *)
Record World := {
  controllers : list bool;
  calls : list GenerateRequest
}.

Record Service := {
  baseUrl : jsstring;
  serviceModel : jsstring;
  abortController : option nat
}.

Definition constructor (baseUrl model : option jsstring) : Service :=
  {| baseUrl := default (lit "http://localhost:11434") baseUrl;
     serviceModel := default (lit "llama2") model;
     abortController := None |}.

Definition set_abortController (c : option nat) (this : Service) : Service :=
  {| baseUrl := baseUrl this; serviceModel := serviceModel this;
     abortController := c |}.

Definition abort (c : nat) (w : World) : World :=
  {| controllers := <[c := true]> (controllers w); calls := calls w |}.

Definition new_AbortController (w : World) : nat * World :=
  (length (controllers w),
   {| controllers := controllers w ++ [false]; calls := calls w |}).

Definition aborted (c : nat) (w : World) : bool :=
  default false (controllers w !! c).

Definition send (r : GenerateRequest) (w : World) : World :=
  {| controllers := controllers w; calls := calls w ++ [r] |}.

Definition stopStream (w : World) (this : Service) : World * Service :=
  match abortController this with
  | Some c => (abort c w, set_abortController None this)
  | None => (w, this)
  end.

Definition generate_url (this : Service) : jsstring :=
  baseUrl this ++ lit "/api/generate".

(** The request both [chat] and [chatStream] post: the same object literal
    but for its [stream] property. *)
Definition generateRequest (this : Service) (prompt : JSValue)
    (context : option (list Z)) (stream : bool) : GenerateRequest :=
  {| url := generate_url this; model := serviceModel this; prompt := prompt;
     context := context; stream := stream;
     options := {| temperature := lit "0.7"; top_p := lit "0.9" |} |}.

Definition chat (up : Upstream) (prompt : jsstring) (context : option (list Z))
    (w : World) (this : Service) : Throws JValue * World :=
  let request := generateRequest this (Some (JString prompt)) context false in
  match post_generate up request with
  | Ok data => (Ok data, send request w)
  | Throw _ => (Throw (Error (lit "Failed to get response from Ollama")), send request w)
  end.

(** A [StreamCallback] acting on a state of type [S]: the function itself
    and its two optional properties. *)
Record StreamCallback (S : Type) := {
  call : JSValue -> S -> S;
  onComplete : option (S -> S);
  onError : option (Exn -> S -> S)
}.
Arguments call {S}.
Arguments onComplete {S}.
Arguments onError {S}.

(** The body of [for (const line of lines)]: a blank line is passed over; a
    line that fails to parse, or whose value has no readable [response], is
    caught and only logged. *)
Definition handleLine {S} (callback : StreamCallback S) (line : jsstring) (acc : S) : S :=
  if truthy (trim line) then
    match bind (JSON_parse line) get_response with
    | Ok chunk => call callback chunk acc
    | Throw _ => acc
    end
  else acc.

Definition handleChunk {S} (callback : StreamCallback S) (value : bytes) (acc : S) : S :=
  let chunk := TextDecoder_decode value in
  let lines := split 10 chunk in
  fold_left (fun a line => handleLine callback line a) lines acc.

(** The bytes the reads of a schedule deliver, in order. *)
Fixpoint arrivals (schedule : list Event) : list bytes :=
  match schedule with
  | [] => []
  | Arrives value :: rest => value :: arrivals rest
  | Stops :: rest => arrivals rest
  end.

(** The chunks of several reads handled one after the other. *)
Definition handleChunks {S} (callback : StreamCallback S) (values : list bytes) (acc : S) : S :=
  fold_left (fun a value => handleChunk callback value a) values acc.

(** Several lines handled one after the other. *)
Definition handleLines {S} (callback : StreamCallback S) (lines : list jsstring) (acc : S) : S :=
  fold_left (fun a line => handleLine callback line a) lines acc.

(** The [while (true)] loop.  [signal] is the controller whose signal the
    request carries: once it is aborted the pending read rejects with an
    [AbortError]. *)
Fixpoint readLoop {S} (callback : StreamCallback S) (signal : nat)
    (schedule : list Event) (ending : Ending)
    (w : World) (this : Service) (acc : S) : Throws unit * World * Service * S :=
  match schedule with
  | Stops :: rest =>
      let '(w', this') := stopStream w this in
      readLoop callback signal rest ending w' this' acc
  | Arrives value :: rest =>
      if aborted signal w then (Throw AbortError, w, this, acc)
      else readLoop callback signal rest ending w this (handleChunk callback value acc)
  | [] =>
      if aborted signal w then (Throw AbortError, w, this, acc)
      else
        match ending with
        | EndOfStream =>
            (Ok tt, w, this,
             match onComplete callback with Some f => f acc | None => acc end)
        | Breaks e => (Throw e, w, this, acc)
        end
  end.

Definition chatStream {S} (up : Upstream) (prompt : JSValue)
    (callback : StreamCallback S) (context : option (list Z))
    (w : World) (this : Service) (acc : S) : Throws unit * World * Service * S :=
  let '(c, w) := new_AbortController w in
  let this := set_abortController (Some c) this in
  let request := generateRequest this prompt context true in
  let w := send request w in
  let '(result, w, this, acc) :=
    match fetch_generate up request with
    | Throw e => (Throw e, w, this, acc)
    | Ok None => (Throw (Error (lit "Failed to get response reader")), w, this, acc)
    | Ok (Some body) => readLoop callback c (schedule body) (ending body) w this acc
    end in
  let '(result, acc) :=
    match result with
    | Ok tt => (Ok tt, acc)
    | Throw AbortError => (Ok tt, acc)
    | Throw e =>
        (Throw e, match onError callback with Some f => f e acc | None => acc end)
    end in
  (result, w, set_abortController None this, acc).

Definition newline : jsstring := [10].
Definition indent : jsstring := lit "        ".

(** The template literal of [getH5PContentSuggestions]. *)
Definition suggestionsPrompt `{engine : Engine} (contentType description : jsstring)
    (typeSpecificPrompt : PropValue) : jsstring :=
    lit "As an H5P content creation assistant, help me create " ++ contentType
    ++ lit " content with the following description: " ++ description ++ lit "."
    ++ newline ++ indent
    ++ newline ++ indent ++ interpolate typeSpecificPrompt
    ++ newline ++ indent
    ++ newline ++ indent ++ lit "Please provide specific suggestions including:"
    ++ newline ++ indent ++ lit "1. Content Structure"
    ++ newline ++ indent ++ lit "2. Interactive Elements"
    ++ newline ++ indent ++ lit "3. Learning Objectives"
    ++ newline ++ indent ++ lit "4. Assessment Strategies"
    ++ newline ++ indent ++ lit "5. Technical Implementation Tips"
    ++ newline ++ indent
    ++ newline ++ indent
    ++ lit "Format your response in clear sections with bullet points for easy implementation.".

Definition getH5PContentSuggestions `{engine : Engine} (up : Upstream)
    (contentType description : jsstring) (w : World) (this : Service)
    : Throws JSValue * World :=
  let typeSpecificPrompt := getContentTypePrompt contentType in
  let prompt := suggestionsPrompt contentType description typeSpecificPrompt in
  let '(result, w) := chat up prompt None w this in
  (bind result get_response, w).

(** An upstream whose streamed reply follows the given schedule. *)
Definition streaming_upstream (post : GenerateRequest -> Throws JValue)
    (schedule : list Event) (ending : Ending) : Upstream :=
  {| post_generate := post;
     fetch_generate := fun _ => Ok (Some {| schedule := schedule; ending := ending |}) |}.

End OllamaService.

(** ** The routes of the relay *)

Module Routes.
Import JS OllamaService.

(** [req.body], destructured: a field is a string or missing. *)
Record RequestBody := {
  contentType : option jsstring;
  description : option jsstring
}.

(** [!field]: a missing field and the empty string are falsy. *)
Definition missing (field : option jsstring) : bool :=
  match field with
  | Some (_ :: _) => false
  | _ => true
  end.

(** What the client receives: a JSON reply with its status, or the piped
    stream, i.e. the chunks pushed so far and whether [push(null)] ended
    it. *)
Inductive Reply :=
| Json (status : Z) (body : jsstring)
| Piped (writes : list jsstring) (ended : bool).

Definition json_field (key value : jsstring) : jsstring :=
  [123] ++ QuoteJSONString key ++ [58] ++ QuoteJSONString value ++ [125].

(** [JSON.stringify] of an object with one property. *)
Definition json_value `{engine : Engine} (key : jsstring) (value : JSValue) : jsstring :=
  match value with
  | None => lit "{}"
  | Some v => [123] ++ QuoteJSONString key ++ [58] ++ stringify v ++ [125]
  end.

(** [POST /api/v1/h5p/chat/suggestions] *)
Definition suggestions `{engine : Engine} (up : Upstream) (body : RequestBody)
    (w : World) (this : Service) : Reply * World :=
  if missing (contentType body) || missing (description body) then
    (Json 400 (json_field (lit "error") (lit "Content type and description are required")), w)
  else
    match getH5PContentSuggestions up (default [] (contentType body))
            (default [] (description body)) w this with
    | (Ok suggestions, w) => (Json 200 (json_value (lit "suggestions") suggestions), w)
    | (Throw _, w) =>
        (Json 500 (json_field (lit "error") (lit "Failed to get content suggestions")), w)
    end.

(** The callback handed to [chatStream]: one [stream.push] per chunk. *)
Definition pushChunk `{engine : Engine} : StreamCallback (list jsstring) :=
  {| call := fun chunk pushed => pushed ++ [stringify_response chunk ++ newline];
     onComplete := None;
     onError := None |}.

(** The chunk the relay pushes for a line of the upstream reply, if it
    pushes one. *)
Definition write_of `{engine : Engine} (line : jsstring) : option jsstring :=
  if truthy (trim line) then
    match bind (JSON_parse line) get_response with
    | Ok chunk => Some (stringify_response chunk ++ newline)
    | Throw _ => None
    end
  else None.

(** [POST /api/v1/h5p/chat/suggestions/stream].  In the [catch], the JSON
    reply can only be sent while nothing has been written to the response;
    after a write the headers are gone, [res.json] throws in turn and the
    stream is left open. *)
Definition suggestionsStream `{engine : Engine} (up : Upstream) (body : RequestBody)
    (w : World) (this : Service) : Reply * World * Service :=
  if missing (contentType body) || missing (description body) then
    (Json 400 (json_field (lit "error") (lit "Content type and description are required")),
     w, this)
  else
    let failure :=
      Json 500 (json_field (lit "error") (lit "Failed to stream content suggestions")) in
    match getH5PContentSuggestions up (default [] (contentType body))
            (default [] (description body)) w this with
    | (Throw _, w) => (failure, w, this)
    | (Ok prompt, w) =>
        match chatStream up prompt pushChunk None w this [] with
        | (Ok tt, w, this, pushed) => (Piped pushed true, w, this)
        | (Throw _, w, this, []) => (failure, w, this)
        | (Throw _, w, this, pushed) => (Piped pushed false, w, this)
        end
    end.

End Routes.

(** ** The chat component *)

Module H5PChat.
Import JS.

Inductive Role := user | assistant.

Record Message := {
  role : Role;
  content : jsstring;
  timestamp : Z
}.

Definition set_content (text : jsstring) (m : Message) : Message :=
  {| role := role m; content := text; timestamp := timestamp m |}.

(** The component between two events.  [store] holds the [Message]
    objects; [messages] is the array of the [messages] state, an array of
    references into the store; [unmounted] records that a state updater
    threw while React rendered, after which React has removed the component
    and state setters do nothing. *)
Record State := {
  store : list Message;
  messages : list nat;
  input : jsstring;
  isLoading : bool;
  unmounted : bool
}.

Definition initial : State :=
  {| store := []; messages := []; input := []; isLoading := false;
     unmounted := false |}.

(** The log as the component renders it. *)
Definition rendered (st : State) : list Message :=
  omap (fun r => store st !! r) (messages st).

(** An object literal: a new object in the store. *)
Definition new_Message (m : Message) (st : State) : nat * State :=
  (length (store st),
   {| store := store st ++ [m]; messages := messages st; input := input st;
      isLoading := isLoading st; unmounted := unmounted st |}).

(** [setMessages(updater)]: React runs the updater on the current array; an
    updater that throws takes the component down. *)
Definition setMessages
    (updater : list Message -> list nat -> Throws (list Message * list nat))
    (st : State) : State :=
  if unmounted st then st
  else
    match updater (store st) (messages st) with
    | Ok (store', messages') =>
        {| store := store'; messages := messages'; input := input st;
           isLoading := isLoading st; unmounted := false |}
    | Throw _ =>
        {| store := store st; messages := messages st; input := input st;
           isLoading := isLoading st; unmounted := true |}
    end.

Definition setInput (text : jsstring) (st : State) : State :=
  if unmounted st then st
  else {| store := store st; messages := messages st; input := text;
          isLoading := isLoading st; unmounted := false |}.

Definition setIsLoading (b : bool) (st : State) : State :=
  if unmounted st then st
  else {| store := store st; messages := messages st; input := input st;
          isLoading := b; unmounted := false |}.

(** [prev => [...prev, message]] *)
Definition appendMessage (message : nat) (objects : list Message) (prev : list nat)
    : Throws (list Message * list nat) :=
  Ok (objects, prev ++ [message]).

(** The updater of the read loop:
    [prev => { const newMessages = [...prev];
               const lastMessage = newMessages[newMessages.length - 1];
               if (lastMessage.role === 'assistant')
                 lastMessage.content += parsed.response;
               return newMessages; }].
    The copy shares the [Message] objects with [prev], so the assignment
    writes into the store. *)
Definition applyFragment `{engine : Engine} (parsed : JValue)
    (objects : list Message) (prev : list nat) : Throws (list Message * list nat) :=
  let newMessages := prev in
  match newMessages !! (length newMessages - 1)%nat with
  | None => Throw TypeError
  | Some ref =>
      match objects !! ref with
      | None => Throw TypeError
      | Some lastMessage =>
          match role lastMessage with
          | assistant =>
              bind (get_response parsed) (fun delta =>
              bind (ToString_value delta) (fun text =>
              Ok (<[ref := set_content (content lastMessage ++ text) lastMessage]> objects,
                  newMessages)))
          | user => Ok (objects, newMessages)
          end
      end
  end.

(** The body of [for (const line of lines)]. *)
Definition handleLine `{engine : Engine} (line : jsstring) (st : State) : State :=
  if truthy (trim line) then
    match JSON_parse line with
    | Ok parsed => setMessages (applyFragment parsed) st
    | Throw _ => st
    end
  else st.

Definition handleChunk `{engine : Engine} (value : bytes) (st : State) : State :=
  let chunk := TextDecoder_decode value in
  let lines := split 10 chunk in
  fold_left (fun s line => handleLine line s) lines st.

(** Several lines handled one after the other. *)
Definition handleLines `{engine : Engine} (lines : list jsstring) (st : State) : State :=
  fold_left (fun s line => handleLine line s) lines st.

(** How the response body finishes. *)
Inductive Ending :=
| Done
| Rejects (e : Exn).

Record Body := { reads : list bytes; ending : Ending }.

Record Response := { status : Z; body : option Body }.

(** The request the component sends. *)
Record Request := { contentType : jsstring; description : jsstring }.

(** What surrounds one call of [handleSubmit]: what [fetch] resolves to and
    the three readings of the clock. *)
Record Env := {
  fetch : Request -> Throws Response;
  date_submit : Z;
  date_response : Z;
  date_error : Z
}.

Definition apology : jsstring :=
  lit "Sorry, I encountered an error while getting suggestions.".

(** The [catch] block. *)
Definition handleError (env : Env) (st : State) : State :=
  let '(errorMessage, st) :=
    new_Message {| role := assistant; content := apology;
                   timestamp := date_error env |} st in
  setMessages (appendMessage errorMessage) st.

(** The [try] block. *)
Definition requestAndRead `{engine : Engine} (contentType input : jsstring) (env : Env)
    (st : State) : State :=
  match fetch env {| contentType := contentType; description := input |} with
  | Throw _ => handleError env st
  | Ok streamResponse =>
      let '(assistantMessage, st) :=
        new_Message {| role := assistant; content := [];
                       timestamp := date_response env |} st in
      let st := setMessages (appendMessage assistantMessage) st in
      match body streamResponse with
      | None => handleError env st
      | Some b =>
          let st := fold_left (fun s value => handleChunk value s) (reads b) st in
          match ending b with
          | Done => st
          | Rejects _ => handleError env st
          end
      end
  end.

(** [handleSubmit], called with the component in state [st].  The promise
    it returns is fulfilled with [undefined] on every path, which is the
    first component of the result. *)
Definition handleSubmit `{engine : Engine} (contentType : jsstring) (env : Env) (st : State)
    : Throws unit * State :=
  if negb (truthy (trim (input st))) || isLoading st then (Ok tt, st)
  else
    let input0 := input st in
    let '(userMessage, st) :=
      new_Message {| role := user; content := input0;
                     timestamp := date_submit env |} st in
    let st := setMessages (appendMessage userMessage) st in
    let st := setInput [] st in
    let st := setIsLoading true st in
    let st := requestAndRead contentType input0 env st in
    (Ok tt, setIsLoading false st).

(** What the properties below speak of. *)

(** Every reference of the log names an object of the store and none occurs
    twice: each [Message] object is created by [handleSubmit] and appended
    once. *)
Definition well_formed (st : State) : Prop :=
  NoDup (messages st) /\
  Forall (fun ref => (ref < length (store st))%nat) (messages st).

(** The state in which an accepted [handleSubmit] sends its request: the
    user message is in the log, the input is cleared, [isLoading] is set. *)
Definition started (env : Env) (st : State) : State :=
  {| store := store st ++ [{| role := user; content := input st;
                              timestamp := date_submit env |}];
     messages := messages st ++ [length (store st)];
     input := []; isLoading := true; unmounted := false |}.

(** The state while the reply is read: after the log of [st] come the user
    message and the open assistant message, whose text so far is [text]. *)
Definition reading (env : Env) (st : State) (text : jsstring) : State :=
  {| store := store st ++ [{| role := user; content := input st;
                              timestamp := date_submit env |};
                           {| role := assistant; content := text;
                              timestamp := date_response env |}];
     messages := messages st ++ [length (store st); S (length (store st))];
     input := []; isLoading := true; unmounted := false |}.

(** The ways the request fails before any byte of the reply is read: [fetch]
    rejects, the response has no body to read, or the first read rejects. *)
Inductive fails_before_data : Throws Response -> Prop :=
| fetch_rejects (e : Exn) : fails_before_data (Throw e)
| no_reader (status : Z) :
    fails_before_data (Ok {| status := status; body := None |})
| first_read_rejects (status : Z) (e : Exn) :
    fails_before_data
      (Ok {| status := status;
             body := Some {| reads := []; ending := Rejects e |} |}).

(** Whether the open assistant message was created: it is once [fetch] has
    resolved. *)
Definition resolved (r : Throws Response) : bool :=
  match r with
  | Ok _ => true
  | Throw _ => false
  end.

(** The text of the last message of the log. *)
Definition last_text (st : State) : option jsstring :=
  content <$> rendered st !! (length (rendered st) - 1)%nat.

(** A state with its [unmounted] flag set as given: what is left of the
    component once an updater has thrown. *)
Definition set_unmounted (u : bool) (st : State) : State :=
  {| store := store st; messages := messages st; input := input st;
     isLoading := isLoading st; unmounted := u |}.

End H5PChat.

(** ** The relay as the component's [fetch] *)

Module EndToEnd.
Import JS.

(** Cuts a list into consecutive groups of the given sizes; what is left
    forms the last group. *)
Fixpoint regroup {A} (sizes : list nat) (l : list A) : list (list A) :=
  match sizes with
  | [] => [l]
  | n :: sizes' => take n l :: regroup sizes' (drop n l)
  end.

(** The bytes of one read that carries the given writes, each write encoded
    on its own. *)
Definition read_of (writes : list jsstring) : bytes :=
  concat (map utf8_encode writes).

Definition writes_of (reply : Routes.Reply) : list jsstring :=
  match reply with
  | Routes.Json _ body => [body]
  | Routes.Piped writes _ => writes
  end.

(** A reply as the browser reads it when every read carries whole writes:
    [sizes] gives the number of writes per read.  A stream the relay never
    ends finishes when the connection is torn down, and the pending read
    rejects. *)
Definition deliver (sizes : list nat) (reply : Routes.Reply) : H5PChat.Response :=
  {| H5PChat.status :=
       match reply with Routes.Json status _ => status | Routes.Piped _ _ => 200 end;
     H5PChat.body :=
       Some {| H5PChat.reads := map read_of (regroup sizes (writes_of reply));
               H5PChat.ending :=
                 match reply with
                 | Routes.Piped _ false => H5PChat.Rejects TypeError
                 | _ => H5PChat.Done
                 end |} |}.

(** [fetch('/api/v1/h5p/chat/suggestions/stream', ...)] served by the relay. *)
Definition relay `{engine : Engine} (up : OllamaService.Upstream) (sizes : list nat)
    (w : OllamaService.World) (this : OllamaService.Service)
    (request : H5PChat.Request) : Throws H5PChat.Response :=
  let body :=
    {| Routes.contentType := Some (H5PChat.contentType request);
       Routes.description := Some (H5PChat.description request) |} in
  Ok (deliver sizes (Routes.suggestionsStream up body w this).1.1).

(** An upstream reply body that arrives in reads of whole lines. *)
Definition upstream_body (sizes : list nat) (lines : list jsstring) : OllamaService.Body :=
  {| OllamaService.schedule :=
       map OllamaService.Arrives
           (map read_of (regroup sizes (map (fun l => l ++ [10]) lines)));
     OllamaService.ending := OllamaService.EndOfStream |}.

(** An upstream line with the delta it carries: the line holds no line
    feed, is well formed, and parses to a value whose [response] is the
    delta. *)
Definition carries (f : jsstring * jsstring) : Prop :=
  (10 ∉ f.1) /\ well_formed_string f.1 = true /\ delta_of f.1 = Some f.2.

End EndToEnd.

(** ** Concrete data for the closed statements *)

Module Sample.
Import JS.

(** An engine for closed statements: a number prints as its lexeme and a
    built-in function in the usual form. *)
Definition engine : Engine :=
  {| Number_toString := fun lexeme => lexeme;
     Number_toJSON := fun lexeme => lexeme;
     Builtin_toString := fun name => lit "function " ++ name ++ lit "() { [native code] }" |}.

Definition world : OllamaService.World :=
  {| OllamaService.controllers := []; OllamaService.calls := [] |}.

Definition service : OllamaService.Service := OllamaService.constructor None None.

(** The three lines of the end-to-end scenario. *)
Definition lines : list jsstring :=
  [dq "{'response':'Struct'}"; dq "{'response':'ure: '}"; dq "{'response':'...'}"].

(** An upstream that answers the plain call with one JSON object and the
    streamed call with the three lines, one per read. *)
Definition upstream : OllamaService.Upstream :=
  {| OllamaService.post_generate := fun _ =>
       Ok (JObject [(lit "response", JString (lit "1. Content Structure ..."))]);
     OllamaService.fetch_generate := fun _ =>
       Ok (Some (EndToEnd.upstream_body [1%nat; 1%nat; 1%nat] lines)) |}.

(** Two reads of a streamed reply, and a third. *)
Definition two_reads : list OllamaService.Event :=
  [OllamaService.Arrives (utf8_encode (dq "{'response':'Struct'}" ++ [10]));
   OllamaService.Arrives (utf8_encode (dq "{'response':'ure: '}" ++ [10]))].

Definition third_read : list OllamaService.Event :=
  [OllamaService.Arrives (utf8_encode (dq "{'response':'...'}" ++ [10]))].

(** One read of three lines, the second of which is not JSON. *)
Definition read_with_bad_line : bytes :=
  utf8_encode (dq "{'response':'Struct'}" ++ [10] ++ lit "not json" ++ [10]
               ++ dq "{'response':'ure: '}" ++ [10]).

(** The deltas of the three lines. *)
Definition deltas : list jsstring := [lit "Struct"; lit "ure: "; lit "..."].

(** The line of the delta [Hi], cut into two reads after nine bytes. *)
Definition split_reads : list bytes :=
  [ take 9 (utf8_encode (serialize (engine := engine) (lit "Hi")));
    drop 9 (utf8_encode (serialize (engine := engine) (lit "Hi"))) ].

(** The line of the delta of one two-byte character, cut inside the
    character. *)
Definition split_character_reads : list bytes :=
  [ take 14 (utf8_encode (serialize (engine := engine) [0xE9]));
    drop 14 (utf8_encode (serialize (engine := engine) [0xE9])) ].

Definition request : Routes.RequestBody :=
  {| Routes.contentType := Some (lit "H5P.Course");
     Routes.description := Some (lit "intro to photosynthesis") |}.

Definition typing (text : string) : H5PChat.State :=
  H5PChat.setInput (lit text) H5PChat.initial.

(** The component while a reply is being read: the user message and the open
    assistant message are in the log and [isLoading] is set. *)
Definition streaming : H5PChat.State :=
  {| H5PChat.store :=
       [ {| H5PChat.role := H5PChat.user; H5PChat.content := lit "first question";
            H5PChat.timestamp := 1 |};
         {| H5PChat.role := H5PChat.assistant; H5PChat.content := lit "Struct";
            H5PChat.timestamp := 2 |} ];
     H5PChat.messages := [0%nat; 1%nat];
     H5PChat.input := lit "second question";
     H5PChat.isLoading := true;
     H5PChat.unmounted := false |}.

(** A [fetch] that resolves to a body delivering the given reads. *)
Definition env_reading (reads : list bytes) (ending : H5PChat.Ending) : H5PChat.Env :=
  {| H5PChat.fetch := fun _ =>
       Ok {| H5PChat.status := 200;
             H5PChat.body := Some {| H5PChat.reads := reads; H5PChat.ending := ending |} |};
     H5PChat.date_submit := 1; H5PChat.date_response := 2; H5PChat.date_error := 3 |}.

(** A [fetch] that rejects. *)
Definition env_unreachable : H5PChat.Env :=
  {| H5PChat.fetch := fun _ => Throw TypeError;
     H5PChat.date_submit := 1; H5PChat.date_response := 2; H5PChat.date_error := 3 |}.

(** What a callback that keeps a record has seen. *)
Inductive Seen :=
| Chunk (chunk : JSValue)
| Completed
| Failed (e : Exn).

(** A callback with both optional properties, recording every call. *)
Definition recorder : OllamaService.StreamCallback (list Seen) :=
  {| OllamaService.call := fun chunk seen => seen ++ [Chunk chunk];
     OllamaService.onComplete := Some (fun seen => seen ++ [Completed]);
     OllamaService.onError := Some (fun e seen => seen ++ [Failed e]) |}.

(** An upstream that cannot be reached. *)
Definition unreachable : OllamaService.Upstream :=
  {| OllamaService.post_generate := fun _ => Throw (Error (lit "connect ECONNREFUSED"));
     OllamaService.fetch_generate := fun _ => Throw TypeError |}.

(** An upstream that answers the plain call with an error object. *)
Definition upstream_error : OllamaService.Upstream :=
  {| OllamaService.post_generate := fun _ =>
       Ok (JObject [(lit "error", JString (lit "model not found"))]);
     OllamaService.fetch_generate := fun _ => Throw TypeError |}.

(** Two controllers, neither aborted, and a service whose stream in flight
    holds the second. *)
Definition two_controllers : OllamaService.World :=
  {| OllamaService.controllers := [false; false]; OllamaService.calls := [] |}.

Definition service_streaming : OllamaService.Service :=
  OllamaService.set_abortController (Some 1%nat) service.

(** A request without description. *)
Definition request_without_description : Routes.RequestBody :=
  {| Routes.contentType := Some (lit "H5P.Course"); Routes.description := None |}.

(** Two lines as the upstream writes them, with the deltas they carry. *)
Definition upstream_fragments : list (jsstring * jsstring) :=
  [ (dq "{'model':'llama2','response':'Struct','done':false}", lit "Struct");
    (dq "{'model':'llama2','response':'ure','done':true}", lit "ure") ].

End Sample.

(** * Properties *)

Import JS.

(** Splits the goal on the integer comparisons in it and drops the cases
    that arithmetic excludes. *)
Ltac zcases :=
  repeat first
    [ progress cbn [andb orb negb code_point bytes_seen bytes_needed
                    lower_boundary upper_boundary utf8_init app]
    | match goal with
      | |- context [?a <=? ?b] =>
          destruct (Z.leb_spec a b); try (exfalso; Z.div_mod_to_equations; lia)
      | |- context [?a <? ?b] =>
          destruct (Z.ltb_spec a b); try (exfalso; Z.div_mod_to_equations; lia)
      | |- context [?a =? ?b] =>
          destruct (Z.eqb_spec a b); try (exfalso; Z.div_mod_to_equations; lia)
      end ].

(** ** Strings *)

Lemma streq_true (a b : jsstring) : streq a b = true <-> a = b.
Proof. unfold streq. apply bool_decide_eq_true. Qed.

Lemma streq_false (a b : jsstring) : streq a b = false <-> a <> b.
Proof. unfold streq. apply bool_decide_eq_false. Qed.

Lemma streq_refl (a : jsstring) : streq a a = true.
Proof. by apply streq_true. Qed.

(** ** The guidance per content type *)

Section Guidance.
Import OllamaService.

Lemma own_string_In (key text : jsstring) (own : list (jsstring * jsstring)) :
  own_string key own = Some text -> In (key, text) own.
Proof.
  induction own as [|[k v] own IH]; cbn [own_string]; [discriminate|].
  destruct (streq k key) eqn:Hk.
  - apply streq_true in Hk. intros [= <-]. subst k. by left.
  - intros Hown. right. by apply IH.
Qed.

(** Away from the names every object inherits, the function is total with
    the fixed fallback: an own guidance text for the six known content
    types, the fallback text for everything else. *)
Lemma getContentTypePrompt_plain (contentType : jsstring) :
  existsb (streq contentType) Object_prototype_members = false ->
  exists text,
    getContentTypePrompt contentType = PString text /\ text <> [] /\
    (In (contentType, text) contentTypePrompts \/
     (own_string contentType contentTypePrompts = None /\ text = fallbackPrompt)).
Proof.
  intros Hproto. unfold getContentTypePrompt, lookup_property.
  destruct (own_string contentType contentTypePrompts) as [text|] eqn:Hown.
  - apply own_string_In in Hown.
    exists text. split; [|split; [|by left]].
    + destruct text; [|done]. exfalso.
      cbn in Hown. intuition discriminate.
    + intros ->. cbn in Hown. intuition discriminate.
  - rewrite Hproto. exists fallbackPrompt. cbn. split; [done|].
    split; [discriminate|by right].
Qed.

(** C10 (the code at the failing input): for the content type
    ["constructor"] the lookup finds the member of that name that the object
    literal inherits from [Object.prototype]; it is truthy, so the function
    returns that built-in function and not the fallback text, nor any
    string. *)
Theorem getContentTypePrompt_constructor :
  getContentTypePrompt (lit "constructor") = PBuiltin (lit "constructor") /\
  (forall text, getContentTypePrompt (lit "constructor") <> PString text) /\
  own_string (lit "constructor") contentTypePrompts = None.
Proof.
  split; [reflexivity|]. split; [|reflexivity].
  intros text. vm_compute. discriminate.
Qed.

End Guidance.

(** ** Cancelling *)

Section Cancel.
Import OllamaService.

Lemma stopStream_twice (w : World) (this : Service) :
  stopStream (stopStream w this).1 (stopStream w this).2 = stopStream w this.
Proof.
  unfold stopStream. destruct (abortController this) eqn:Hc; cbn.
  - reflexivity.
  - by rewrite Hc.
Qed.

Lemma stopStream_released (w : World) (this : Service) :
  abortController this = None -> stopStream w this = (w, this).
Proof. intros Hc. unfold stopStream. by rewrite Hc. Qed.

Lemma chatStream_releases {S} (up : Upstream) (prompt : JSValue)
    (callback : StreamCallback S) (context : option (list Z))
    (w : World) (this : Service) (acc : S) :
  abortController (chatStream up prompt callback context w this acc).1.2 = None.
Proof.
  unfold chatStream. cbn.
  repeat match goal with
         | |- context [match ?x with _ => _ end] => destruct x
         | |- context [let '(_, _) := ?x in _] => destruct x
         end; reflexivity.
Qed.

(** C5: [stopStream] is idempotent and always safe.  It is a total function
    that throws nothing; a second call changes neither the controllers nor
    the service; and after [chatStream] has returned, however the stream
    finished, the service holds no controller and [stopStream] changes
    nothing. *)
Theorem stopStream_idempotent_and_safe :
  (forall (w : World) (this : Service),
      stopStream (stopStream w this).1 (stopStream w this).2 = stopStream w this /\
      abortController (stopStream w this).2 = None) /\
  (forall S (up : Upstream) (prompt : JSValue) (callback : StreamCallback S)
          (context : option (list Z)) (w : World) (this : Service) (acc : S),
      let after := chatStream up prompt callback context w this acc in
      abortController after.1.2 = None /\
      stopStream after.1.1.2 after.1.2 = (after.1.1.2, after.1.2)).
Proof.
  split.
  - intros w this. split; [apply stopStream_twice|].
    unfold stopStream. by destruct (abortController this) eqn:Hc.
  - intros S up prompt callback context w this acc after.
    pose proof (chatStream_releases up prompt callback context w this acc) as Hc.
    split; [exact Hc|]. by apply stopStream_released.
Qed.

End Cancel.

(** ** Cancelling a stream in flight *)

Section CancelInFlight.
Import OllamaService.
Context {S : Type} (callback : StreamCallback S).

Lemma aborted_abort (c : nat) (w : World) :
  (c < length (controllers w))%nat -> aborted c (abort c w) = true.
Proof.
  intros Hc. unfold aborted, abort. cbn.
  by rewrite list_lookup_insert_eq.
Qed.

(** Once the signal is aborted and the service has let go of the
    controller, the loop stops at its next read, whatever the transport
    still holds. *)
Lemma readLoop_aborted (signal : nat) (schedule : list Event) (ending : Ending)
    (w : World) (this : Service) (acc : S) :
  aborted signal w = true -> abortController this = None ->
  readLoop callback signal schedule ending w this acc = (Throw AbortError, w, this, acc).
Proof.
  intros Hab Hnone. induction schedule as [|[value|] rest IH]; cbn.
  - by rewrite Hab.
  - by rewrite Hab.
  - rewrite (stopStream_released _ _ Hnone). exact IH.
Qed.

(** A schedule in which [stopStream] is called after the reads of [before]:
    the chunks of [before] are handled, nothing after them is. *)
Lemma readLoop_stopped (signal : nat) (before after : list Event) (ending : Ending)
    (w : World) (this : Service) (acc : S) :
  Stops ∉ before ->
  aborted signal w = false -> abortController this = Some signal ->
  (signal < length (controllers w))%nat ->
  readLoop callback signal (before ++ Stops :: after) ending w this acc =
  (Throw AbortError, abort signal w, set_abortController None this,
   handleChunks callback (arrivals before) acc).
Proof.
  intros Hno Hab Hsome Hlt. revert acc.
  induction before as [|[value|] rest IH]; intros acc; cbn.
  - unfold stopStream. rewrite Hsome.
    apply readLoop_aborted; [by apply aborted_abort|done].
  - rewrite Hab. apply IH. intros Hin. apply Hno. by right.
  - exfalso. apply Hno. by left.
Qed.

(** Without a call of [stopStream] every chunk is handled. *)
Lemma readLoop_completes (signal : nat) (schedule : list Event)
    (w : World) (this : Service) (acc : S) :
  Stops ∉ schedule -> aborted signal w = false ->
  readLoop callback signal schedule EndOfStream w this acc =
  (Ok tt, w, this,
   match onComplete callback with
   | Some f => f (handleChunks callback (arrivals schedule) acc)
   | None => handleChunks callback (arrivals schedule) acc
   end).
Proof.
  intros Hno Hab. revert acc.
  induction schedule as [|[value|] rest IH]; intros acc; cbn.
  - by rewrite Hab.
  - rewrite Hab. apply IH. intros Hin. apply Hno. by right.
  - exfalso. apply Hno. by left.
Qed.

End CancelInFlight.

Section CancelledStream.
Import OllamaService.

Lemma aborted_fresh (w : World) (r : GenerateRequest) :
  aborted (length (controllers w))
    (send r {| controllers := controllers w ++ [false]; calls := calls w |}) = false.
Proof.
  unfold aborted, send. cbn.
  by rewrite lookup_app_r, Nat.sub_diag.
Qed.

Lemma chatStream_stopped {S} (callback : StreamCallback S)
    (post : GenerateRequest -> Throws JValue) (prompt : JSValue)
    (context : option (list Z)) (w : World) (this : Service) (acc : S)
    (before after : list Event) (ending : Ending) :
  Stops ∉ before ->
  let run := chatStream (streaming_upstream post (before ++ Stops :: after) ending)
               prompt callback context w this acc in
  run.1.1.1 = Ok tt /\ run.2 = handleChunks callback (arrivals before) acc /\
  abortController run.1.2 = None /\
  aborted (length (controllers w)) run.1.1.2 = true.
Proof.
  intros Hno. unfold chatStream, new_AbortController. cbn [streaming_upstream fetch_generate schedule OllamaService.ending].
  rewrite readLoop_stopped; cbn; try done.
  - repeat split. unfold aborted. cbn.
    rewrite list_lookup_insert_eq; [done|]. rewrite length_app. cbn. lia.
  - apply aborted_fresh.
  - rewrite length_app. cbn. lia.
Qed.

Lemma chatStream_completes {S} (callback : StreamCallback S)
    (post : GenerateRequest -> Throws JValue) (prompt : JSValue)
    (context : option (list Z)) (w : World) (this : Service) (acc : S)
    (schedule : list Event) :
  Stops ∉ schedule -> onComplete callback = None ->
  let run := chatStream (streaming_upstream post schedule EndOfStream)
               prompt callback context w this acc in
  run.1.1.1 = Ok tt /\ run.2 = handleChunks callback (arrivals schedule) acc.
Proof.
  intros Hno Hnone. unfold chatStream, new_AbortController. cbn [streaming_upstream fetch_generate OllamaService.schedule OllamaService.ending].
  rewrite readLoop_completes; cbn; try done.
  - by rewrite Hnone.
  - apply aborted_fresh.
Qed.

End CancelledStream.

Section CancelledRelay.
Import OllamaService.
Context `{engine : Engine}.

Lemma suggestionsStream_stopped (post : GenerateRequest -> Throws JValue)
    (before after : list Event) (ending : Ending)
    (body : Routes.RequestBody) (w : World) (this : Service) :
  Stops ∉ before ->
  (Routes.suggestionsStream
     (streaming_upstream post (before ++ Stops :: after) ending) body w this).1.1 =
  (Routes.suggestionsStream
     (streaming_upstream post before EndOfStream) body w this).1.1.
Proof.
  intros Hno. unfold Routes.suggestionsStream.
  destruct (Routes.missing _ || Routes.missing _); [done|].
  unfold getH5PContentSuggestions, chat.
  cbn [streaming_upstream post_generate].
  match goal with |- context [post ?r] => destruct (post r) as [data|e] end;
    cbn [bind]; [|done].
  destruct (get_response data) as [prompt|e]; [|done].
  match goal with
  | |- context [chatStream ?up prompt Routes.pushChunk None ?w' this []] =>
      pose proof (chatStream_stopped Routes.pushChunk post prompt None w' this []
                    before after ending Hno) as (Hres & Hacc & _);
      pose proof (chatStream_completes Routes.pushChunk post prompt None w' this []
                    before Hno eq_refl) as (Hres' & Hacc')
  end.
  cbn zeta in Hres, Hacc, Hres', Hacc'.
  repeat match goal with
         | |- context [chatStream ?up ?p ?cb ?c ?w' ?t ?a] =>
             destruct (chatStream up p cb c w' t a) as [[[? ?] ?] ?]
         end.
  cbn in Hres, Hacc, Hres', Hacc'. subst. reflexivity.
Qed.

(** C4: after [stopStream] has cancelled the stream in flight, nothing more
    is appended.  For a reply whose reads [before] are followed by a call of
    [stopStream], [chatStream] returns normally; its callback has received
    exactly the chunks of [before], whatever the transport delivers [after]
    and however it ends; and what the relay sends down, hence what the
    component appends to the assistant message, is what it sends for a reply
    that ends after [before]. *)
Theorem cancelled_stream_appends_nothing_more {S} (callback : StreamCallback S)
    (post : GenerateRequest -> Throws JValue) (prompt : JSValue)
    (context : option (list Z)) (w : World) (this : Service) (acc : S)
    (before after : list Event) (ending : Ending) :
  Stops ∉ before ->
  let cancelled := streaming_upstream post (before ++ Stops :: after) ending in
  let finished := streaming_upstream post before EndOfStream in
  let run := chatStream cancelled prompt callback context w this acc in
  run.1.1.1 = Ok tt /\
  run.2 = handleChunks callback (arrivals before) acc /\
  (forall body : Routes.RequestBody,
      (Routes.suggestionsStream cancelled body w this).1.1 =
      (Routes.suggestionsStream finished body w this).1.1) /\
  (forall (sizes : list nat) (contentType : jsstring) (t1 t2 t3 : Z)
          (st : H5PChat.State),
      H5PChat.handleSubmit contentType
        {| H5PChat.fetch := EndToEnd.relay cancelled sizes w this;
           H5PChat.date_submit := t1; H5PChat.date_response := t2;
           H5PChat.date_error := t3 |} st =
      H5PChat.handleSubmit contentType
        {| H5PChat.fetch := EndToEnd.relay finished sizes w this;
           H5PChat.date_submit := t1; H5PChat.date_response := t2;
           H5PChat.date_error := t3 |} st).
Proof.
  intros Hno cancelled finished run.
  destruct (chatStream_stopped callback post prompt context w this acc
              before after ending Hno) as (Hres & Hacc & _).
  split; [exact Hres|]. split; [exact Hacc|]. split.
  - intros body. by apply suggestionsStream_stopped.
  - intros sizes contentType t1 t2 t3 st.
    unfold H5PChat.handleSubmit, H5PChat.requestAndRead, H5PChat.handleError.
    cbn [H5PChat.fetch H5PChat.date_submit H5PChat.date_response H5PChat.date_error].
    unfold EndToEnd.relay, cancelled, finished.
    by rewrite suggestionsStream_stopped.
Qed.

End CancelledRelay.

(** A reply of which two of the three lines arrive before [stopStream] is
    called: the third line, though it arrives, is not relayed. *)
Lemma cancelled_stream_appends_nothing_more_witness :
  (OllamaService.Stops ∉ Sample.two_reads) /\
  (Routes.suggestionsStream (engine := Sample.engine)
     (OllamaService.streaming_upstream (fun _ => Ok (JString []))
        (Sample.two_reads ++ OllamaService.Stops :: Sample.third_read)
        OllamaService.EndOfStream)
     Sample.request Sample.world Sample.service).1.1 =
  Routes.Piped [dq "{'response':'Struct'}" ++ [10]; dq "{'response':'ure: '}" ++ [10]] true.
Proof.
  assert (Hno : OllamaService.Stops ∉ Sample.two_reads).
  { unfold Sample.two_reads. rewrite !not_elem_of_cons.
    repeat split; try discriminate. apply not_elem_of_nil. }
  split; [exact Hno|].
  pose proof (cancelled_stream_appends_nothing_more (engine := Sample.engine)
                (Routes.pushChunk (engine := Sample.engine)) (fun _ => Ok (JString [])) None None
                Sample.world Sample.service [] Sample.two_reads
                Sample.third_read OllamaService.EndOfStream Hno) as (_ & _ & Hrelay & _).
  rewrite Hrelay. vm_compute. reflexivity.
Defined.

(** ** Applying one fragment to the log *)

Section Fragment.
Import H5PChat.
Context `{engine : Engine}.

(** What the updater returns when it does not throw: the same array of
    references, and a store that differs at most in the text of the last
    message, when that is an assistant message. *)
Lemma applyFragment_Ok (parsed : JValue) (objects objects' : list Message)
    (prev next : list nat) :
  applyFragment parsed objects prev = Ok (objects', next) ->
  next = prev /\
  exists ref lastMessage,
    prev !! (length prev - 1)%nat = Some ref /\ objects !! ref = Some lastMessage /\
    ((role lastMessage = user /\ objects' = objects) \/
     (role lastMessage = assistant /\
      exists text,
        bind (get_response parsed) ToString_value = Ok text /\
        objects' = <[ref := set_content (content lastMessage ++ text) lastMessage]> objects)).
Proof.
  unfold applyFragment.
  destruct (prev !! (length prev - 1)%nat) as [ref|] eqn:Hlast; [|discriminate].
  destruct (objects !! ref) as [lastMessage|] eqn:Hobj; [|discriminate].
  destruct (role lastMessage) eqn:Hrole.
  - intros [= <- <-]. split; [done|]. exists ref, lastMessage. rewrite Hrole. auto.
  - destruct (get_response parsed) as [delta|e]; cbn [bind]; [|discriminate].
    destruct (ToString_value delta) as [text|e]; cbn [bind]; [|discriminate].
    intros [= <- <-]. split; [done|]. exists ref, lastMessage. rewrite Hrole.
    repeat split; try done. right. split; [done|]. by exists text.
Qed.

(** C9: the frame of applying one fragment.  Whatever the fragment, the
    call [setMessages(prev => ...)] of the read loop leaves the array of the
    log (its length and its references), the input and the loading flag as
    they are; it leaves every object other than the last message as it is,
    hence every earlier message of the log; of the last message it keeps
    the role and the timestamp; and when the last message is not an
    assistant message the state is entirely unchanged. *)
Theorem applyFragment_frame (parsed : JValue) (st : State) :
  NoDup (messages st) ->
  let st' := setMessages (applyFragment parsed) st in
  messages st' = messages st /\
  length (store st') = length (store st) /\
  input st' = input st /\ isLoading st' = isLoading st /\
  (forall r, messages st !! (length (messages st) - 1)%nat <> Some r ->
             store st' !! r = store st !! r) /\
  (forall i, (i < length (messages st) - 1)%nat ->
             messages st' !! i ≫= (store st' !!.) = messages st !! i ≫= (store st !!.)) /\
  (forall ref m,
      messages st !! (length (messages st) - 1)%nat = Some ref ->
      store st !! ref = Some m ->
      (exists m', store st' !! ref = Some m' /\
                  role m' = role m /\ timestamp m' = timestamp m) /\
      (role m <> assistant -> st' = st)).
Proof.
  intros Hnodup st'. subst st'. unfold setMessages.
  destruct (unmounted st) eqn:Hun.
  { split_and!; try done. intros ref m _ Hm. eauto. }
  destruct (applyFragment parsed (store st) (messages st)) as [[objects' next]|e] eqn:Happ;
    cbn [store messages input isLoading].
  2:{ split_and!; try done. intros ref m Hlast Hm. split; [eauto|].
      intros Hrole. exfalso. revert Happ. unfold applyFragment.
      rewrite Hlast, Hm. destruct (role m); [done|]. by destruct Hrole. }
  apply applyFragment_Ok in Happ as (-> & ref & lastMessage & Hlast & Hobj & Hcase).
  assert (Hlt : (ref < length (store st))%nat) by (by eapply lookup_lt_Some).
  destruct Hcase as [[Hrole ->]|[Hrole (text & _ & ->)]].
  - split_and!; try done. intros ref' m _ Hm. split; [eauto|].
    intros _. destruct st; cbn in *. by subst.
  - split_and!; try done.
    + by rewrite length_insert.
    + intros r Hr. apply list_lookup_insert_ne. congruence.
    + intros i Hi. destruct (messages st !! i) as [r|] eqn:Hri; [|done]. cbn.
      apply list_lookup_insert_ne. intros <-.
      pose proof (NoDup_lookup _ _ _ _ Hnodup Hri Hlast). lia.
    + intros ref' m Hlast' Hm. rewrite Hlast in Hlast'. injection Hlast' as <-.
      rewrite Hobj in Hm. injection Hm as <-. split.
      * eexists. by rewrite list_lookup_insert_eq.
      * intros Hnot. done.
Qed.

End Fragment.

(** ** The component: submitting *)

Section Submit.
Import H5PChat.
Context `{engine : Engine}.

Lemma rendered_app (objects extra : list Message) (log : list nat) :
  Forall (fun ref => (ref < length objects)%nat) log ->
  omap (fun r => (objects ++ extra) !! r) log = omap (fun r => objects !! r) log.
Proof.
  intros Hall. induction Hall as [|r log Hr _ IH]; [done|].
  cbn. rewrite IH. by rewrite lookup_app_l.
Qed.

Lemma rendered_started (env : Env) (st : State) :
  well_formed st ->
  rendered (started env st) =
  rendered st ++ [{| role := user; content := input st; timestamp := date_submit env |}].
Proof.
  intros [_ Hall]. unfold rendered, started. cbn [store messages].
  rewrite omap_app, rendered_app by done. f_equal.
  cbn. by rewrite lookup_app_r, Nat.sub_diag.
Qed.

Lemma rendered_reading (env : Env) (st : State) (text : jsstring) :
  well_formed st ->
  rendered (reading env st text) =
  rendered st ++ [{| role := user; content := input st; timestamp := date_submit env |};
                  {| role := assistant; content := text; timestamp := date_response env |}].
Proof.
  intros [_ Hall]. unfold rendered, reading. cbn [store messages].
  rewrite omap_app, rendered_app by done. f_equal.
  cbn. rewrite !lookup_app_r by lia.
  by replace (length (store st) - length (store st))%nat with 0%nat by lia;
     replace (S (length (store st)) - length (store st))%nat with 1%nat by lia.
Qed.

(** An accepted submit runs the whole cycle from [started]. *)
Lemma handleSubmit_accepted (contentType : jsstring) (env : Env) (st : State) :
  unmounted st = false -> isLoading st = false -> truthy (trim (input st)) = true ->
  handleSubmit contentType env st =
  (Ok tt, setIsLoading false (requestAndRead contentType (input st) env (started env st))).
Proof.
  intros Hun Hload Hin. unfold handleSubmit. rewrite Hin, Hload. cbn [negb orb].
  unfold new_Message, setMessages, setInput, setIsLoading, appendMessage.
  cbn [store messages input isLoading unmounted]. rewrite Hun. reflexivity.
Qed.

(** C6 (as amended): while a stream is active, that is while [isLoading]
    is set, [handleSubmit] is a silent no-op: it leaves the message log and
    all the rest of the component state as they are, and its promise is
    fulfilled with [undefined] as for any other call; nothing tells the
    caller that the submit was dropped. *)
Theorem submit_while_loading_is_noop (contentType : jsstring) (env : Env) (st : State) :
  isLoading st = true ->
  handleSubmit contentType env st = (Ok tt, st).
Proof.
  intros Hload. unfold handleSubmit. rewrite Hload.
  by rewrite orb_true_r.
Qed.

End Submit.

Lemma submit_while_loading_is_noop_witness :
  H5PChat.isLoading Sample.streaming = true /\
  H5PChat.handleSubmit (engine := Sample.engine) (lit "H5P.Course")
    Sample.env_unreachable Sample.streaming = (Ok tt, Sample.streaming).
Proof.
  split; [reflexivity|].
  apply (submit_while_loading_is_noop (engine := Sample.engine)). reflexivity.
Defined.

(** C6 (the claim as stated fails): with a stream active, [handleSubmit]
    raises nothing; its result is the one of an accepted submit,
    [undefined], and no state records the rejection. *)
Lemma submit_rejection_not_surfaced :
  H5PChat.isLoading Sample.streaming = true /\
  (H5PChat.handleSubmit (engine := Sample.engine) (lit "H5P.Course")
     Sample.env_unreachable Sample.streaming).1 = Ok tt /\
  (H5PChat.handleSubmit (engine := Sample.engine) (lit "H5P.Course")
     Sample.env_unreachable Sample.streaming).1 =
  (H5PChat.handleSubmit (engine := Sample.engine) (lit "H5P.Course")
     Sample.env_unreachable (Sample.typing "second question")).1 /\
  ~ (exists e, (H5PChat.handleSubmit (engine := Sample.engine) (lit "H5P.Course")
                  Sample.env_unreachable Sample.streaming).1 = Throw e).
Proof.
  split; [reflexivity|]. split; [reflexivity|]. split; [reflexivity|].
  intros [e He]. vm_compute in He. discriminate He.
Qed.

(** ** The component: a request that fails before any data *)

Section Failure.
Import H5PChat.
Context `{engine : Engine}.

Lemma last_lookup_snoc {A} (l : list A) (x : A) :
  (l ++ [x]) !! (length (l ++ [x]) - 1)%nat = Some x.
Proof.
  rewrite length_app. cbn [length]. rewrite lookup_app_r by lia.
  by replace (length l + 1 - 1 - length l)%nat with 0%nat by lia.
Qed.

Lemma omap_lookup_seq (objects extra : list Message) :
  omap (fun r => (objects ++ extra) !! r) (seq (length objects) (length extra)) = extra.
Proof.
  revert objects. induction extra as [|m extra IH]; intros objects; [done|].
  cbn. rewrite lookup_app_r, Nat.sub_diag by lia. cbn.
  f_equal. specialize (IH (objects ++ [m])).
  rewrite length_app, <- app_assoc in IH. cbn in IH.
  by rewrite Nat.add_1_r in IH.
Qed.

(** The log after new objects have been created and appended to it. *)
Lemma rendered_pushed (objects extra : list Message) (log : list nat) :
  Forall (fun ref => (ref < length objects)%nat) log ->
  omap (fun r => (objects ++ extra) !! r) (log ++ seq (length objects) (length extra)) =
  omap (fun r => objects !! r) log ++ extra.
Proof.
  intros Hall. by rewrite omap_app, rendered_app, omap_lookup_seq.
Qed.

Lemma well_formed_pushed (st st' : State) (extra : list Message) :
  well_formed st ->
  store st' = store st ++ extra ->
  messages st' = messages st ++ seq (length (store st)) (length extra) ->
  well_formed st'.
Proof.
  intros [Hnodup Hall] Hstore Hlog. unfold well_formed. rewrite Hstore, Hlog. split.
  - apply list.NoDup_app. split; [done|]. split; [|apply NoDup_seq].
    intros r Hr Hseq. apply elem_of_seq in Hseq.
    rewrite list.Forall_forall in Hall. specialize (Hall r Hr). lia.
  - apply list.Forall_app. split.
    + eapply list.Forall_impl; [exact Hall|]. intros r Hr. cbn in Hr. rewrite length_app. lia.
    + apply list.Forall_forall. intros r Hseq. apply elem_of_seq in Hseq.
      rewrite length_app. lia.
Qed.

(** The state [handleSubmit] ends in when the request fails before any
    data. *)
Lemma handleSubmit_fails_before_data (contentType : jsstring) (env : Env) (st : State) :
  unmounted st = false -> isLoading st = false -> truthy (trim (input st)) = true ->
  fails_before_data (fetch env {| contentType := contentType; description := input st |}) ->
  (handleSubmit contentType env st).2 =
  {| store :=
       store st
       ++ [{| role := user; content := input st; timestamp := date_submit env |}]
       ++ (if resolved (fetch env {| contentType := contentType; description := input st |})
           then [{| role := assistant; content := []; timestamp := date_response env |}]
           else [])
       ++ [{| role := assistant; content := apology; timestamp := date_error env |}];
     messages :=
       messages st
       ++ seq (length (store st))
            (if resolved (fetch env {| contentType := contentType; description := input st |})
             then 3 else 2);
     input := []; isLoading := false; unmounted := false |}.
Proof.
  intros Hun Hload Hin Hfail.
  rewrite handleSubmit_accepted by done. cbn [snd].
  unfold requestAndRead.
  destruct Hfail as [e|status|status e];
    cbn [body reads ending resolved fold_left];
    unfold handleError, new_Message, setMessages, appendMessage, setIsLoading, started;
    cbn [store messages input isLoading unmounted seq];
    rewrite ?length_app, <- ?app_assoc; cbn [length app];
    rewrite ?Nat.add_1_r; reflexivity.
Qed.

(** X22: the [catch] block of the component.  When the component's own
    request fails before any byte of the reply is read ([fetch] rejects, the
    response has no body to read, or the first read rejects), an assistant
    message with the fixed apology text is appended to the log as a new last
    message: right after the user message when [fetch] itself rejects, after
    the still empty open assistant message when [fetch] had resolved.  The
    component is idle again ([isLoading] is cleared, the input is empty),
    and a subsequent submit is accepted: it appends its user message and
    sends its request. *)
Theorem failure_before_data_appends_apology (contentType : jsstring) (env : Env)
    (st : State) :
  well_formed st ->
  unmounted st = false -> isLoading st = false -> truthy (trim (input st)) = true ->
  let request := {| contentType := contentType; description := input st |} in
  fails_before_data (fetch env request) ->
  let st' := (handleSubmit contentType env st).2 in
  rendered st' =
    rendered st
    ++ [{| role := user; content := input st; timestamp := date_submit env |}]
    ++ (if resolved (fetch env request)
        then [{| role := assistant; content := []; timestamp := date_response env |}]
        else [])
    ++ [{| role := assistant; content := apology; timestamp := date_error env |}] /\
  last_text st' = Some apology /\
  isLoading st' = false /\ input st' = [] /\ well_formed st' /\
  (forall (text : jsstring) (env2 : Env),
      truthy (trim text) = true ->
      let typed := setInput text st' in
      handleSubmit contentType env2 typed =
        (Ok tt, setIsLoading false
                  (requestAndRead contentType text env2 (started env2 typed))) /\
      rendered (started env2 typed) =
        rendered st'
        ++ [{| role := user; content := text; timestamp := date_submit env2 |}]).
Proof.
  intros Hwf Hun Hload Hin request Hfail st'. subst st'.
  rewrite (handleSubmit_fails_before_data contentType env st Hun Hload Hin Hfail).
  fold request.
  set (extra := [{| role := user; content := input st; timestamp := date_submit env |}]
    ++ (if resolved (fetch env request)
        then [{| role := assistant; content := []; timestamp := date_response env |}]
        else [])
    ++ [{| role := assistant; content := apology; timestamp := date_error env |}]).
  assert (Hlen : length extra = if resolved (fetch env request) then 3%nat else 2%nat).
  { subst extra. by destruct (resolved (fetch env request)). }
  rewrite <- Hlen.
  set (st' := {| store := store st ++ extra;
                 messages := messages st ++ seq (length (store st)) (length extra);
                 input := []; isLoading := false; unmounted := false |}).
  assert (Hrendered : rendered st' = rendered st ++ extra).
  { unfold rendered, st'. cbn [store messages]. apply rendered_pushed, Hwf. }
  assert (Hwf' : well_formed st') by (by apply (well_formed_pushed st st' extra)).
  split_and!; try done.
  - unfold last_text. rewrite Hrendered. subst extra.
    rewrite !app_assoc, last_lookup_snoc. reflexivity.
  - intros text env2 Htext typed. split.
    + by apply handleSubmit_accepted.
    + by apply rendered_started.
Qed.

End Failure.

(** ** The log stays well formed *)

Section Invariant.
Import H5PChat.
Context `{engine : Engine}.

Lemma well_formed_setInput (text : jsstring) (st : State) :
  well_formed st -> well_formed (setInput text st).
Proof. unfold setInput. by destruct (unmounted st). Qed.

Lemma well_formed_setIsLoading (b : bool) (st : State) :
  well_formed st -> well_formed (setIsLoading b st).
Proof. unfold setIsLoading. by destruct (unmounted st). Qed.

(** Creating a message and appending it to the log, as [handleSubmit] does
    three times. *)
Lemma well_formed_new_Message (m : Message) (st : State) :
  well_formed st ->
  well_formed (setMessages (appendMessage (new_Message m st).1) (new_Message m st).2).
Proof.
  intros [Hnodup Hall]. unfold new_Message, setMessages, appendMessage.
  cbn [fst snd store messages input isLoading unmounted].
  destruct (unmounted st).
  - split; [done|]. cbn [store messages].
    eapply list.Forall_impl; [exact Hall|]. intros r Hr. cbn in Hr.
    rewrite length_app. lia.
  - apply (well_formed_pushed st _ [m]); [by split|done|done].
Qed.

Lemma well_formed_applyFragment (parsed : JValue) (st : State) :
  well_formed st -> well_formed (setMessages (applyFragment parsed) st).
Proof.
  intros Hwf. unfold setMessages. destruct (unmounted st); [done|].
  destruct (applyFragment parsed (store st) (messages st)) as [[objects next]|e] eqn:Happ;
    [|exact Hwf].
  apply applyFragment_Ok in Happ as (-> & ref & lastMessage & _ & _ & Hcase).
  destruct Hwf as [Hnodup Hall]. split; [done|]. cbn [store messages].
  destruct Hcase as [[_ ->]|[_ (text & _ & ->)]]; [done|].
  by rewrite length_insert.
Qed.

Lemma well_formed_handleLine (line : jsstring) (st : State) :
  well_formed st -> well_formed (handleLine line st).
Proof.
  intros Hwf. unfold handleLine. destruct (truthy (trim line)); [|done].
  destruct (JSON_parse line); [|done]. by apply well_formed_applyFragment.
Qed.

Lemma well_formed_handleChunk (value : bytes) (st : State) :
  well_formed st -> well_formed (handleChunk value st).
Proof.
  unfold handleChunk. generalize (split 10 (TextDecoder_decode value)) as lines.
  intros lines. revert st. induction lines as [|line lines IH]; intros st Hwf; [done|].
  cbn [fold_left]. by apply IH, well_formed_handleLine.
Qed.

Lemma well_formed_handleError (env : Env) (st : State) :
  well_formed st -> well_formed (handleError env st).
Proof. apply well_formed_new_Message. Qed.

Lemma well_formed_requestAndRead (contentType text : jsstring) (env : Env) (st : State) :
  well_formed st -> well_formed (requestAndRead contentType text env st).
Proof.
  intros Hwf. unfold requestAndRead.
  destruct (fetch env _) as [streamResponse|e]; [|by apply well_formed_handleError].
  pose proof (well_formed_new_Message
                {| role := assistant; content := []; timestamp := date_response env |}
                st Hwf) as Hwf1.
  unfold new_Message in Hwf1 |- *. cbn [fst snd] in Hwf1.
  set (st1 := setMessages _ _) in Hwf1 |- *.
  destruct (body streamResponse) as [b|]; [|by apply well_formed_handleError].
  assert (Hwf2 : well_formed (fold_left (fun s value => handleChunk value s) (reads b) st1)).
  { generalize (reads b) as values. intros values. revert Hwf1. generalize st1.
    induction values as [|value values IH]; intros s Hs; [done|].
    cbn [fold_left]. by apply IH, well_formed_handleChunk. }
  destruct (ending b); [done|by apply well_formed_handleError].
Qed.

(** [handleSubmit] keeps the log well formed: the hypothesis of the
    properties above holds in every state the component reaches from its
    initial one. *)
Lemma well_formed_handleSubmit (contentType : jsstring) (env : Env) (st : State) :
  well_formed st -> well_formed (handleSubmit contentType env st).2.
Proof.
  intros Hwf. unfold handleSubmit.
  destruct (negb (truthy (trim (input st))) || isLoading st); [done|].
  pose proof (well_formed_new_Message
                {| role := user; content := input st; timestamp := date_submit env |}
                st Hwf) as Hwf1.
  unfold new_Message in Hwf1 |- *. cbn [fst snd] in Hwf1 |- *.
  by apply well_formed_setIsLoading, well_formed_requestAndRead,
           well_formed_setIsLoading, well_formed_setInput.
Qed.

Lemma well_formed_initial : well_formed initial.
Proof. split; cbn; constructor. Qed.

(** While the lines of a reply are handled, [isLoading] stays as it is:
    the component is loading from the dispatch of the request to the
    [finally] of [handleSubmit]. *)
Lemma isLoading_handleLine (line : jsstring) (st : State) :
  isLoading (handleLine line st) = isLoading st.
Proof.
  unfold handleLine. destruct (truthy (trim line)); [|done].
  destruct (JSON_parse line); [|done]. unfold setMessages.
  destruct (unmounted st); [done|].
  by destruct (applyFragment _ _ _) as [[? ?]|].
Qed.

Lemma isLoading_handleChunk (value : bytes) (st : State) :
  isLoading (handleChunk value st) = isLoading st.
Proof.
  unfold handleChunk. generalize (split 10 (TextDecoder_decode value)) as lines.
  intros lines. revert st. induction lines as [|line lines IH]; intros st; [done|].
  cbn [fold_left]. by rewrite IH, isLoading_handleLine.
Qed.

End Invariant.

Lemma failure_before_data_appends_apology_witness :
  H5PChat.well_formed (Sample.typing "intro to photosynthesis") /\
  H5PChat.fails_before_data
    (H5PChat.fetch Sample.env_unreachable
       {| H5PChat.contentType := lit "H5P.Course";
          H5PChat.description := H5PChat.input (Sample.typing "intro to photosynthesis") |}) /\
  H5PChat.rendered
    (H5PChat.handleSubmit (engine := Sample.engine) (lit "H5P.Course")
       Sample.env_unreachable (Sample.typing "intro to photosynthesis")).2 =
  [ {| H5PChat.role := H5PChat.user; H5PChat.content := lit "intro to photosynthesis";
       H5PChat.timestamp := 1 |};
    {| H5PChat.role := H5PChat.assistant; H5PChat.content := H5PChat.apology;
       H5PChat.timestamp := 3 |} ].
Proof.
  assert (Hwf : H5PChat.well_formed (Sample.typing "intro to photosynthesis")).
  { split; cbn; constructor. }
  split; [exact Hwf|]. split; [apply H5PChat.fetch_rejects|].
  exact (proj1 (failure_before_data_appends_apology (engine := Sample.engine)
                  (lit "H5P.Course") Sample.env_unreachable
                  (Sample.typing "intro to photosynthesis")
                  Hwf eq_refl eq_refl eq_refl (H5PChat.fetch_rejects TypeError))).
Defined.

(** When the response has arrived and the first read rejects, the open
    assistant message is not replaced; it stays in the log, empty, and the
    apology is a further message after it. *)
Lemma apology_beside_empty_message :
  H5PChat.fails_before_data
    (H5PChat.fetch (Sample.env_reading [] (H5PChat.Rejects TypeError))
       {| H5PChat.contentType := lit "H5P.Course";
          H5PChat.description := lit "intro to photosynthesis" |}) /\
  H5PChat.rendered
    (H5PChat.handleSubmit (engine := Sample.engine) (lit "H5P.Course")
       (Sample.env_reading [] (H5PChat.Rejects TypeError))
       (Sample.typing "intro to photosynthesis")).2 =
  [ {| H5PChat.role := H5PChat.user; H5PChat.content := lit "intro to photosynthesis";
       H5PChat.timestamp := 1 |};
    {| H5PChat.role := H5PChat.assistant; H5PChat.content := [];
       H5PChat.timestamp := 2 |};
    {| H5PChat.role := H5PChat.assistant; H5PChat.content := H5PChat.apology;
       H5PChat.timestamp := 3 |} ].
Proof.
  split; [apply H5PChat.first_read_rejects|]. vm_compute. reflexivity.
Qed.

(** ** [JSON.parse]: the fuel is enough *)

Section Fuel.

Lemma skip_ws_length (s : jsstring) : (length (skip_ws s) <= length s)%nat.
Proof.
  induction s as [|c s IH]; [done|]. cbn.
  destruct (is_json_ws c); cbn; lia.
Qed.

Lemma parse_chars_length (s str rest : jsstring) :
  parse_chars s = Some (str, rest) -> (length rest < length s)%nat.
Proof.
  remember (length s) as n eqn:Hn. revert s str rest Hn.
  induction n as [n IH] using lt_wf_ind. intros s str rest Hn.
  destruct s as [|c r]; [discriminate|]. cbn [parse_chars].
  intros Hparse. repeat case_match; simplify_eq; cbn [length] in *;
    try lia;
    match goal with
    | H : parse_chars ?t = Some (_, ?rest') |- _ =>
        apply (IH (length t)) in H; [cbn [length] in *; lia| cbn [length]; lia | done]
    end.
Qed.

Lemma take_digits_length (s d r : jsstring) :
  take_digits s = (d, r) -> (length d + length r = length s)%nat.
Proof.
  revert d r. induction s as [|c s IH]; intros d r; cbn.
  - by intros [= <- <-].
  - destruct (is_digit c).
    + destruct (take_digits s) as [d' r'] eqn:Hd. intros [= <- <-].
      specialize (IH d' r' eq_refl). cbn. lia.
    + by intros [= <- <-].
Qed.

Lemma parse_exponent_length (pre s lexeme rest : jsstring) :
  parse_exponent pre s = Some (lexeme, rest) -> (length rest <= length s)%nat.
Proof.
  unfold parse_exponent. intros Hparse.
  repeat case_match; simplify_eq; cbn [length] in *; try lia;
    match goal with
    | H : take_digits _ = _ |- _ => apply take_digits_length in H; cbn [length] in *; lia
    end.
Qed.

Lemma parse_fraction_length (pre s lexeme rest : jsstring) :
  parse_fraction pre s = Some (lexeme, rest) -> (length rest <= length s)%nat.
Proof.
  unfold parse_fraction. intros Hparse.
  repeat case_match; simplify_eq; cbn [length] in *;
    try (apply parse_exponent_length in Hparse; cbn [length] in *);
    try match goal with
        | H : take_digits _ = _ |- _ => apply take_digits_length in H; cbn [length] in *
        end; lia.
Qed.

Lemma take_digits_digit (c : Z) (s d r : jsstring) :
  is_digit c = true -> take_digits (c :: s) = (d, r) -> (length r <= length s)%nat.
Proof.
  intros Hc. cbn [take_digits]. rewrite Hc.
  destruct (take_digits s) as [d' r'] eqn:Hd. intros [= <- <-].
  apply take_digits_length in Hd. lia.
Qed.

Lemma parse_number_unsigned_length (sign s lexeme rest : jsstring) :
  match s with
  | c :: r =>
      if c =? 48 then parse_fraction (sign ++ [48]) r
      else if is_digit c then
        let '(d, r') := take_digits s in parse_fraction (sign ++ d) r'
      else None
  | [] => None
  end = Some (lexeme, rest) ->
  (length rest < length s)%nat.
Proof.
  destruct s as [|c r]; [discriminate|].
  destruct (c =? 48).
  - intros Hparse. apply parse_fraction_length in Hparse. cbn. lia.
  - destruct (is_digit c) eqn:Hc; [|discriminate].
    destruct (take_digits (c :: r)) as [d r'] eqn:Hd.
    apply take_digits_digit in Hd; [|done].
    intros Hparse. apply parse_fraction_length in Hparse. cbn. lia.
Qed.

Lemma parse_number_length (s lexeme rest : jsstring) :
  parse_number s = Some (lexeme, rest) -> (length rest < length s)%nat.
Proof.
  unfold parse_number. destruct s as [|c r]; [discriminate|].
  destruct (c =? 45).
  - intros Hparse. apply (parse_number_unsigned_length [45] r) in Hparse. cbn. lia.
  - apply (parse_number_unsigned_length [] (c :: r)).
Qed.

Lemma strip_prefix_length (prefix s rest : jsstring) :
  strip_prefix prefix s = Some rest -> (length rest + length prefix = length s)%nat.
Proof.
  revert s. induction prefix as [|p prefix IH]; intros s; cbn.
  - intros [= ->]. lia.
  - destruct s as [|c s]; [discriminate|]. destruct (p =? c); [|discriminate].
    intros Hs. apply IH in Hs. cbn. lia.
Qed.


Ltac parse_lengths :=
  repeat match goal with
    | H : skip_ws ?s = _ :: _ |- _ =>
        let Hl := fresh "Hl" in
        pose proof (skip_ws_length s) as Hl; rewrite H in Hl; cbn [length] in Hl;
        clear H
    | H : parse_chars _ = Some _ |- _ => apply parse_chars_length in H
    | H : parse_number _ = Some _ |- _ => apply parse_number_length in H
    | H : strip_prefix _ _ = Some _ |- _ =>
        apply strip_prefix_length in H; cbn [length] in H
    | H : context [length (lit ?x)] |- _ =>
        let n := eval vm_compute in (length (lit x)) in
        change (length (lit x)) with n in H
    end.

Lemma value_step_consumes elements members :
  consumes elements -> consumes members -> consumes0 (value_step elements members).
Proof.
  intros He Hm s v r. unfold value_step. intros H.
  repeat case_match; simplify_eq;
    try (apply He in H); try (apply Hm in H);
    parse_lengths; cbn [length] in *; lia.
Qed.

Lemma elements_step_consumes value elements :
  consumes0 value -> consumes elements -> consumes (elements_step value elements).
Proof.
  intros Hv He s acc v r. unfold elements_step. intros H.
  repeat case_match; simplify_eq;
    try (apply He in H);
    repeat match goal with Hx : value _ = Some _ |- _ => apply Hv in Hx end;
    parse_lengths; cbn [length] in *; lia.
Qed.

Lemma members_step_consumes value members :
  consumes0 value -> consumes members -> consumes (members_step value members).
Proof.
  intros Hv Hm s acc v r. unfold members_step. intros H.
  repeat case_match; simplify_eq;
    try (apply Hm in H);
    repeat match goal with Hx : value _ = Some _ |- _ => apply Hv in Hx end;
    parse_lengths; cbn [length] in *; lia.
Qed.

Lemma parse_consumes (fuel : nat) :
  consumes0 (parse_value fuel) /\ consumes (parse_elements fuel)
  /\ consumes (parse_members fuel).
Proof.
  induction fuel as [|fuel (Hv & He & Hm)].
  - split_and!; intros ?; intros; discriminate.
  - split_and!; cbn [parse_value parse_elements parse_members].
    + by apply value_step_consumes.
    + intros s acc. by apply elements_step_consumes.
    + intros s acc. by apply members_step_consumes.
Qed.


(** A result found with some fuel is found with any fuel that is at least
    twice the length of the text (one more for the elements of an array,
    which start with a value at the same place). *)
Lemma parse_fuel (fuel : nat) :
  (forall F s x, parse_value fuel s = Some x ->
     (2 * length s <= F)%nat -> parse_value F s = Some x)
  /\ (forall F s acc x, parse_elements fuel s acc = Some x ->
     (2 * length s + 1 <= F)%nat -> parse_elements F s acc = Some x)
  /\ (forall F s acc x, parse_members fuel s acc = Some x ->
     (2 * length s <= F)%nat -> parse_members F s acc = Some x).
Proof.
  induction fuel as [|fuel (IHv & IHe & IHm)]; [by split_and!|].
  split_and!.
  - intros F s [v rest] H HF.
    pose proof (proj1 (parse_consumes _) _ _ _ H) as Hlt.
    destruct F as [|F]; [lia|]. revert H. cbn [parse_value]. unfold value_step.
    pose proof (skip_ws_length s) as Hs.
    destruct (skip_ws s) as [|c r]; [done|]. cbn [length] in Hs.
    destruct (c =? 34); [done|].
    pose proof (skip_ws_length r) as Hr.
    destruct (c =? 91).
    { destruct (skip_ws r) as [|c' r']; [done|]. destruct (c' =? 93); [done|].
      intros H. apply (IHe _ _ _ _ H). lia. }
    destruct (c =? 123); [|done].
    destruct (skip_ws r) as [|c' r']; [done|]. destruct (c' =? 125); [done|].
    intros H. apply (IHm _ _ _ _ H). lia.
  - intros F s acc x H HF.
    destruct F as [|F]; [lia|]. revert H. cbn [parse_elements]. unfold elements_step.
    destruct (parse_value fuel s) as [[v r]|] eqn:Hv; [|done].
    rewrite (IHv F _ _ Hv) by lia.
    apply (proj1 (parse_consumes _)) in Hv.
    pose proof (skip_ws_length r) as Hr.
    destruct (skip_ws r) as [|c r']; [done|]. cbn [length] in Hr.
    destruct (c =? 44); [|done].
    intros H. apply (IHe _ _ _ _ H). lia.
  - intros F s acc [v rest] H HF.
    pose proof (proj2 (proj2 (parse_consumes _)) _ _ _ _ H) as Hlt.
    destruct F as [|F]; [lia|]. revert H. cbn [parse_members]. unfold members_step.
    pose proof (skip_ws_length s) as Hs.
    destruct (skip_ws s) as [|q r]; [done|]. cbn [length] in Hs.
    destruct (q =? 34); [|done].
    destruct (parse_chars r) as [[key r1]|] eqn:Hkey; [|done].
    apply parse_chars_length in Hkey.
    pose proof (skip_ws_length r1) as Hr1.
    destruct (skip_ws r1) as [|colon r2]; [done|]. cbn [length] in Hr1.
    destruct (colon =? 58); [|done].
    destruct (parse_value fuel r2) as [[v' r3]|] eqn:Hv; [|done].
    rewrite (IHv F _ _ Hv) by lia.
    apply (proj1 (parse_consumes _)) in Hv.
    pose proof (skip_ws_length r3) as Hr3.
    destruct (skip_ws r3) as [|c r4]; [done|]. cbn [length] in Hr3.
    destruct (c =? 44); [|done].
    intros H. apply (IHm _ _ _ _ H). lia.
Qed.

(** [JSON_parse] loses nothing to its fuel: a value that the parser finds
    with any fuel at all is the value [JSON_parse] returns... *)
Lemma JSON_parse_adequate (fuel : nat) (text rest : jsstring) (v : JValue) :
  parse_value fuel text = Some (v, rest) -> skip_ws rest = [] ->
  JSON_parse text = Ok v.
Proof.
  intros H Hrest. unfold JSON_parse.
  rewrite (proj1 (parse_fuel fuel) _ _ _ H) by lia. by rewrite Hrest.
Qed.

(** ... and a text it rejects is rejected with any fuel. *)
Lemma JSON_parse_rejects (fuel : nat) (text : jsstring) :
  JSON_parse text = Throw SyntaxError ->
  match parse_value fuel text with
  | Some (_, rest) => skip_ws rest <> []
  | None => True
  end.
Proof.
  unfold JSON_parse. intros H.
  destruct (parse_value fuel text) as [[v rest]|] eqn:Hv; [|done].
  rewrite (proj1 (parse_fuel fuel) _ _ _ Hv) in H by lia.
  by destruct (skip_ws rest).
Qed.

End Fuel.

(** ** Lines *)

Section Lines.

Lemma trimStart_nil (s : jsstring) :
  trimStart s = [] -> forallb is_js_space s = true.
Proof.
  induction s as [|c s IH]; [done|]. cbn.
  destruct (is_js_space c); [exact IH|discriminate].
Qed.

Lemma trimStart_head (s r : jsstring) (c : Z) :
  trimStart s = c :: r -> is_js_space c = false.
Proof.
  induction s as [|c' s IH]; [discriminate|]. cbn.
  destruct (is_js_space c') eqn:Hc; [exact IH|]. by intros [= <- _].
Qed.

Lemma forallb_rev {A} (f : A -> bool) (l : list A) :
  forallb f (rev l) = forallb f l.
Proof.
  induction l as [|x l IH]; [done|]. cbn.
  rewrite forallb_app, IH. cbn. rewrite andb_true_r. apply andb_comm.
Qed.

(** A string that [trim] empties consists of white space. *)
Lemma trim_blank (s : jsstring) :
  truthy (trim s) = false -> forallb is_js_space s = true.
Proof.
  unfold trim. intros Hblank.
  assert (Hrev : trimStart (rev (trimStart s)) = []).
  { destruct (trimStart (rev (trimStart s))) as [|c r] eqn:Hr; [done|].
    cbn in Hblank. destruct (rev r ++ [c]) eqn:Happ; [|discriminate].
    by destruct (rev r). }
  apply trimStart_nil in Hrev. rewrite forallb_rev in Hrev.
  destruct (trimStart s) as [|c r] eqn:Hs; [by apply trimStart_nil|].
  apply trimStart_head in Hs. cbn in Hrev. by rewrite Hs in Hrev.
Qed.

(** A white space character opens no JSON value. *)
Lemma js_space_starts_nothing (c : Z) :
  is_js_space c = true ->
  (c =? 34) = false /\ (c =? 91) = false /\ (c =? 123) = false /\
  (c =? 116) = false /\ (c =? 102) = false /\ (c =? 110) = false /\
  (c =? 45) = false /\ (c =? 48) = false /\ is_digit c = false.
Proof.
  unfold is_js_space, is_digit. intros Hc.
  rewrite !orb_true_iff, !andb_true_iff, !Z.eqb_eq, !Z.leb_le in Hc.
  rewrite !Z.eqb_neq, andb_false_iff, !Z.leb_gt. lia.
Qed.

Lemma skip_ws_blank (s : jsstring) :
  forallb is_js_space s = true ->
  skip_ws s = [] \/ exists c r, skip_ws s = c :: r /\ is_js_space c = true.
Proof.
  induction s as [|c s IH]; [by left|]. cbn. intros Hall.
  apply andb_true_iff in Hall as [Hc Hs].
  destruct (is_json_ws c); [by apply IH|]. right. by exists c, s.
Qed.

Lemma parse_value_blank (fuel : nat) (s : jsstring) :
  forallb is_js_space s = true -> parse_value fuel s = None.
Proof.
  intros Hall. destruct fuel as [|fuel]; [done|]. cbn [parse_value]. unfold value_step.
  destruct (skip_ws_blank s Hall) as [->|(c & r & -> & Hc)]; [done|].
  destruct (js_space_starts_nothing c Hc)
    as (H34 & H91 & H123 & H116 & H102 & H110 & H45 & H48 & Hd).
  rewrite H34, H91, H123, H116, H102, H110.
  unfold parse_number. by rewrite H45, H48, Hd.
Qed.

(** [JSON.parse] accepts no blank text, so the test [line.trim()] passes
    over no line that would parse. *)
Lemma JSON_parse_not_blank (line : jsstring) (parsed : JValue) :
  JSON_parse line = Ok parsed -> truthy (trim line) = true.
Proof.
  intros Hparse. destruct (truthy (trim line)) eqn:Hblank; [done|].
  apply trim_blank in Hblank. unfold JSON_parse in Hparse.
  by rewrite parse_value_blank in Hparse.
Qed.

Lemma delta_of_parsed (line delta : jsstring) :
  delta_of line = Some delta ->
  truthy (trim line) = true /\
  exists parsed, JSON_parse line = Ok parsed /\
                 get_response parsed = Ok (Some (JString delta)).
Proof.
  unfold delta_of. destruct (JSON_parse line) as [parsed|e] eqn:Hparse; [|done].
  cbn [bind]. intros Hdelta. split; [by eapply JSON_parse_not_blank|].
  exists parsed. split; [done|].
  destruct (get_response parsed) as [[[]|]|]; try done. by injection Hdelta as ->.
Qed.

Lemma split_line (line rest : jsstring) :
  10 ∉ line -> split 10 (line ++ 10 :: rest) = line :: split 10 rest.
Proof.
  induction line as [|c line IH]; intros Hline; [done|].
  apply not_elem_of_cons in Hline as [Hc Hline].
  cbn [app split]. destruct (c =? 10) eqn:Hc10; [apply Z.eqb_eq in Hc10; congruence|].
  by rewrite (IH Hline).
Qed.

(** Splitting a text made of whole lines gives back the lines, and one
    empty line after the last line feed. *)
Lemma split_terminated (lines : list jsstring) :
  Forall (fun line => 10 ∉ line) lines ->
  split 10 (terminated lines) = lines ++ [[]].
Proof.
  unfold terminated. intros Hall. induction Hall as [|line lines Hline _ IH]; [done|].
  cbn [map concat]. rewrite <- app_assoc. cbn [app].
  by rewrite split_line, IH.
Qed.

End Lines.

(** ** The component: reading the reply *)

Section Reading.
Import H5PChat.
Context `{engine : Engine}.

Lemma handleLines_app (lines1 lines2 : list jsstring) (st : State) :
  handleLines (lines1 ++ lines2) st = handleLines lines2 (handleLines lines1 st).
Proof. apply fold_left_app. Qed.

(** The read loop handles the lines of the reads, one after the other. *)
Lemma handleChunks_lines (reads : list bytes) (st : State) :
  fold_left (fun s value => handleChunk value s) reads st = handleLines (lines_of reads) st.
Proof.
  revert st. induction reads as [|value reads IH]; intros st; [done|].
  unfold lines_of. cbn [map concat fold_left]. rewrite handleLines_app.
  rewrite IH. reflexivity.
Qed.

(** A line that does not parse, like a blank line, leaves the state as it
    is. *)
Lemma handleLine_skipped (line : jsstring) (st : State) :
  (forall parsed, JSON_parse line <> Ok parsed) -> handleLine line st = st.
Proof.
  intros Hbad. unfold handleLine.
  destruct (truthy (trim line)); [|done].
  destruct (JSON_parse line) as [parsed|e]; [|done]. by destruct (Hbad parsed).
Qed.

Lemma handleLine_blank (st : State) : handleLine [] st = st.
Proof. reflexivity. Qed.

(** A fragment extends the text of the open assistant message by its
    delta. *)
Lemma handleLine_fragment (env : Env) (st : State) (text line delta : jsstring) :
  delta_of line = Some delta ->
  handleLine line (reading env st text) = reading env st (text ++ delta).
Proof.
  intros Hdelta. apply delta_of_parsed in Hdelta as (Htrim & parsed & Hparse & Hresp).
  unfold handleLine. rewrite Htrim, Hparse.
  unfold setMessages, reading, applyFragment. cbn [unmounted store messages input isLoading].
  rewrite length_app. cbn [length].
  rewrite lookup_app_r by lia.
  replace (length (messages st) + 2 - 1 - length (messages st))%nat with 1%nat by lia.
  cbn [lookup list_lookup]. rewrite lookup_app_r by lia.
  replace (S (length (store st)) - length (store st))%nat with 1%nat by lia.
  cbn [lookup list_lookup role]. rewrite Hresp. cbn [bind ToString_value ToString].
  rewrite insert_app_r_alt by lia.
  replace (S (length (store st)) - length (store st))%nat with 1%nat by lia.
  reflexivity.
Qed.

(** Fragments extend the text by their deltas, in order. *)
Lemma handleLines_fragments (env : Env) (st : State) (text : jsstring)
    (fragments : list (jsstring * jsstring)) :
  Forall (fun f => delta_of f.1 = Some f.2) fragments ->
  handleLines (map fst fragments) (reading env st text) =
  reading env st (text ++ concat (map snd fragments)).
Proof.
  intros Hall. revert text.
  induction Hall as [|[line delta] fragments Hf _ IH]; intros text.
  - cbn. by rewrite app_nil_r.
  - cbn [map fst snd concat handleLines fold_left].
    rewrite (handleLine_fragment env st text line delta Hf).
    fold (handleLines (map fst fragments) (reading env st (text ++ delta))).
    rewrite IH. by rewrite app_assoc.
Qed.

(** A read that decodes to whole fragment lines. *)
Lemma handleChunk_fragments (env : Env) (st : State) (text : jsstring)
    (value : bytes) (fragments : list (jsstring * jsstring)) :
  Forall (fun f => (10 ∉ f.1) /\ delta_of f.1 = Some f.2) fragments ->
  TextDecoder_decode value = terminated (map fst fragments) ->
  handleChunk value (reading env st text) =
  reading env st (text ++ concat (map snd fragments)).
Proof.
  intros Hall Hdecode. unfold handleChunk. rewrite Hdecode.
  rewrite split_terminated.
  - fold (handleLines (map fst fragments ++ [[]]) (reading env st text)).
    rewrite handleLines_app, handleLines_fragments.
    + reflexivity.
    + eapply list.Forall_impl; [exact Hall|]. by intros f [_ Hf].
  - apply list.Forall_fmap. eapply list.Forall_impl; [exact Hall|]. by intros f [Hf _].
Qed.

End Reading.

Lemma applyFragment_frame_witness :
  NoDup (H5PChat.messages Sample.streaming) /\
  H5PChat.rendered
    (H5PChat.setMessages
       (H5PChat.applyFragment (engine := Sample.engine)
          (JObject [(lit "response", JString (lit "ure: "))]))
       Sample.streaming) =
  [ {| H5PChat.role := H5PChat.user; H5PChat.content := lit "first question";
       H5PChat.timestamp := 1 |};
    {| H5PChat.role := H5PChat.assistant; H5PChat.content := lit "Structure: ";
       H5PChat.timestamp := 2 |} ] /\
  H5PChat.messages
    (H5PChat.setMessages
       (H5PChat.applyFragment (engine := Sample.engine)
          (JObject [(lit "response", JString (lit "ure: "))]))
       Sample.streaming) = H5PChat.messages Sample.streaming.
Proof.
  assert (Hnodup : NoDup (H5PChat.messages Sample.streaming)).
  { apply (bool_decide_unpack _). vm_compute. exact I. }
  split; [exact Hnodup|]. split; [vm_compute; reflexivity|].
  exact (proj1 (applyFragment_frame (engine := Sample.engine)
                  (JObject [(lit "response", JString (lit "ure: "))])
                  Sample.streaming Hnodup)).
Defined.

(** ** The relay: calls made upstream and chunks sent down *)

Section Relay.
Import OllamaService.
Context `{engine : Engine}.

Lemma readLoop_calls {S} (callback : StreamCallback S) (signal : nat)
    (schedule : list Event) (ending : Ending) (w : World) (this : Service) (acc : S) :
  calls (readLoop callback signal schedule ending w this acc).1.1.2 = calls w.
Proof.
  revert w this acc. induction schedule as [|[value|] rest IH]; intros w this acc; cbn.
  - destruct (aborted signal w); [done|]. by destruct ending.
  - destruct (aborted signal w); [done|]. apply IH.
  - unfold stopStream. destruct (abortController this); [|apply IH].
    rewrite IH. reflexivity.
Qed.

(** [chatStream] sends one request, with [stream: true]. *)
Lemma chatStream_calls {S} (up : Upstream) (prompt : JSValue)
    (callback : StreamCallback S) (context : option (list Z))
    (w : World) (this : Service) (acc : S) :
  calls (chatStream up prompt callback context w this acc).1.1.2 =
  calls w ++ [generateRequest (set_abortController (Some (length (controllers w))) this)
                prompt context true].
Proof.
  unfold chatStream, new_AbortController.
  set (request := generateRequest _ prompt context true).
  destruct (fetch_generate up request) as [[body|]|e].
  - pose proof (readLoop_calls callback (length (controllers w)) (schedule body)
                  (OllamaService.ending body)) as Hcalls.
    match goal with
    | |- context [readLoop ?cb ?c ?s ?e ?w' ?t ?a] =>
        specialize (Hcalls w' t a); destruct (readLoop cb c s e w' t a) as [[[r w''] t'] a']
    end.
    cbn [fst snd send calls] in Hcalls.
    destruct r as [[]|[]]; cbn [fst snd]; rewrite Hcalls; reflexivity.
  - reflexivity.
  - destruct e; reflexivity.
Qed.

(** [getH5PContentSuggestions] sends one request, with [stream: false]. *)
Lemma getH5PContentSuggestions_calls (up : Upstream) (contentType description : jsstring)
    (w : World) (this : Service) :
  calls (getH5PContentSuggestions up contentType description w this).2 =
  calls w ++ [generateRequest this
                (Some (JString (suggestionsPrompt contentType description
                                  (getContentTypePrompt contentType))))
                None false].
Proof.
  unfold getH5PContentSuggestions, chat.
  set (request := generateRequest this _ None false).
  destruct (post_generate up request); reflexivity.
Qed.

(** For a request with both fields, the streaming route first makes the
    plain call of [getH5PContentSuggestions]; the streamed call follows only
    when the plain one has answered, and takes that answer as its prompt. *)
Lemma suggestionsStream_calls (up : Upstream) (body : Routes.RequestBody)
    (w : World) (this : Service) :
  Routes.missing (Routes.contentType body) || Routes.missing (Routes.description body) = false ->
  exists first,
    stream first = false /\
    (calls (Routes.suggestionsStream up body w this).1.2 = calls w ++ [first] \/
     exists second,
       stream second = true /\
       calls (Routes.suggestionsStream up body w this).1.2 = calls w ++ [first; second]).
Proof.
  intros Hpresent. unfold Routes.suggestionsStream. rewrite Hpresent.
  pose proof (getH5PContentSuggestions_calls up (default [] (Routes.contentType body))
                (default [] (Routes.description body)) w this) as Hfirst.
  eexists. split; [|
    destruct (getH5PContentSuggestions up _ _ w this) as [[prompt|e] w1];
    cbn [snd] in Hfirst;
    [ right | left; exact Hfirst ] ].
  { reflexivity. }
  pose proof (chatStream_calls up prompt Routes.pushChunk None w1 this []) as Hsecond.
  eexists. split; [|
    destruct (chatStream up prompt Routes.pushChunk None w1 this [])
      as [[[r w2] this2] pushed];
    cbn [fst snd] in Hsecond;
    assert (Hcalls : calls w2 = calls w ++ [_; _])
      by (rewrite Hsecond, Hfirst, <- app_assoc; reflexivity);
    destruct r as [[]|e]; [exact Hcalls | destruct pushed; exact Hcalls] ].
  reflexivity.
Qed.

(** Every line of the upstream reply gives at most one chunk pushed
    downstream, and the chunks are pushed in the order of the lines. *)
Lemma pushChunk_lines (lines : list jsstring) (pushed : list jsstring) :
  handleLines Routes.pushChunk lines pushed = pushed ++ omap Routes.write_of lines.
Proof.
  unfold handleLines. revert pushed.
  induction lines as [|line lines IH]; intros pushed.
  - cbn. by rewrite app_nil_r.
  - cbn [fold_left]. rewrite IH. unfold handleLine, Routes.write_of. cbn [omap list_omap].
    destruct (truthy (trim line)); [|reflexivity].
    destruct (bind (JSON_parse line) get_response); [|reflexivity].
    cbn [call Routes.pushChunk]. by rewrite <- app_assoc.
Qed.

Lemma service_handleChunks_lines {S} (callback : StreamCallback S)
    (values : list bytes) (acc : S) :
  handleChunks callback values acc = handleLines callback (lines_of values) acc.
Proof.
  revert acc. induction values as [|value values IH]; intros acc; [done|].
  unfold lines_of, handleChunks, handleLines. cbn [map concat fold_left].
  rewrite fold_left_app. apply IH.
Qed.

End Relay.

(** C2 (the code at the failing input): for the request of the end-to-end
    scenario the streaming route makes two calls upstream, not one: first
    the plain call of [getH5PContentSuggestions], with [stream: false] and
    the prompt built from the request, then the streamed call, with
    [stream: true] and the answer of the first call as its prompt.  The
    three lines of the streamed reply are pushed downstream one chunk each,
    in order. *)
Theorem suggestionsStream_calls_upstream_twice :
  let run := Routes.suggestionsStream (engine := Sample.engine)
               Sample.upstream Sample.request Sample.world Sample.service in
  map OllamaService.stream (OllamaService.calls run.1.2) = [false; true] /\
  map OllamaService.prompt (OllamaService.calls run.1.2) =
    [ Some (JString
              (OllamaService.suggestionsPrompt (engine := Sample.engine)
                 (lit "H5P.Course") (lit "intro to photosynthesis")
                 (OllamaService.getContentTypePrompt (lit "H5P.Course"))));
      Some (JString (lit "1. Content Structure ...")) ] /\
  run.1.1 =
    Routes.Piped [dq "{'response':'Struct'}" ++ [10];
                  dq "{'response':'ure: '}" ++ [10];
                  dq "{'response':'...'}" ++ [10]] true.
Proof.
  vm_compute. repeat split; reflexivity.
Qed.

(** ** A line that is not valid JSON *)

Section Malformed.
Import H5PChat.
Context `{engine : Engine}.

Lemma lines_of_app (reads1 reads2 : list bytes) :
  lines_of (reads1 ++ reads2) = lines_of reads1 ++ lines_of reads2.
Proof. unfold lines_of. by rewrite map_app, concat_app. Qed.

Lemma service_handleLine_skipped {S} (callback : OllamaService.StreamCallback S)
    (line : jsstring) (acc : S) :
  JSON_parse line = Throw SyntaxError ->
  OllamaService.handleLine callback line acc = acc.
Proof.
  intros Hbad. unfold OllamaService.handleLine. rewrite Hbad. cbn [bind].
  by destruct (truthy (trim line)).
Qed.

(** C3: a line that is not valid JSON is skipped.  Handling the line leaves
    the component as it is, text included; the loop goes on, and the reads
    have the effect of the same lines without that one, handled in order;
    in particular the fragments that follow extend the text of the open
    assistant message by their deltas, in order.  The read loop of the
    service skips the line in the same way. *)
Theorem malformed_line_is_skipped (reads1 reads2 : list bytes) (value : bytes)
    (lines1 lines2 : list jsstring) (bad : jsstring) :
  JSON_parse bad = Throw SyntaxError ->
  split 10 (TextDecoder_decode value) = lines1 ++ bad :: lines2 ->
  (forall st : State, handleLine bad st = st) /\
  (forall st : State,
      fold_left (fun s v => handleChunk v s) (reads1 ++ value :: reads2) st =
      handleLines (lines_of reads1 ++ lines1 ++ lines2 ++ lines_of reads2) st) /\
  (forall (env : Env) (st : State) (text : jsstring)
          (fragments : list (jsstring * jsstring)),
      Forall (fun f => delta_of f.1 = Some f.2) fragments ->
      handleLines (bad :: map fst fragments) (reading env st text) =
      reading env st (text ++ concat (map snd fragments))) /\
  (forall S (callback : OllamaService.StreamCallback S) (acc : S),
      OllamaService.handleLine callback bad acc = acc /\
      OllamaService.handleChunks callback (reads1 ++ value :: reads2) acc =
      OllamaService.handleLines callback
        (lines_of reads1 ++ lines1 ++ lines2 ++ lines_of reads2) acc).
Proof.
  intros Hbad Hsplit.
  assert (Hskip : forall st : State, handleLine bad st = st).
  { intros st. apply handleLine_skipped. intros parsed. by rewrite Hbad. }
  assert (Hlines : lines_of (reads1 ++ value :: reads2) =
                   lines_of reads1 ++ lines1 ++ [bad] ++ lines2 ++ lines_of reads2).
  { rewrite lines_of_app. f_equal. unfold lines_of at 1. cbn [map concat].
    rewrite Hsplit, <- app_assoc. reflexivity. }
  split_and!.
  - exact Hskip.
  - intros st. rewrite handleChunks_lines, Hlines.
    rewrite !handleLines_app. cbn [handleLines fold_left]. by rewrite Hskip.
  - intros env st text fragments Hall.
    change (bad :: map fst fragments) with ([bad] ++ map fst fragments).
    rewrite handleLines_app. cbn [handleLines fold_left]. rewrite Hskip.
    by apply handleLines_fragments.
  - intros S callback acc. split; [by apply service_handleLine_skipped|].
    rewrite service_handleChunks_lines, Hlines.
    unfold OllamaService.handleLines. rewrite !fold_left_app. cbn [fold_left].
    by rewrite service_handleLine_skipped.
Qed.

End Malformed.

Lemma malformed_line_is_skipped_witness :
  JSON_parse (lit "not json") = Throw SyntaxError /\
  split 10 (TextDecoder_decode Sample.read_with_bad_line) =
    [dq "{'response':'Struct'}"] ++ lit "not json" :: [dq "{'response':'ure: '}"; []] /\
  H5PChat.rendered
    (fold_left (fun s v => H5PChat.handleChunk (engine := Sample.engine) v s)
       ([] ++ Sample.read_with_bad_line :: []) Sample.streaming) =
  [ {| H5PChat.role := H5PChat.user; H5PChat.content := lit "first question";
       H5PChat.timestamp := 1 |};
    {| H5PChat.role := H5PChat.assistant; H5PChat.content := lit "StructStructure: ";
       H5PChat.timestamp := 2 |} ].
Proof.
  assert (Hbad : JSON_parse (lit "not json") = Throw SyntaxError) by reflexivity.
  assert (Hsplit : split 10 (TextDecoder_decode Sample.read_with_bad_line) =
    [dq "{'response':'Struct'}"] ++ lit "not json" :: [dq "{'response':'ure: '}"; []])
    by (vm_compute; reflexivity).
  split; [exact Hbad|]. split; [exact Hsplit|].
  pose proof (malformed_line_is_skipped (engine := Sample.engine) [] []
                Sample.read_with_bad_line _ _ _ Hbad Hsplit) as (_ & Hreads & _).
  rewrite Hreads. vm_compute. reflexivity.
Defined.

(** ** The UTF-8 codec: decoding what was encoded *)

Section Utf8.

Lemma byte_val_of (z : Z) : 0 <= z < 256 -> byte_val (byte_of z) = z.
Proof.
  intros Hz. unfold byte_val, byte_of. rewrite Z.mod_small by lia.
  destruct (Byte.of_N (Z.to_N z)) as [b|] eqn:Hb.
  - apply Byte.to_of_N in Hb. rewrite Hb. lia.
  - apply Byte.of_N_None_iff in Hb. lia.
Qed.

Lemma utf8_run_code_point (cp : Z) (rest : bytes) :
  scalar cp ->
  utf8_run utf8_init (utf8_of_code_point cp ++ rest) = cp :: utf8_run utf8_init rest.
Proof.
  intros [Hrange Hsur]. unfold utf8_of_code_point.
  destruct (Z.ltb_spec cp 0x80); [|destruct (Z.ltb_spec cp 0x800); [|destruct (Z.ltb_spec cp 0x10000)]];
    cbn [app utf8_run]; rewrite !byte_val_of by (Z.div_mod_to_equations; lia).
  - unfold utf8_step, utf8_lead. zcases. reflexivity.
  - unfold utf8_step at 1. unfold utf8_lead. zcases.
    cbn [utf8_run]. unfold utf8_step. zcases.
    f_equal. Z.div_mod_to_equations; lia.
  - unfold utf8_step at 1. unfold utf8_lead. zcases;
      cbn [utf8_run]; unfold utf8_step at 1; zcases;
      cbn [utf8_run]; unfold utf8_step at 1; zcases;
      f_equal; Z.div_mod_to_equations; lia.
  - unfold utf8_step at 1. unfold utf8_lead. zcases;
      cbn [utf8_run]; unfold utf8_step at 1; zcases;
      cbn [utf8_run]; unfold utf8_step at 1; zcases;
      cbn [utf8_run]; unfold utf8_step at 1; zcases;
      f_equal; Z.div_mod_to_equations; lia.
Qed.

(** Induction over a list one or two elements at a time. *)
Lemma list_pair_ind {A} (P : list A -> Prop) :
  P [] -> (forall x, P [x]) ->
  (forall x y l, P l -> P (y :: l) -> P (x :: y :: l)) ->
  forall l, P l.
Proof.
  intros Hnil Hone Hstep l.
  assert (Hboth : P l /\ forall x, P (x :: l)).
  { induction l as [|y l [IH1 IH2]]; [by split|].
    split; [apply IH2|]. intros x. by apply Hstep. }
  apply Hboth.
Qed.

(** Encoding a well-formed string and decoding the bytes gives the string
    back, whatever follows. *)
Lemma utf8_run_encode (s : jsstring) :
  well_formed_string s = true ->
  forall rest,
    concat (map utf16_units (utf8_run utf8_init (utf8_encode s ++ rest))) =
    s ++ concat (map utf16_units (utf8_run utf8_init rest)).
Proof.
  induction s as [|c|c c2 s IH IH2] using list_pair_ind; intros Hwf rest; [done| |].
  - cbn [well_formed_string utf8_encode] in *.
    destruct (is_high_surrogate c) eqn:Hh; [done|].
    destruct (is_low_surrogate c) eqn:Hl; [done|].
    rewrite andb_true_r in Hwf. unfold is_high_surrogate, is_low_surrogate in *.
    rewrite app_nil_r, utf8_run_code_point by (unfold scalar; lia).
    cbn [map concat]. unfold utf16_units. zcases. reflexivity.
  - cbn [well_formed_string utf8_encode] in Hwf |- *.
    destruct (is_high_surrogate c) eqn:Hh.
    + apply andb_true_iff in Hwf as [Hl Hwf]. rewrite Hl.
      unfold is_high_surrogate, is_low_surrogate in *.
      rewrite <- app_assoc, utf8_run_code_point by (unfold scalar; lia).
      cbn [map concat]. rewrite (IH Hwf). unfold utf16_units. zcases.
      cbn [app]. f_equal; [|f_equal]; Z.div_mod_to_equations; lia.
    + destruct (is_low_surrogate c) eqn:Hl; [done|].
      apply andb_true_iff in Hwf as [Hc Hwf].
      unfold is_high_surrogate, is_low_surrogate in Hh, Hl.
      rewrite <- app_assoc, utf8_run_code_point by (unfold scalar; lia).
      cbn [map concat]. rewrite (IH2 Hwf). unfold utf16_units. zcases. reflexivity.
Qed.

(** [TextDecoder.decode] gives back a well-formed string from its UTF-8
    bytes, unless the string starts with the byte order mark. *)
Lemma decode_encode (s : jsstring) :
  well_formed_string s = true -> head s <> Some 0xFEFF ->
  TextDecoder_decode (utf8_encode s) = s.
Proof.
  intros Hwf Hbom. pose proof (utf8_run_encode s Hwf []) as Hrun.
  rewrite app_nil_r in Hrun. cbn [utf8_run] in Hrun.
  change (bytes_needed utf8_init =? 0) with true in Hrun. cbn [map concat] in Hrun.
  rewrite app_nil_r in Hrun.
  unfold TextDecoder_decode.
  destruct (utf8_run utf8_init (utf8_encode s)) as [|cp cps]; [done|].
  destruct (Z.eqb_spec cp 0xFEFF) as [->|_]; [|done].
  exfalso. apply Hbom. rewrite <- Hrun. reflexivity.
Qed.

End Utf8.

(** ** [JSON.parse] reads what [JSON.stringify] writes *)

Section Quote.

Lemma hex_value_digit (n : Z) : 0 <= n < 16 -> hex_value (hex_digit n) = Some n.
Proof.
  intros Hn. unfold hex_digit. destruct (Z.ltb_spec n 10); unfold hex_value, is_digit; zcases; f_equal; lia.
Qed.

Lemma parse_chars_escape (c : Z) (tail : jsstring) :
  0 <= c < 65536 ->
  parse_chars (unicode_escape c ++ tail) = parsed_after c (parse_chars tail).
Proof.
  intros Hc. unfold unicode_escape. cbn [app parse_chars].
  change (92 =? 34) with false. change (92 =? 92) with true.
  change (117 =? 117) with true. cbv iota.
  rewrite !hex_value_digit by (Z.div_mod_to_equations; lia).
  replace (((c / 4096 mod 16 * 16 + c / 256 mod 16) * 16 + c / 16 mod 16) * 16 + c mod 16)
    with c by (Z.div_mod_to_equations; lia).
  reflexivity.
Qed.

Lemma parse_chars_literal (c : Z) (tail : jsstring) :
  0x20 <= c -> c <> 34 -> c <> 92 ->
  parse_chars (c :: tail) = parsed_after c (parse_chars tail).
Proof.
  intros H1 H2 H3. cbn [parse_chars]. zcases. reflexivity.
Qed.

Lemma parse_chars_unit (c : Z) (tail : jsstring) :
  0 <= c < 65536 ->
  parse_chars (quote_unit c ++ tail) = parsed_after c (parse_chars tail).
Proof.
  intros Hc. unfold quote_unit.
  destruct (Z.eqb_spec c 8) as [->|]; [reflexivity|].
  destruct (Z.eqb_spec c 9) as [->|]; [reflexivity|].
  destruct (Z.eqb_spec c 10) as [->|]; [reflexivity|].
  destruct (Z.eqb_spec c 12) as [->|]; [reflexivity|].
  destruct (Z.eqb_spec c 13) as [->|]; [reflexivity|].
  destruct (Z.eqb_spec c 34) as [->|]; [reflexivity|].
  destruct (Z.eqb_spec c 92) as [->|]; [reflexivity|].
  destruct (Z.ltb_spec c 0x20); [by apply parse_chars_escape|].
  destruct (is_high_surrogate c || is_low_surrogate c); [by apply parse_chars_escape|].
  by apply parse_chars_literal.
Qed.

Lemma valid_string_cons (c : Z) (s : jsstring) :
  valid_string (c :: s) = true <-> 0 <= c < 65536 /\ valid_string s = true.
Proof.
  unfold valid_string. cbn [forallb].
  rewrite !andb_true_iff, Z.leb_le, Z.ltb_lt. tauto.
Qed.

(** What [QuoteJSONString] writes, [JSON.parse] reads back. *)
Lemma parse_chars_quote (s : jsstring) :
  valid_string s = true ->
  forall rest, parse_chars (quote_chars s ++ 34 :: rest) = Some (s, rest).
Proof.
  induction s as [|c|c c2 s IH IH2] using list_pair_ind; intros Hs rest; [done| |].
  - apply valid_string_cons in Hs as [Hc _]. cbn [quote_chars].
    destruct (is_high_surrogate c); [|rewrite app_nil_r];
      by rewrite parse_chars_unit.
  - pose proof Hs as Hs'. apply valid_string_cons in Hs' as [Hc Hs2].
    pose proof Hs2 as Hs3. apply valid_string_cons in Hs3 as [Hc2 Hs3].
    cbn [quote_chars].
    destruct (is_high_surrogate c) eqn:Hh; [destruct (is_low_surrogate c2) eqn:Hl|].
    + unfold is_high_surrogate, is_low_surrogate in Hh, Hl.
      cbn [app]. rewrite !parse_chars_literal by lia. by rewrite (IH Hs3).
    + rewrite <- app_assoc, parse_chars_unit by done.
      fold (quote_chars (c2 :: s)). by rewrite (IH2 Hs2).
    + rewrite <- app_assoc, parse_chars_unit by done. by rewrite (IH2 Hs2).
Qed.

Lemma line_text_nil : line_text [].
Proof. split; [apply not_elem_of_nil|done]. Qed.

Lemma line_text_app (a b : jsstring) : line_text a -> line_text b -> line_text (a ++ b).
Proof.
  intros [Ha1 Ha2] [Hb1 Hb2]. split.
  - rewrite elem_of_app. tauto.
  - intros tail. by rewrite <- app_assoc, Ha2, Hb2.
Qed.

Lemma line_text_plain (s : jsstring) : Forall plain s -> line_text s.
Proof.
  induction 1 as [|u s [Hu Hne] _ IH]; [apply line_text_nil|].
  change (u :: s) with ([u] ++ s). apply line_text_app; [|exact IH].
  split.
  - rewrite list_elem_of_singleton. congruence.
  - intros tail. cbn [app well_formed_string].
    unfold is_high_surrogate, is_low_surrogate. zcases. reflexivity.
Qed.

Lemma hex_digit_plain (n : Z) : 0 <= n < 16 -> plain (hex_digit n).
Proof. intros Hn. unfold hex_digit, plain. zcases; lia. Qed.

Lemma line_text_escape (c : Z) : line_text (unicode_escape c).
Proof.
  apply line_text_plain. unfold unicode_escape.
  repeat apply Forall_cons; try apply Forall_nil;
    try (apply hex_digit_plain; Z.div_mod_to_equations; lia);
    unfold plain; lia.
Qed.

Lemma line_text_unit (c : Z) : 0 <= c < 65536 -> line_text (quote_unit c).
Proof.
  intros Hc. unfold quote_unit.
  repeat match goal with
         | |- line_text (if ?c =? ?k then _ else _) =>
             destruct (Z.eqb_spec c k);
             [apply line_text_plain; repeat constructor; unfold plain; lia|]
         end.
  destruct (Z.ltb_spec c 0x20); [apply line_text_escape|].
  destruct (is_high_surrogate c) eqn:Hh; [apply line_text_escape|].
  destruct (is_low_surrogate c) eqn:Hl; [apply line_text_escape|].
  cbn [orb]. split.
  - rewrite list_elem_of_singleton. congruence.
  - intros tail. cbn [app well_formed_string]. rewrite Hh, Hl.
    zcases. reflexivity.
Qed.

Lemma line_text_quote (s : jsstring) : valid_string s = true -> line_text (quote_chars s).
Proof.
  induction s as [|c|c c2 s IH IH2] using list_pair_ind; intros Hs.
  - apply line_text_nil.
  - apply valid_string_cons in Hs as [Hc _]. cbn [quote_chars].
    destruct (is_high_surrogate c); [|rewrite app_nil_r]; by apply line_text_unit.
  - pose proof Hs as Hs'. apply valid_string_cons in Hs' as [Hc Hs2].
    pose proof Hs2 as Hs3. apply valid_string_cons in Hs3 as [Hc2 Hs3].
    change (quote_chars (c :: c2 :: s)) with
      (if is_high_surrogate c then
         if is_low_surrogate c2 then c :: c2 :: quote_chars s
         else quote_unit c ++ quote_chars (c2 :: s)
       else quote_unit c ++ quote_chars (c2 :: s)).
    destruct (is_high_surrogate c) eqn:Hh; [destruct (is_low_surrogate c2) eqn:Hl|].
    + change (c :: c2 :: quote_chars s) with ([c; c2] ++ quote_chars s).
      apply line_text_app; [|by apply IH]. split.
      * unfold is_high_surrogate, is_low_surrogate in Hh, Hl.
        rewrite !elem_of_cons, elem_of_nil. lia.
      * intros tail. cbn [app well_formed_string]. by rewrite Hh, Hl.
    + apply line_text_app; [by apply line_text_unit|by apply IH2].
    + apply line_text_app; [by apply line_text_unit|by apply IH2].
Qed.

End Quote.

Section FragmentLine.
Context `{engine : Engine}.

Lemma fragment_line_text (delta : jsstring) :
  valid_string delta = true -> line_text (fragment_line delta).
Proof.
  intros Hd. unfold fragment_line, stringify_response, stringify, QuoteJSONString.
  repeat match goal with
         | |- line_text (quote_chars _) =>
             apply line_text_quote; first [exact Hd | reflexivity]
         | |- line_text (_ ++ _) => apply line_text_app
         | |- line_text (_ :: _) =>
             apply line_text_plain; repeat constructor; unfold plain; lia
         end.
Qed.

Lemma fragment_line_head (delta : jsstring) :
  exists rest, fragment_line delta = 123 :: rest.
Proof. eexists. reflexivity. Qed.

Lemma JSON_parse_fragment_line (delta : jsstring) :
  valid_string delta = true ->
  JSON_parse (fragment_line delta) = Ok (JObject [(lit "response", JString delta)]).
Proof.
  intros Hd. unfold JSON_parse.
  destruct (fragment_line_head delta) as [rest Hrest].
  assert (Hfuel : exists fuel, (2 * length (fragment_line delta) + 2 = S (S (S fuel)))%nat).
  { rewrite Hrest. cbn [length]. exists (2 * length rest + 1)%nat. lia. }
  destruct Hfuel as [fuel ->].
  unfold fragment_line, stringify_response, stringify, QuoteJSONString.
  cbn [app parse_value]. unfold value_step at 1.
  cbn [skip_ws]. change (is_json_ws 123) with false. cbv iota.
  change (123 =? 34) with false. change (123 =? 91) with false.
  change (123 =? 123) with true. cbv iota.
  cbn [skip_ws]. change (is_json_ws 34) with false. cbv iota.
  change (34 =? 125) with false. cbv iota.
  cbn [parse_members]. unfold members_step at 1.
  cbn [skip_ws]. change (is_json_ws 34) with false. cbv iota.
  change (34 =? 34) with true. cbv iota.
  rewrite <- !app_assoc. cbn [app].
  rewrite (parse_chars_quote (lit "response") eq_refl).
  cbn [app skip_ws]. change (is_json_ws 58) with false. cbv iota.
  change (58 =? 58) with true. cbv iota.
  cbn [parse_value]. unfold value_step at 1.
  cbn [skip_ws]. change (is_json_ws 34) with false. cbv iota.
  change (34 =? 34) with true. cbv iota.
  rewrite (parse_chars_quote delta Hd).
  cbn [skip_ws]. change (is_json_ws 125) with false. cbv iota.
  change (125 =? 44) with false. change (125 =? 125) with true. cbv iota.
  reflexivity.
Qed.

Lemma delta_of_fragment_line (delta : jsstring) :
  valid_string delta = true -> delta_of (fragment_line delta) = Some delta.
Proof.
  intros Hd. unfold delta_of. rewrite JSON_parse_fragment_line by done.
  reflexivity.
Qed.

End FragmentLine.

(** ** Reads of whole lines *)

Section WholeLines.
Import EndToEnd.
Context `{engine : Engine}.

Lemma utf8_run_writes (writes : list jsstring) (rest : bytes) :
  Forall (fun w => well_formed_string w = true) writes ->
  concat (map utf16_units (utf8_run utf8_init (read_of writes ++ rest))) =
  concat writes ++ concat (map utf16_units (utf8_run utf8_init rest)).
Proof.
  unfold read_of. induction 1 as [|w writes Hw _ IH]; [done|].
  cbn [map concat]. rewrite <- !app_assoc. rewrite utf8_run_encode by done.
  by rewrite IH.
Qed.

(** A read that carries whole well-formed writes decodes to their text. *)
Lemma decode_read_of (writes : list jsstring) :
  Forall (fun w => well_formed_string w = true) writes ->
  head (concat writes) <> Some 0xFEFF ->
  TextDecoder_decode (read_of writes) = concat writes.
Proof.
  intros Hwf Hbom. pose proof (utf8_run_writes writes [] Hwf) as Hrun.
  rewrite app_nil_r in Hrun. cbn [utf8_run] in Hrun.
  change (bytes_needed utf8_init =? 0) with true in Hrun. cbn [map concat] in Hrun.
  rewrite app_nil_r in Hrun.
  unfold TextDecoder_decode.
  destruct (utf8_run utf8_init (read_of writes)) as [|cp cps]; [done|].
  destruct (Z.eqb_spec cp 0xFEFF) as [->|_]; [|done].
  exfalso. apply Hbom. rewrite <- Hrun. reflexivity.
Qed.

Lemma serialize_well_formed (delta : jsstring) :
  valid_string delta = true -> well_formed_string (serialize delta) = true.
Proof.
  intros Hd. unfold serialize.
  destruct (fragment_line_text delta Hd) as [_ Hwf]. by rewrite Hwf.
Qed.

Lemma concat_serialize (deltas : list jsstring) :
  concat (map serialize deltas) = terminated (map fragment_line deltas).
Proof. unfold terminated. by rewrite map_map. Qed.

(** A read that carries the lines of some fragments decodes to these
    lines. *)
Lemma decode_serialized (deltas : list jsstring) :
  Forall (fun d => valid_string d = true) deltas ->
  TextDecoder_decode (read_of (map serialize deltas)) =
  terminated (map fragment_line deltas).
Proof.
  intros Hvalid. rewrite <- concat_serialize. apply decode_read_of.
  - apply list.Forall_fmap. eapply list.Forall_impl; [exact Hvalid|].
    intros d Hd. by apply serialize_well_formed.
  - destruct deltas as [|d deltas]; [done|]. cbn [map concat].
    unfold serialize. destruct (fragment_line_head d) as [rest ->]. cbn. congruence.
Qed.

Lemma fragment_lines (deltas : list jsstring) :
  Forall (fun d => valid_string d = true) deltas ->
  Forall (fun f : jsstring * jsstring => (10 ∉ f.1) /\ delta_of f.1 = Some f.2)
         (map (fun d => (fragment_line d, d)) deltas).
Proof.
  intros Hvalid. apply list.Forall_fmap. eapply list.Forall_impl; [exact Hvalid|].
  intros d Hd. cbn. split; [apply (fragment_line_text d Hd)|by apply delta_of_fragment_line].
Qed.

(** The component handles a read of whole fragment lines by appending
    their deltas. *)
Lemma handleChunk_serialized (env : H5PChat.Env) (st : H5PChat.State)
    (text : jsstring) (deltas : list jsstring) :
  Forall (fun d => valid_string d = true) deltas ->
  H5PChat.handleChunk (read_of (map serialize deltas)) (H5PChat.reading env st text) =
  H5PChat.reading env st (text ++ concat deltas).
Proof.
  intros Hvalid.
  rewrite (handleChunk_fragments env st text _ (map (fun d => (fragment_line d, d)) deltas)).
  - by rewrite map_map, map_id.
  - by apply fragment_lines.
  - rewrite map_map. cbn [fst]. by apply decode_serialized.
Qed.

Lemma regroup_map {A B} (f : A -> B) (sizes : list nat) (l : list A) :
  regroup sizes (map f l) = map (map f) (regroup sizes l).
Proof.
  revert l. induction sizes as [|n sizes IH]; intros l; [done|].
  cbn [regroup map]. by rewrite <- fmap_take, <- fmap_drop, IH.
Qed.

Lemma concat_regroup {A} (sizes : list nat) (l : list A) :
  concat (regroup sizes l) = l.
Proof.
  revert l. induction sizes as [|n sizes IH]; intros l; cbn [regroup concat].
  - apply app_nil_r.
  - by rewrite IH, take_drop.
Qed.

(** However the writes are grouped into reads, the component appends all
    the deltas, in order. *)
Lemma handleChunks_serialized (env : H5PChat.Env) (st : H5PChat.State)
    (sizes : list nat) (text : jsstring) (deltas : list jsstring) :
  Forall (fun d => valid_string d = true) deltas ->
  fold_left (fun s value => H5PChat.handleChunk value s)
    (map read_of (regroup sizes (map serialize deltas))) (H5PChat.reading env st text) =
  H5PChat.reading env st (text ++ concat deltas).
Proof.
  revert text deltas. induction sizes as [|n sizes IH]; intros text deltas Hvalid.
  - cbn [regroup map fold_left]. by apply handleChunk_serialized.
  - cbn [regroup map fold_left].
    rewrite <- fmap_take, <- fmap_drop.
    rewrite handleChunk_serialized by (by apply Forall_take).
    rewrite IH by (by apply Forall_drop).
    by rewrite <- app_assoc, <- concat_app, take_drop.
Qed.

(** The state in which the read loop starts. *)
Lemma requestAndRead_resolved (contentType : jsstring) (env : H5PChat.Env)
    (st : H5PChat.State) (status : Z) (b : H5PChat.Body) :
  H5PChat.fetch env {| H5PChat.contentType := contentType;
                       H5PChat.description := H5PChat.input st |} =
    Ok {| H5PChat.status := status; H5PChat.body := Some b |} ->
  H5PChat.requestAndRead contentType (H5PChat.input st) env (H5PChat.started env st) =
  let st1 := fold_left (fun s value => H5PChat.handleChunk value s) (H5PChat.reads b)
               (H5PChat.reading env st []) in
  match H5PChat.ending b with
  | H5PChat.Done => st1
  | H5PChat.Rejects _ => H5PChat.handleError env st1
  end.
Proof.
  intros Hfetch. unfold H5PChat.requestAndRead. rewrite Hfetch.
  cbn [H5PChat.body].
  unfold H5PChat.new_Message, H5PChat.setMessages, H5PChat.appendMessage, H5PChat.started.
  cbn [H5PChat.store H5PChat.messages H5PChat.input H5PChat.isLoading H5PChat.unmounted].
  rewrite length_app, <- !app_assoc. cbn [length app]. rewrite Nat.add_1_r.
  reflexivity.
Qed.

Lemma rendered_setIsLoading (b : bool) (st : H5PChat.State) :
  H5PChat.rendered (H5PChat.setIsLoading b st) = H5PChat.rendered st.
Proof. unfold H5PChat.setIsLoading. by destruct (H5PChat.unmounted st). Qed.

(** The state [handleSubmit] ends in when the reply arrives in reads of
    whole fragment lines. *)
Lemma handleSubmit_serialized (contentType : jsstring) (env : H5PChat.Env)
    (st : H5PChat.State) (deltas : list jsstring) (sizes : list nat) (status : Z) :
  H5PChat.unmounted st = false -> H5PChat.isLoading st = false ->
  truthy (trim (H5PChat.input st)) = true ->
  Forall (fun d => valid_string d = true) deltas ->
  H5PChat.fetch env {| H5PChat.contentType := contentType;
                       H5PChat.description := H5PChat.input st |} =
    Ok {| H5PChat.status := status;
          H5PChat.body :=
            Some {| H5PChat.reads := map read_of (regroup sizes (map serialize deltas));
                    H5PChat.ending := H5PChat.Done |} |} ->
  H5PChat.handleSubmit contentType env st =
  (Ok tt, H5PChat.setIsLoading false (H5PChat.reading env st (concat deltas))).
Proof.
  intros Hun Hload Hin Hvalid Hfetch.
  rewrite handleSubmit_accepted by done.
  rewrite (requestAndRead_resolved _ _ _ _ _ Hfetch).
  cbn [H5PChat.reads H5PChat.ending]. cbv zeta.
  by rewrite handleChunks_serialized.
Qed.

(** The log [handleSubmit] leaves when the reply arrives in reads of whole
    fragment lines. *)
Lemma rendered_handleSubmit_serialized (contentType : jsstring) (env : H5PChat.Env)
    (st : H5PChat.State) (deltas : list jsstring) (sizes : list nat) (status : Z) :
  H5PChat.well_formed st ->
  H5PChat.unmounted st = false -> H5PChat.isLoading st = false ->
  truthy (trim (H5PChat.input st)) = true ->
  Forall (fun d => valid_string d = true) deltas ->
  H5PChat.fetch env {| H5PChat.contentType := contentType;
                       H5PChat.description := H5PChat.input st |} =
    Ok {| H5PChat.status := status;
          H5PChat.body :=
            Some {| H5PChat.reads := map read_of (regroup sizes (map serialize deltas));
                    H5PChat.ending := H5PChat.Done |} |} ->
  let st' := (H5PChat.handleSubmit contentType env st).2 in
  H5PChat.rendered st' =
    H5PChat.rendered st
    ++ [ {| H5PChat.role := H5PChat.user; H5PChat.content := H5PChat.input st;
            H5PChat.timestamp := H5PChat.date_submit env |};
         {| H5PChat.role := H5PChat.assistant; H5PChat.content := concat deltas;
            H5PChat.timestamp := H5PChat.date_response env |} ] /\
  H5PChat.last_text st' = Some (concat deltas) /\
  H5PChat.isLoading st' = false.
Proof.
  intros Hwf Hun Hload Hin Hvalid Hfetch st'. subst st'.
  rewrite (handleSubmit_serialized contentType env st deltas sizes status) by done.
  cbn [snd app].
  assert (Hrendered : H5PChat.rendered
            (H5PChat.setIsLoading false (H5PChat.reading env st (concat deltas))) =
          H5PChat.rendered st
          ++ [ {| H5PChat.role := H5PChat.user; H5PChat.content := H5PChat.input st;
                  H5PChat.timestamp := H5PChat.date_submit env |};
               {| H5PChat.role := H5PChat.assistant; H5PChat.content := concat deltas;
                  H5PChat.timestamp := H5PChat.date_response env |} ]).
  { by rewrite rendered_setIsLoading, rendered_reading. }
  split; [exact Hrendered|]. split; [|reflexivity].
  unfold H5PChat.last_text. rewrite Hrendered.
  change (H5PChat.rendered st ++ [?u; ?a]) with (H5PChat.rendered st ++ [u] ++ [a]).
  by rewrite app_assoc, last_lookup_snoc.
Qed.

(** C1 (as amended): chunk-boundary independence at line boundaries.  For
    every sequence of fragments with delta texts [deltas], serialized as the
    relay writes them, and for every way of cutting the byte stream into
    reads at ends of lines, the text of the assistant message that
    [handleSubmit] leaves in the log is the concatenation of the deltas, and
    the component is idle again. *)
Theorem whole_line_reads_give_all_deltas (contentType : jsstring) (env : H5PChat.Env)
    (st : H5PChat.State) (deltas : list jsstring) (sizes : list nat) (status : Z) :
  H5PChat.well_formed st ->
  H5PChat.unmounted st = false -> H5PChat.isLoading st = false ->
  truthy (trim (H5PChat.input st)) = true ->
  Forall (fun d => valid_string d = true) deltas ->
  H5PChat.fetch env {| H5PChat.contentType := contentType;
                       H5PChat.description := H5PChat.input st |} =
    Ok {| H5PChat.status := status;
          H5PChat.body :=
            Some {| H5PChat.reads := map read_of (regroup sizes (map serialize deltas));
                    H5PChat.ending := H5PChat.Done |} |} ->
  let st' := (H5PChat.handleSubmit contentType env st).2 in
  H5PChat.rendered st' =
    H5PChat.rendered st
    ++ [ {| H5PChat.role := H5PChat.user; H5PChat.content := H5PChat.input st;
            H5PChat.timestamp := H5PChat.date_submit env |};
         {| H5PChat.role := H5PChat.assistant; H5PChat.content := concat deltas;
            H5PChat.timestamp := H5PChat.date_response env |} ] /\
  H5PChat.last_text st' = Some (concat deltas) /\
  H5PChat.isLoading st' = false.
Proof. apply rendered_handleSubmit_serialized. Qed.

End WholeLines.

Lemma whole_line_reads_give_all_deltas_witness :
  H5PChat.well_formed (Sample.typing "intro to photosynthesis") /\
  Forall (fun d => valid_string d = true) Sample.deltas /\
  H5PChat.last_text
    (H5PChat.handleSubmit (engine := Sample.engine) (lit "H5P.Course")
       (Sample.env_reading
          (map EndToEnd.read_of
             (EndToEnd.regroup [2%nat]
                (map (serialize (engine := Sample.engine)) Sample.deltas)))
          H5PChat.Done)
       (Sample.typing "intro to photosynthesis")).2 =
  Some (lit "Structure: ...").
Proof.
  assert (Hwf : H5PChat.well_formed (Sample.typing "intro to photosynthesis")).
  { split; cbn; constructor. }
  assert (Hvalid : Forall (fun d => valid_string d = true) Sample.deltas).
  { repeat constructor. }
  split; [exact Hwf|]. split; [exact Hvalid|].
  exact (proj1 (proj2 (whole_line_reads_give_all_deltas (engine := Sample.engine)
                  (lit "H5P.Course")
                  (Sample.env_reading
                     (map EndToEnd.read_of
                        (EndToEnd.regroup [2%nat]
                           (map (serialize (engine := Sample.engine)) Sample.deltas)))
                     H5PChat.Done)
                  (Sample.typing "intro to photosynthesis")
                  Sample.deltas [2%nat] 200
                  Hwf eq_refl eq_refl eq_refl Hvalid eq_refl))).
Defined.

(** C1 (the claim as stated fails): one fragment with the delta [Hi],
    serialized as the relay writes it and delivered in two reads that cut
    its line after nine bytes.  Neither half parses, both are skipped, and
    the text of the assistant message stays empty. *)
Lemma split_line_loses_delta :
  concat Sample.split_reads =
    EndToEnd.read_of [serialize (engine := Sample.engine) (lit "Hi")] /\
  H5PChat.last_text
    (H5PChat.handleSubmit (engine := Sample.engine) (lit "H5P.Course")
       (Sample.env_reading Sample.split_reads H5PChat.Done)
       (Sample.typing "intro to photosynthesis")).2 = Some [] /\
  [] <> concat [lit "Hi"].
Proof.
  split; [vm_compute; reflexivity|]. split; [vm_compute; reflexivity|].
  vm_compute. discriminate.
Qed.

(** The same happens when the cut falls inside a character of several
    bytes: each half decodes with U+FFFD in place of the cut character, no
    half parses, and the delta is lost. *)
Lemma split_character_loses_delta :
  concat Sample.split_character_reads =
    EndToEnd.read_of [serialize (engine := Sample.engine) [0xE9]] /\
  map TextDecoder_decode Sample.split_character_reads =
    [dq "{'response':'" ++ [0xFFFD]; [0xFFFD] ++ dq "'}" ++ [10]] /\
  H5PChat.last_text
    (H5PChat.handleSubmit (engine := Sample.engine) (lit "H5P.Course")
       (Sample.env_reading Sample.split_character_reads H5PChat.Done)
       (Sample.typing "intro to photosynthesis")).2 = Some [].
Proof.
  split; [vm_compute; reflexivity|]. split; vm_compute; reflexivity.
Qed.

(** ** End to end *)

Section EndToEndRun.
Import EndToEnd.
Context `{engine : Engine}.

Lemma write_of_fragment_line (delta : jsstring) :
  valid_string delta = true ->
  Routes.write_of (fragment_line delta) = Some (serialize delta).
Proof.
  intros Hd. unfold Routes.write_of.
  pose proof (JSON_parse_fragment_line delta Hd) as Hparse.
  rewrite (JSON_parse_not_blank _ _ Hparse), Hparse. reflexivity.
Qed.

Lemma omap_write_of (deltas : list jsstring) :
  Forall (fun d => valid_string d = true) deltas ->
  omap Routes.write_of (map fragment_line deltas ++ [[]]) = map serialize deltas.
Proof.
  induction 1 as [|d deltas Hd _ IH]; [done|].
  cbn [map app omap list_omap]. rewrite write_of_fragment_line by done.
  cbn in IH |- *. by rewrite IH.
Qed.

(** The relay pushes one chunk per fragment line, however the lines are
    grouped into reads. *)
Lemma pushChunk_serialized (sizes : list nat) (deltas pushed : list jsstring) :
  Forall (fun d => valid_string d = true) deltas ->
  OllamaService.handleChunks Routes.pushChunk
    (map read_of (regroup sizes (map serialize deltas))) pushed =
  pushed ++ map serialize deltas.
Proof.
  intros Hvalid. rewrite service_handleChunks_lines, pushChunk_lines. f_equal.
  revert deltas Hvalid. induction sizes as [|n sizes IH]; intros deltas Hvalid.
  - cbn [regroup map]. unfold lines_of. cbn [map concat]. rewrite app_nil_r.
    rewrite decode_serialized, split_terminated by
      (first [done | apply list.Forall_fmap; eapply list.Forall_impl; [exact Hvalid|];
                     intros d Hd; apply (fragment_line_text d Hd)]).
    by apply omap_write_of.
  - cbn [regroup map]. rewrite <- fmap_take, <- fmap_drop.
    change (lines_of (?x :: ?xs)) with (split 10 (TextDecoder_decode x) ++ lines_of xs).
    rewrite omap_app, IH by (by apply Forall_drop).
    rewrite decode_serialized, split_terminated.
    + rewrite omap_write_of by (by apply Forall_take).
      by rewrite <- map_app, take_drop.
    + apply list.Forall_fmap. eapply list.Forall_impl; [apply Forall_take, Hvalid|].
      intros d Hd. apply (fragment_line_text d Hd).
    + by apply Forall_take.
Qed.

Lemma arrivals_Arrives (values : list bytes) :
  OllamaService.arrivals (map OllamaService.Arrives values) = values.
Proof. induction values as [|v values IH]; [done|]. cbn. by rewrite IH. Qed.

Lemma Stops_not_Arrives (values : list bytes) :
  OllamaService.Stops ∉ map OllamaService.Arrives values.
Proof.
  induction values as [|v values IH]; [apply not_elem_of_nil|].
  cbn [map]. apply not_elem_of_cons. split; [discriminate|exact IH].
Qed.

(** What the streaming route replies when the plain call is answered and
    the streamed call delivers fragment lines. *)
Lemma suggestionsStream_serialized (data : JValue) (sizes : list nat)
    (deltas : list jsstring) (body : Routes.RequestBody)
    (w : OllamaService.World) (this : OllamaService.Service) :
  data <> JNull ->
  Routes.missing (Routes.contentType body) || Routes.missing (Routes.description body) = false ->
  Forall (fun d => valid_string d = true) deltas ->
  (Routes.suggestionsStream
     (OllamaService.streaming_upstream (fun _ => Ok data)
        (OllamaService.schedule (upstream_body sizes (map fragment_line deltas)))
        OllamaService.EndOfStream)
     body w this).1.1 = Routes.Piped (map serialize deltas) true.
Proof.
  intros Hdata Hpresent Hvalid. unfold Routes.suggestionsStream. rewrite Hpresent.
  unfold OllamaService.getH5PContentSuggestions, OllamaService.chat.
  cbn [OllamaService.streaming_upstream OllamaService.post_generate bind].
  assert (Hprompt : exists prompt, get_response data = Ok prompt).
  { destruct data; try (eexists; reflexivity). by destruct Hdata. }
  destruct Hprompt as [prompt ->].
  match goal with
  | |- context [OllamaService.chatStream ?up prompt Routes.pushChunk None ?w' this []] =>
      pose proof (chatStream_completes Routes.pushChunk (fun _ => Ok data) prompt None
                    w' this []
                    (OllamaService.schedule (upstream_body sizes (map fragment_line deltas))))
        as Hrun
  end.
  unfold upstream_body in Hrun |- *. cbn [OllamaService.schedule] in Hrun |- *.
  specialize (Hrun (Stops_not_Arrives _) eq_refl). cbv zeta in Hrun.
  destruct Hrun as [Hres Hacc]. rewrite arrivals_Arrives in Hacc.
  replace (map (fun l => l ++ [10]) (map fragment_line deltas))
    with (map serialize deltas) in Hres, Hacc |- * by (by rewrite map_map).
  rewrite pushChunk_serialized in Hacc by done. cbn [app] in Hacc.
  match goal with
  | |- context [OllamaService.chatStream ?up ?p ?cb ?c ?w' ?t ?a] =>
      destruct (OllamaService.chatStream up p cb c w' t a) as [[[r w2] this2] pushed]
  end.
  cbn [fst snd] in Hres, Hacc. subst r pushed. reflexivity.
Qed.

(** C7: the end-to-end happy path.  The component, with
    ["intro to photosynthesis"] typed and the content type ["H5P.Course"],
    submits to the relay; the upstream answers the plain call of the relay
    with some data and the streamed call with the three lines, then closes.
    However the lines are grouped into the reads of the relay and the chunks
    of the relay into the reads of the component, the log ends with exactly
    two messages, the user message and then one assistant message whose
    text is ["Structure: ..."]. *)
Theorem end_to_end_happy_path (data : JValue) (sizes_up sizes_down : list nat)
    (w : OllamaService.World) (this : OllamaService.Service) (t1 t2 t3 : Z) :
  data <> JNull ->
  let up := OllamaService.streaming_upstream (fun _ => Ok data)
              (OllamaService.schedule (upstream_body sizes_up Sample.lines))
              OllamaService.EndOfStream in
  let env := {| H5PChat.fetch := relay up sizes_down w this;
                H5PChat.date_submit := t1; H5PChat.date_response := t2;
                H5PChat.date_error := t3 |} in
  let st' := (H5PChat.handleSubmit (lit "H5P.Course") env
                (Sample.typing "intro to photosynthesis")).2 in
  H5PChat.rendered st' =
    [ {| H5PChat.role := H5PChat.user; H5PChat.content := lit "intro to photosynthesis";
         H5PChat.timestamp := t1 |};
      {| H5PChat.role := H5PChat.assistant; H5PChat.content := lit "Structure: ...";
         H5PChat.timestamp := t2 |} ] /\
  H5PChat.isLoading st' = false.
Proof.
  intros Hdata up env st'.
  assert (Hvalid : Forall (fun d => valid_string d = true) Sample.deltas)
    by (repeat constructor).
  assert (Hlines : Sample.lines = map fragment_line Sample.deltas) by reflexivity.
  assert (Hwf : H5PChat.well_formed (Sample.typing "intro to photosynthesis"))
    by (split; cbn; constructor).
  assert (Hfetch :
    H5PChat.fetch env
      {| H5PChat.contentType := lit "H5P.Course";
         H5PChat.description := H5PChat.input (Sample.typing "intro to photosynthesis") |} =
    Ok {| H5PChat.status := 200;
          H5PChat.body :=
            Some {| H5PChat.reads :=
                      map read_of (regroup sizes_down (map serialize Sample.deltas));
                    H5PChat.ending := H5PChat.Done |} |}).
  { subst env up. cbn [H5PChat.fetch]. unfold relay. rewrite Hlines.
    rewrite suggestionsStream_serialized by done. reflexivity. }
  pose proof (rendered_handleSubmit_serialized (lit "H5P.Course") env
                (Sample.typing "intro to photosynthesis") Sample.deltas sizes_down 200
                Hwf eq_refl eq_refl eq_refl Hvalid Hfetch) as (Hrendered & _ & Hidle).
  split; [exact Hrendered|exact Hidle].
Qed.

End EndToEndRun.

Lemma end_to_end_happy_path_witness :
  JString (lit "1. Content Structure ...") <> JNull /\
  H5PChat.rendered
    (H5PChat.handleSubmit (engine := Sample.engine) (lit "H5P.Course")
       {| H5PChat.fetch :=
            EndToEnd.relay (engine := Sample.engine)
              (OllamaService.streaming_upstream
                 (fun _ => Ok (JString (lit "1. Content Structure ...")))
                 (OllamaService.schedule (EndToEnd.upstream_body [1%nat; 1%nat] Sample.lines))
                 OllamaService.EndOfStream)
              [2%nat] Sample.world Sample.service;
          H5PChat.date_submit := 1; H5PChat.date_response := 2;
          H5PChat.date_error := 3 |}
       (Sample.typing "intro to photosynthesis")).2 =
  [ {| H5PChat.role := H5PChat.user; H5PChat.content := lit "intro to photosynthesis";
       H5PChat.timestamp := 1 |};
    {| H5PChat.role := H5PChat.assistant; H5PChat.content := lit "Structure: ...";
       H5PChat.timestamp := 2 |} ].
Proof.
  assert (Hdata : JString (lit "1. Content Structure ...") <> JNull) by discriminate.
  split; [exact Hdata|].
  exact (proj1 (end_to_end_happy_path (engine := Sample.engine)
                  (JString (lit "1. Content Structure ...")) [1%nat; 1%nat] [2%nat]
                  Sample.world Sample.service 1 2 3 Hdata)).
Defined.

(** When it is the upstream that cannot be reached, the relay answers with
    its JSON error, status 500; the component does not look at the status,
    reads the error object as a fragment without [response], and the text of
    the assistant message becomes ["undefined"]. *)
Lemma upstream_unreachable_shows_undefined :
  let up := {| OllamaService.post_generate := fun _ => Throw (Error (lit "connect ECONNREFUSED"));
               OllamaService.fetch_generate := fun _ => Throw TypeError |} in
  (Routes.suggestionsStream (engine := Sample.engine) up Sample.request
     Sample.world Sample.service).1.1 =
    Routes.Json 500 (dq "{'error':'Failed to stream content suggestions'}") /\
  H5PChat.rendered
    (H5PChat.handleSubmit (engine := Sample.engine) (lit "H5P.Course")
       {| H5PChat.fetch := EndToEnd.relay (engine := Sample.engine) up []
                             Sample.world Sample.service;
          H5PChat.date_submit := 1; H5PChat.date_response := 2;
          H5PChat.date_error := 3 |}
       (Sample.typing "intro to photosynthesis")).2 =
  [ {| H5PChat.role := H5PChat.user; H5PChat.content := lit "intro to photosynthesis";
       H5PChat.timestamp := 1 |};
    {| H5PChat.role := H5PChat.assistant; H5PChat.content := lit "undefined";
       H5PChat.timestamp := 2 |} ].
Proof.
  split; vm_compute; reflexivity.
Qed.

(** * Further properties

    Properties of the same code beyond those above: how a stream ends in
    the service, what the two routes reply, and what the component does
    with any reply. *)

Lemma two_reads_not_stopped : OllamaService.Stops ∉ Sample.two_reads.
Proof.
  unfold Sample.two_reads. rewrite !not_elem_of_cons.
  repeat split; try discriminate. apply not_elem_of_nil.
Qed.

(** ** The service: how a stream ends *)

Section StreamOutcome.
Import OllamaService.
Context {S : Type} (callback : StreamCallback S).

(** The loop on a reply that nobody cancels: every read is handled, then
    the reply ends or breaks. *)
Lemma readLoop_runs (signal : nat) (schedule : list Event) (ending : Ending)
    (w : World) (this : Service) (acc : S) :
  Stops ∉ schedule -> aborted signal w = false ->
  readLoop callback signal schedule ending w this acc =
  match ending with
  | EndOfStream =>
      (Ok tt, w, this,
       match onComplete callback with
       | Some f => f (handleChunks callback (arrivals schedule) acc)
       | None => handleChunks callback (arrivals schedule) acc
       end)
  | Breaks e => (Throw e, w, this, handleChunks callback (arrivals schedule) acc)
  end.
Proof.
  intros Hstops Hlive. revert acc.
  induction schedule as [|[value|] rest IH]; intros acc.
  - cbn. rewrite Hlive. by destruct ending.
  - cbn [readLoop arrivals]. rewrite Hlive. rewrite IH.
    + reflexivity.
    + intros Hin. apply Hstops. by right.
  - exfalso. apply Hstops. by left.
Qed.

(** X1: a streamed reply that ends normally.  Whatever the state of the
    service and of earlier controllers, [chatStream] hands every read to the
    line handler in order, then calls [onComplete] (if the callback has one)
    exactly once, after the last chunk; it fulfils its promise, never calls
    [onError], and leaves no controller behind. *)
Theorem chatStream_delivers_then_completes
    (post : GenerateRequest -> Throws JValue) (prompt : JSValue)
    (context : option (list Z)) (w : World) (this : Service) (acc : S)
    (schedule : list Event) :
  Stops ∉ schedule ->
  let run := chatStream (streaming_upstream post schedule EndOfStream)
               prompt callback context w this acc in
  run.1.1.1 = Ok tt /\
  run.2 = match onComplete callback with
          | Some f => f (handleChunks callback (arrivals schedule) acc)
          | None => handleChunks callback (arrivals schedule) acc
          end /\
  abortController run.1.2 = None.
Proof.
  intros Hstops. unfold chatStream, new_AbortController.
  cbn [streaming_upstream fetch_generate OllamaService.schedule OllamaService.ending].
  rewrite readLoop_runs; [|done|apply aborted_fresh]. cbn. done.
Qed.

(** X2: a streamed reply that breaks.  When a read rejects with an error
    other than an abort, the chunks read before it have all been handed to
    the callback, then [onError] (if any) is called once with that very
    error, [onComplete] is not called, the error is thrown again to the
    caller, and the controller is released.  An [AbortError] instead is
    swallowed: the promise is fulfilled and neither [onError] nor
    [onComplete] is called. *)
Theorem chatStream_reports_failure
    (post : GenerateRequest -> Throws JValue) (prompt : JSValue)
    (context : option (list Z)) (w : World) (this : Service) (acc : S)
    (schedule : list Event) (e : Exn) :
  Stops ∉ schedule ->
  let run := chatStream (streaming_upstream post schedule (Breaks e))
               prompt callback context w this acc in
  let delivered := handleChunks callback (arrivals schedule) acc in
  run.1.1.1 = match e with AbortError => Ok tt | _ => Throw e end /\
  run.2 = match e, onError callback with
          | AbortError, _ => delivered
          | _, Some f => f e delivered
          | _, None => delivered
          end /\
  abortController run.1.2 = None.
Proof.
  intros Hstops. unfold chatStream, new_AbortController.
  cbn [streaming_upstream fetch_generate OllamaService.schedule OllamaService.ending].
  rewrite readLoop_runs; [|done|apply aborted_fresh].
  destruct e; cbn; by destruct (onError callback).
Qed.

(** X3: a request that fails before anything is read.  When [fetch]
    resolves to a response without a body, [chatStream] throws the error
    [Failed to get response reader]; when [fetch] rejects, it throws that
    rejection again, unless it is an abort, which it swallows.  In each case
    the line handler is never called, [onError] gets the error that is
    thrown, and the request has been sent once. *)
Theorem chatStream_fails_before_reading
    (post : GenerateRequest -> Throws JValue) (prompt : JSValue)
    (context : option (list Z)) (w : World) (this : Service) (acc : S) :
  let report e := match onError callback with Some f => f e acc | None => acc end in
  let sent := calls w ++ [generateRequest this prompt context true] in
  (let run := chatStream {| post_generate := post; fetch_generate := fun _ => Ok None |}
                prompt callback context w this acc in
   run.1.1.1 = Throw (Error (lit "Failed to get response reader")) /\
   run.2 = report (Error (lit "Failed to get response reader")) /\
   calls run.1.1.2 = sent /\ abortController run.1.2 = None) /\
  (forall e : Exn,
     let run := chatStream {| post_generate := post; fetch_generate := fun _ => Throw e |}
                  prompt callback context w this acc in
     run.1.1.1 = match e with AbortError => Ok tt | _ => Throw e end /\
     run.2 = match e with AbortError => acc | _ => report e end /\
     calls run.1.1.2 = sent /\ abortController run.1.2 = None).
Proof.
  split.
  - unfold chatStream, new_AbortController. cbn. by destruct (onError callback).
  - intros e. unfold chatStream, new_AbortController.
    destruct e; cbn; by destruct (onError callback).
Qed.

End StreamOutcome.

Lemma chatStream_delivers_then_completes_witness :
  (OllamaService.Stops ∉ Sample.two_reads) /\
  (OllamaService.chatStream
     (OllamaService.streaming_upstream (fun _ => Ok JNull) Sample.two_reads
        OllamaService.EndOfStream)
     (Some (JString (lit "hello"))) Sample.recorder None
     Sample.world Sample.service []).2 =
  [ Sample.Chunk (Some (JString (lit "Struct")));
    Sample.Chunk (Some (JString (lit "ure: ")));
    Sample.Completed ].
Proof.
  split; [exact two_reads_not_stopped|].
  pose proof (chatStream_delivers_then_completes Sample.recorder (fun _ => Ok JNull)
                (Some (JString (lit "hello"))) None Sample.world Sample.service []
                Sample.two_reads two_reads_not_stopped) as (_ & Hrun & _).
  rewrite Hrun. vm_compute. reflexivity.
Defined.

Lemma chatStream_reports_failure_witness :
  (OllamaService.Stops ∉ Sample.two_reads) /\
  (OllamaService.chatStream
     (OllamaService.streaming_upstream (fun _ => Ok JNull) Sample.two_reads
        (OllamaService.Breaks (Error (lit "socket hang up"))))
     (Some (JString (lit "hello"))) Sample.recorder None
     Sample.world Sample.service []).2 =
  [ Sample.Chunk (Some (JString (lit "Struct")));
    Sample.Chunk (Some (JString (lit "ure: ")));
    Sample.Failed (Error (lit "socket hang up")) ].
Proof.
  split; [exact two_reads_not_stopped|].
  pose proof (chatStream_reports_failure Sample.recorder (fun _ => Ok JNull)
                (Some (JString (lit "hello"))) None Sample.world Sample.service []
                Sample.two_reads (Error (lit "socket hang up"))
                two_reads_not_stopped) as (_ & Hrun & _).
  rewrite Hrun. vm_compute. reflexivity.
Defined.

(** ** The service: requests and controllers *)

Section Requests.
Import OllamaService.
Context `{engine : Engine}.

(** X4: one request per call.  [chat] and [chatStream] each send exactly
    one request, however the reply goes (completed, broken, cancelled, or no
    reply at all): to the base URL followed by [/api/generate], with the
    model of the service, the prompt and the context they were given,
    temperature 0.7 and top_p 0.9.  The two requests differ in their
    [stream] flag only. *)
Theorem one_request_per_call {S} (up : Upstream) (prompt : jsstring)
    (callback : StreamCallback S) (context : option (list Z))
    (w : World) (this : Service) (acc : S) :
  let request streamed :=
    {| url := baseUrl this ++ lit "/api/generate"; model := serviceModel this;
       prompt := Some (JString prompt); context := context; stream := streamed;
       options := {| temperature := lit "0.7"; top_p := lit "0.9" |} |} in
  calls (chat up prompt context w this).2 = calls w ++ [request false] /\
  calls (chatStream up (Some (JString prompt)) callback context w this acc).1.1.2 =
    calls w ++ [request true].
Proof.
  split.
  - unfold chat. by destruct (post_generate up _).
  - by rewrite chatStream_calls.
Qed.

(** X5: [stopStream] aborts the controller of the stream in flight and no
    other: the signal of any other controller stays as it was, no request is
    sent, no controller is allocated, and the URL and the model of the
    service are kept. *)
Theorem stopStream_aborts_only_current (w : World) (this : Service) (c : nat) :
  (c < length (controllers w))%nat ->
  aborted c (stopStream w this).1 =
    aborted c w || bool_decide (abortController this = Some c) /\
  calls (stopStream w this).1 = calls w /\
  length (controllers (stopStream w this).1) = length (controllers w) /\
  baseUrl (stopStream w this).2 = baseUrl this /\
  serviceModel (stopStream w this).2 = serviceModel this.
Proof.
  intros Hc. unfold stopStream.
  destruct (abortController this) as [current|] eqn:Hcurrent; cbn.
  - split_and!; try done; [|by rewrite length_insert].
    unfold aborted. cbn. destruct (decide (current = c)) as [->|Hne].
    + rewrite list_lookup_insert_eq by done. rewrite bool_decide_eq_true_2 by done.
      cbn. by rewrite orb_true_r.
    + rewrite list_lookup_insert_ne by done.
      rewrite bool_decide_eq_false_2 by congruence. by rewrite orb_false_r.
  - by rewrite orb_false_r.
Qed.

(** X6: the guidance of a content type is never missing.  Whatever the
    content type, [getContentTypePrompt] yields neither [undefined] nor the
    empty string; each of the six types of the table gets its own guidance,
    and a string that is returned is a guidance of the table or the fallback
    text. *)
Theorem getContentTypePrompt_guidance (contentType : jsstring) :
  getContentTypePrompt contentType <> PUndefined /\
  getContentTypePrompt contentType <> PString [] /\
  (forall text, In (contentType, text) contentTypePrompts ->
                getContentTypePrompt contentType = PString text) /\
  (forall text, getContentTypePrompt contentType = PString text ->
                In (contentType, text) contentTypePrompts \/ text = fallbackPrompt).
Proof.
  assert (Hfallback : fallbackPrompt <> []) by (vm_compute; discriminate).
  split_and!.
  - unfold getContentTypePrompt, lookup_property.
    destruct (own_string contentType contentTypePrompts) as [[|c v]|];
      cbn [or_else]; try done.
    destruct (existsb (streq contentType) Object_prototype_members);
      cbn [or_else]; done.
  - unfold getContentTypePrompt, lookup_property.
    destruct (own_string contentType contentTypePrompts) as [[|c v]|];
      cbn [or_else]; try congruence.
    destruct (existsb (streq contentType) Object_prototype_members);
      cbn [or_else]; congruence.
  - intros text Hin. unfold contentTypePrompts in Hin. cbn [In] in Hin.
    repeat destruct Hin as [Hin|Hin]; try done;
      injection Hin as <- <-; vm_compute; reflexivity.
  - intros text. unfold getContentTypePrompt, lookup_property.
    destruct (own_string contentType contentTypePrompts) as [v|] eqn:Hown.
    + apply own_string_In in Hown. destruct v as [|c v]; cbn [or_else].
      * intros [= <-]. by right.
      * intros [= <-]. by left.
    + destruct (existsb (streq contentType) Object_prototype_members);
        cbn [or_else]; [done|].
      intros [= <-]. by right.
Qed.

(** X7: the outcome of [getH5PContentSuggestions].  It posts one request,
    not streamed, whose prompt is the template filled with the content
    type, the description and the guidance.  A POST that fails, for whatever
    reason, gives the one error [Failed to get response from Ollama]; a
    reply whose data is [null] gives a [TypeError], thrown by
    [response.response] outside the [try] of [chat]; otherwise the result is
    the [response] property of the data, [undefined] when there is none. *)
Theorem getH5PContentSuggestions_outcome (up : Upstream)
    (contentType description : jsstring) (w : World) (this : Service) :
  let request :=
    generateRequest this
      (Some (JString (suggestionsPrompt contentType description
                        (getContentTypePrompt contentType)))) None false in
  let run := getH5PContentSuggestions up contentType description w this in
  run.1 = match post_generate up request with
          | Throw _ => Throw (Error (lit "Failed to get response from Ollama"))
          | Ok JNull => Throw TypeError
          | Ok (JObject members) => Ok (own_property (lit "response") members)
          | Ok _ => Ok None
          end /\
  calls run.2 = calls w ++ [request] /\ controllers run.2 = controllers w.
Proof.
  unfold getH5PContentSuggestions, chat.
  destruct (post_generate up _) as [[]|]; cbn; done.
Qed.

End Requests.

Lemma stopStream_aborts_only_current_witness :
  (0 < length (OllamaService.controllers Sample.two_controllers))%nat /\
  OllamaService.aborted 0
    (OllamaService.stopStream Sample.two_controllers Sample.service_streaming).1 = false /\
  OllamaService.aborted 1
    (OllamaService.stopStream Sample.two_controllers Sample.service_streaming).1 = true.
Proof.
  assert (H0 : (0 < length (OllamaService.controllers Sample.two_controllers))%nat)
    by (cbn; lia).
  split; [exact H0|]. split.
  - rewrite (proj1 (stopStream_aborts_only_current Sample.two_controllers
                      Sample.service_streaming 0 H0)).
    reflexivity.
  - reflexivity.
Defined.

(** ** The routes *)

Section RouteReplies.
Import OllamaService.
Context `{engine : Engine}.

(** An object with one string property, written by [JSON.stringify], is
    read back by [JSON.parse]. *)
Lemma JSON_parse_json_field (key s : jsstring) :
  valid_string key = true -> valid_string s = true ->
  JSON_parse ([123] ++ QuoteJSONString key ++ [58] ++ QuoteJSONString s ++ [125]) =
  Ok (JObject [(key, JString s)]).
Proof.
  intros Hkey Hs. unfold JSON_parse.
  assert (Hfuel : forall text : jsstring, exists fuel,
    (2 * length (123%Z :: text) + 2 = S (S (S fuel)))%nat).
  { intros text. cbn [length]. exists (2 * length text + 1)%nat. lia. }
  destruct (Hfuel (QuoteJSONString key ++ [58] ++ QuoteJSONString s ++ [125]))
    as [fuel Hlen].
  cbn [app] in Hlen |- *. rewrite Hlen. clear Hfuel Hlen.
  unfold QuoteJSONString.
  cbn [app parse_value]. unfold value_step at 1.
  cbn [skip_ws]. change (is_json_ws 123) with false. cbv iota.
  change (123 =? 34) with false. change (123 =? 91) with false.
  change (123 =? 123) with true. cbv iota.
  cbn [skip_ws]. change (is_json_ws 34) with false. cbv iota.
  change (34 =? 125) with false. cbv iota.
  cbn [parse_members]. unfold members_step at 1.
  cbn [skip_ws]. change (is_json_ws 34) with false. cbv iota.
  change (34 =? 34) with true. cbv iota.
  rewrite <- !app_assoc. cbn [app].
  rewrite (parse_chars_quote key Hkey).
  cbn [app skip_ws]. change (is_json_ws 58) with false. cbv iota.
  change (58 =? 58) with true. cbv iota.
  cbn [parse_value]. unfold value_step at 1.
  cbn [skip_ws]. change (is_json_ws 34) with false. cbv iota.
  change (34 =? 34) with true. cbv iota.
  rewrite (parse_chars_quote s Hs).
  cbn [skip_ws]. change (is_json_ws 125) with false. cbv iota.
  change (125 =? 44) with false. change (125 =? 125) with true. cbv iota.
  reflexivity.
Qed.

(** X8: both routes refuse a body that lacks the content type or the
    description (a missing field, or the empty string): the reply is the
    JSON error [Content type and description are required] with status 400,
    no request goes upstream, and the service is left as it was. *)
Theorem routes_reject_incomplete_body (up : Upstream) (body : Routes.RequestBody)
    (w : World) (this : Service) :
  Routes.missing (Routes.contentType body) || Routes.missing (Routes.description body) = true ->
  Routes.suggestions up body w this =
    (Routes.Json 400 (dq "{'error':'Content type and description are required'}"), w) /\
  Routes.suggestionsStream up body w this =
    (Routes.Json 400 (dq "{'error':'Content type and description are required'}"), w, this).
Proof.
  intros Hmissing. unfold Routes.suggestions, Routes.suggestionsStream.
  rewrite Hmissing. split; reflexivity.
Qed.

(** X9: the reply of the plain route can be read back.  When the upstream
    answers with data whose [response] is a string, the route replies with
    status 200 and a JSON text that parses to an object whose one property,
    [suggestions], is that very string. *)
Theorem suggestions_reply_parses_back (up : Upstream)
    (contentType description : jsstring) (w : World) (this : Service)
    (data : JValue) (s : jsstring) :
  contentType <> [] -> description <> [] ->
  post_generate up
    (generateRequest this
       (Some (JString (suggestionsPrompt contentType description
                         (getContentTypePrompt contentType)))) None false) = Ok data ->
  get_response data = Ok (Some (JString s)) -> valid_string s = true ->
  exists text,
    (Routes.suggestions up
       {| Routes.contentType := Some contentType;
          Routes.description := Some description |} w this).1 = Routes.Json 200 text /\
    JSON_parse text = Ok (JObject [(lit "suggestions", JString s)]).
Proof.
  intros Hct Hdesc Hpost Hresp Hs.
  unfold Routes.suggestions. cbn [Routes.contentType Routes.description].
  destruct contentType as [|c ct]; [done|]. destruct description as [|d desc]; [done|].
  cbn [Routes.missing orb default from_option]. unfold id.
  unfold getH5PContentSuggestions, chat. cbv zeta. rewrite Hpost. cbn [bind]. rewrite Hresp.
  eexists. split; [reflexivity|].
  unfold Routes.json_value. cbn [stringify].
  by apply JSON_parse_json_field.
Qed.

(** X10: the plain route hides why the upstream failed.  Whatever makes the
    POST fail, and also when the reply data is [null], the client gets
    status 500 with the fixed JSON error [Failed to get content
    suggestions]; the request was sent once. *)
Theorem suggestions_hides_failure (up : Upstream)
    (contentType description : jsstring) (w : World) (this : Service) :
  contentType <> [] -> description <> [] ->
  let request :=
    generateRequest this
      (Some (JString (suggestionsPrompt contentType description
                        (getContentTypePrompt contentType)))) None false in
  (exists e, post_generate up request = Throw e) \/ post_generate up request = Ok JNull ->
  Routes.suggestions up
    {| Routes.contentType := Some contentType;
       Routes.description := Some description |} w this =
  (Routes.Json 500 (dq "{'error':'Failed to get content suggestions'}"), send request w).
Proof.
  intros Hct Hdesc request Hfail.
  unfold Routes.suggestions. cbn [Routes.contentType Routes.description].
  destruct contentType as [|c ct]; [done|]. destruct description as [|d desc]; [done|].
  cbn [Routes.missing orb default from_option]. unfold id.
  unfold getH5PContentSuggestions, chat. cbv zeta. fold request.
  destruct Hfail as [[e ->]| ->]; reflexivity.
Qed.

(** X11: a reply of the upstream without [response].  When the data of
    the reply is a value other than [null] that has no [response] property,
    the plain route answers with status 200 and the empty object [{}]:
    [JSON.stringify] leaves out the [suggestions] property, whose value is
    [undefined]. *)
Theorem suggestions_without_response (up : Upstream)
    (contentType description : jsstring) (w : World) (this : Service) (data : JValue) :
  contentType <> [] -> description <> [] ->
  post_generate up
    (generateRequest this
       (Some (JString (suggestionsPrompt contentType description
                         (getContentTypePrompt contentType)))) None false) = Ok data ->
  get_response data = Ok None ->
  (Routes.suggestions up
     {| Routes.contentType := Some contentType;
        Routes.description := Some description |} w this).1 = Routes.Json 200 (lit "{}").
Proof.
  intros Hct Hdesc Hpost Hresp.
  unfold Routes.suggestions. cbn [Routes.contentType Routes.description].
  destruct contentType as [|c ct]; [done|]. destruct description as [|d desc]; [done|].
  cbn [Routes.missing orb default from_option]. unfold id.
  unfold getH5PContentSuggestions, chat. cbv zeta. rewrite Hpost. cbn [bind].
  by rewrite Hresp.
Qed.

(** X12: when the preliminary call of the streaming route fails (the POST
    fails, or its data is [null]), the route replies with status 500 and the
    fixed JSON error [Failed to stream content suggestions]; the streamed
    request is never sent and the service is left as it was. *)
Theorem suggestionsStream_preliminary_failure (up : Upstream)
    (contentType description : jsstring) (w : World) (this : Service) :
  contentType <> [] -> description <> [] ->
  let request :=
    generateRequest this
      (Some (JString (suggestionsPrompt contentType description
                        (getContentTypePrompt contentType)))) None false in
  (exists e, post_generate up request = Throw e) \/ post_generate up request = Ok JNull ->
  Routes.suggestionsStream up
    {| Routes.contentType := Some contentType;
       Routes.description := Some description |} w this =
  (Routes.Json 500 (dq "{'error':'Failed to stream content suggestions'}"),
   send request w, this).
Proof.
  intros Hct Hdesc request Hfail.
  unfold Routes.suggestionsStream. cbn [Routes.contentType Routes.description].
  destruct contentType as [|c ct]; [done|]. destruct description as [|d desc]; [done|].
  cbn [Routes.missing orb default from_option]. unfold id.
  unfold getH5PContentSuggestions, chat. cbv zeta. fold request.
  destruct Hfail as [[e ->]| ->]; reflexivity.
Qed.

(** X13: the streamed call fails before anything is pushed.  When the
    preliminary call has given data other than [null] and then [fetch]
    resolves to a response without a body, or rejects, the streaming route
    answers with status 500 and the fixed JSON error [Failed to stream
    content suggestions]; but a rejection by abort is swallowed by
    [chatStream], and the route then ends an empty stream normally. *)
Theorem suggestionsStream_stream_call_fails (post : GenerateRequest -> Throws JValue)
    (body : Routes.RequestBody) (w : World) (this : Service) :
  Routes.missing (Routes.contentType body) || Routes.missing (Routes.description body) = false ->
  (forall request, exists data, post request = Ok data /\ data <> JNull) ->
  let failure := Routes.Json 500 (dq "{'error':'Failed to stream content suggestions'}") in
  (Routes.suggestionsStream
     {| post_generate := post; fetch_generate := fun _ => Ok None |} body w this).1.1 =
    failure /\
  (forall e : Exn,
     (Routes.suggestionsStream
        {| post_generate := post; fetch_generate := fun _ => Throw e |} body w this).1.1 =
     match e with
     | AbortError => Routes.Piped [] true
     | _ => failure
     end).
Proof.
  intros Hpresent Hpost failure.
  assert (Hprompt : forall fetch,
    exists prompt w',
      getH5PContentSuggestions {| post_generate := post; fetch_generate := fetch |}
        (default [] (Routes.contentType body)) (default [] (Routes.description body))
        w this = (Ok prompt, w')).
  { intros fetch. unfold getH5PContentSuggestions, chat. cbv zeta.
    cbn [post_generate].
    match goal with
    | |- context [post ?r] => destruct (Hpost r) as (data & -> & Hdata)
    end.
    cbn [bind]. destruct data; try (eexists _, _; reflexivity). by destruct Hdata. }
  split.
  - unfold Routes.suggestionsStream. rewrite Hpresent.
    destruct (Hprompt (fun _ => Ok None))
      as (prompt & w' & ->).
    reflexivity.
  - intros e. unfold Routes.suggestionsStream. rewrite Hpresent.
    destruct (Hprompt (fun _ => Throw e))
      as (prompt & w' & ->).
    by destruct e.
Qed.

(** What the streaming route pushes when the reply of the upstream ends
    normally. *)
Lemma suggestionsStream_pushes (post : GenerateRequest -> Throws JValue)
    (events : list Event) (body : Routes.RequestBody) (w : World) (this : Service) :
  Stops ∉ events ->
  Routes.missing (Routes.contentType body) || Routes.missing (Routes.description body) = false ->
  (forall request, exists data, post request = Ok data /\ data <> JNull) ->
  (Routes.suggestionsStream (streaming_upstream post events EndOfStream) body w this).1.1 =
  Routes.Piped (omap Routes.write_of (lines_of (arrivals events))) true.
Proof.
  intros Hstops Hpresent Hpost. unfold Routes.suggestionsStream. rewrite Hpresent.
  unfold getH5PContentSuggestions, chat.
  cbn [streaming_upstream post_generate].
  match goal with
  | |- context [post ?request] =>
      destruct (Hpost request) as (data & -> & Hdata)
  end.
  cbn [bind].
  assert (Hprompt : exists prompt, get_response data = Ok prompt).
  { destruct data; try (eexists; reflexivity). by destruct Hdata. }
  destruct Hprompt as [prompt ->].
  match goal with
  | |- context [chatStream ?up prompt Routes.pushChunk None ?w' this []] =>
      pose proof (chatStream_completes Routes.pushChunk post prompt None w' this []
                    events Hstops eq_refl) as Hrun
  end.
  cbv zeta in Hrun. destruct Hrun as [Hres Hacc].
  rewrite service_handleChunks_lines, pushChunk_lines in Hacc. cbn [app] in Hacc.
  match goal with
  | |- context [chatStream ?up ?p ?cb ?c ?w' ?t ?a] =>
      destruct (chatStream up p cb c w' t a) as [[[r w2] this2] pushed]
  end.
  cbn [fst snd] in Hres, Hacc. subst r pushed. reflexivity.
Qed.

(** X14: what the streaming route pushes, for any reply of the upstream
    that ends normally.  When the preliminary call gives data other than
    [null], the chunks pushed are, in order, one per line of the reads that
    parses to a value whose [response] can be read, every read being decoded
    and split on its own; blank lines and lines that do not parse push
    nothing; then the stream is ended. *)
Theorem suggestionsStream_relays_lines (post : GenerateRequest -> Throws JValue)
    (events : list Event) (body : Routes.RequestBody) (w : World) (this : Service) :
  Stops ∉ events ->
  Routes.missing (Routes.contentType body) || Routes.missing (Routes.description body) = false ->
  (forall request, exists data, post request = Ok data /\ data <> JNull) ->
  (Routes.suggestionsStream (streaming_upstream post events EndOfStream) body w this).1.1 =
  Routes.Piped (omap Routes.write_of (lines_of (arrivals events))) true.
Proof. apply suggestionsStream_pushes. Qed.

(** The relay's chunk for a line that carries a string [response]. *)
Lemma write_of_delta (line delta : jsstring) :
  delta_of line = Some delta -> Routes.write_of line = Some (serialize delta).
Proof.
  intros Hline.
  apply delta_of_parsed in Hline as (Htrim & parsed & Hparse & Hresp).
  unfold Routes.write_of. rewrite Htrim, Hparse. cbn [bind]. rewrite Hresp.
  reflexivity.
Qed.

(** X15: the relay keeps the [response] of a line and nothing else.  For
    an upstream line whose JSON carries a string [response], whatever else
    the line holds, the relay writes one chunk: the object with the one
    property [response], that string as its value, then a line feed.  The
    chunk holds no other line feed, whatever the string (a line feed in it
    is written as an escape), and the component, parsing the line of the
    chunk, finds the same string again. *)
Theorem relay_keeps_only_response (line delta : jsstring) :
  delta_of line = Some delta -> valid_string delta = true ->
  Routes.write_of line = Some (fragment_line delta ++ [10]) /\
  (10 ∉ fragment_line delta) /\
  delta_of (fragment_line delta) = Some delta.
Proof.
  intros Hline Hd. split_and!.
  - by apply write_of_delta.
  - by apply fragment_line_text.
  - by apply delta_of_fragment_line.
Qed.

End RouteReplies.

Lemma routes_reject_incomplete_body_witness :
  Routes.missing (Routes.contentType Sample.request_without_description)
  || Routes.missing (Routes.description Sample.request_without_description) = true /\
  (Routes.suggestionsStream (engine := Sample.engine) Sample.upstream
     Sample.request_without_description Sample.world Sample.service).1.1 =
  Routes.Json 400 (dq "{'error':'Content type and description are required'}").
Proof.
  assert (Hmissing :
    Routes.missing (Routes.contentType Sample.request_without_description)
    || Routes.missing (Routes.description Sample.request_without_description) = true)
    by reflexivity.
  split; [exact Hmissing|].
  by rewrite (proj2 (routes_reject_incomplete_body (engine := Sample.engine)
                       Sample.upstream Sample.request_without_description
                       Sample.world Sample.service Hmissing)).
Defined.

Lemma suggestions_reply_parses_back_witness :
  lit "H5P.Course" <> [] /\ lit "intro to photosynthesis" <> [] /\
  valid_string (lit "1. Content Structure ...") = true /\
  exists text,
    (Routes.suggestions (engine := Sample.engine) Sample.upstream Sample.request
       Sample.world Sample.service).1 = Routes.Json 200 text /\
    JSON_parse text =
      Ok (JObject [(lit "suggestions", JString (lit "1. Content Structure ..."))]).
Proof.
  assert (Hct : lit "H5P.Course" <> []) by (vm_compute; discriminate).
  assert (Hdesc : lit "intro to photosynthesis" <> []) by (vm_compute; discriminate).
  assert (Hs : valid_string (lit "1. Content Structure ...") = true) by reflexivity.
  split; [exact Hct|]. split; [exact Hdesc|]. split; [exact Hs|].
  exact (suggestions_reply_parses_back (engine := Sample.engine) Sample.upstream
           (lit "H5P.Course") (lit "intro to photosynthesis") Sample.world Sample.service
           (JObject [(lit "response", JString (lit "1. Content Structure ..."))])
           (lit "1. Content Structure ...") Hct Hdesc eq_refl eq_refl Hs).
Defined.

Lemma suggestions_hides_failure_witness :
  lit "H5P.Course" <> [] /\ lit "intro to photosynthesis" <> [] /\
  (Routes.suggestions (engine := Sample.engine) Sample.unreachable Sample.request
     Sample.world Sample.service).1 =
  Routes.Json 500 (dq "{'error':'Failed to get content suggestions'}").
Proof.
  assert (Hct : lit "H5P.Course" <> []) by (vm_compute; discriminate).
  assert (Hdesc : lit "intro to photosynthesis" <> []) by (vm_compute; discriminate).
  split; [exact Hct|]. split; [exact Hdesc|].
  pose proof (suggestions_hides_failure (engine := Sample.engine) Sample.unreachable
                (lit "H5P.Course") (lit "intro to photosynthesis")
                Sample.world Sample.service Hct Hdesc) as H.
  cbv zeta in H. unfold Sample.request. rewrite H; [reflexivity|].
  left. eexists. reflexivity.
Defined.

Lemma suggestions_without_response_witness :
  lit "H5P.Course" <> [] /\ lit "intro to photosynthesis" <> [] /\
  (Routes.suggestions (engine := Sample.engine) Sample.upstream_error Sample.request
     Sample.world Sample.service).1 = Routes.Json 200 (lit "{}").
Proof.
  assert (Hct : lit "H5P.Course" <> []) by (vm_compute; discriminate).
  assert (Hdesc : lit "intro to photosynthesis" <> []) by (vm_compute; discriminate).
  split; [exact Hct|]. split; [exact Hdesc|].
  exact (suggestions_without_response (engine := Sample.engine) Sample.upstream_error
           (lit "H5P.Course") (lit "intro to photosynthesis") Sample.world Sample.service
           (JObject [(lit "error", JString (lit "model not found"))])
           Hct Hdesc eq_refl eq_refl).
Defined.

Lemma suggestionsStream_preliminary_failure_witness :
  lit "H5P.Course" <> [] /\ lit "intro to photosynthesis" <> [] /\
  (Routes.suggestionsStream (engine := Sample.engine) Sample.unreachable Sample.request
     Sample.world Sample.service).1.1 =
  Routes.Json 500 (dq "{'error':'Failed to stream content suggestions'}").
Proof.
  assert (Hct : lit "H5P.Course" <> []) by (vm_compute; discriminate).
  assert (Hdesc : lit "intro to photosynthesis" <> []) by (vm_compute; discriminate).
  split; [exact Hct|]. split; [exact Hdesc|].
  pose proof (suggestionsStream_preliminary_failure (engine := Sample.engine)
                Sample.unreachable (lit "H5P.Course") (lit "intro to photosynthesis")
                Sample.world Sample.service Hct Hdesc) as H.
  cbv zeta in H. unfold Sample.request. rewrite H; [reflexivity|].
  left. eexists. reflexivity.
Defined.

Lemma suggestionsStream_stream_call_fails_witness :
  Routes.missing (Routes.contentType Sample.request)
  || Routes.missing (Routes.description Sample.request) = false /\
  (Routes.suggestionsStream (engine := Sample.engine)
     {| OllamaService.post_generate := fun _ => Ok (JString (lit "1. Content Structure ..."));
        OllamaService.fetch_generate := fun _ => Throw AbortError |}
     Sample.request Sample.world Sample.service).1.1 = Routes.Piped [] true.
Proof.
  assert (Hpresent :
    Routes.missing (Routes.contentType Sample.request)
    || Routes.missing (Routes.description Sample.request) = false) by reflexivity.
  split; [exact Hpresent|].
  assert (Hpost : forall request : OllamaService.GenerateRequest,
    exists data, (fun _ : OllamaService.GenerateRequest =>
                    Ok (JString (lit "1. Content Structure ..."))) request = Ok data
                 /\ data <> JNull).
  { intros request. eexists. split; [reflexivity|discriminate]. }
  exact (proj2 (suggestionsStream_stream_call_fails (engine := Sample.engine) _
                  Sample.request Sample.world Sample.service Hpresent Hpost) AbortError).
Defined.

Lemma suggestionsStream_relays_lines_witness :
  (OllamaService.Stops ∉ Sample.two_reads) /\
  Routes.missing (Routes.contentType Sample.request)
  || Routes.missing (Routes.description Sample.request) = false /\
  (Routes.suggestionsStream (engine := Sample.engine)
     (OllamaService.streaming_upstream (fun _ => Ok (JString (lit "1. Content Structure ...")))
        Sample.two_reads OllamaService.EndOfStream)
     Sample.request Sample.world Sample.service).1.1 =
  Routes.Piped [dq "{'response':'Struct'}" ++ [10]; dq "{'response':'ure: '}" ++ [10]] true.
Proof.
  assert (Hpresent :
    Routes.missing (Routes.contentType Sample.request)
    || Routes.missing (Routes.description Sample.request) = false) by reflexivity.
  split; [exact two_reads_not_stopped|]. split; [exact Hpresent|].
  assert (Hpost : forall request : OllamaService.GenerateRequest,
    exists data, (fun _ : OllamaService.GenerateRequest =>
                    Ok (JString (lit "1. Content Structure ..."))) request = Ok data
                 /\ data <> JNull).
  { intros request. eexists. split; [reflexivity|discriminate]. }
  rewrite (suggestionsStream_relays_lines (engine := Sample.engine) _ Sample.two_reads
             Sample.request Sample.world Sample.service two_reads_not_stopped
             Hpresent Hpost).
  vm_compute. reflexivity.
Defined.

Lemma relay_keeps_only_response_witness :
  delta_of (dq "{'model':'llama2','response':'Struct','done':false}") = Some (lit "Struct") /\
  valid_string (lit "Struct") = true /\
  Routes.write_of (engine := Sample.engine)
    (dq "{'model':'llama2','response':'Struct','done':false}") =
  Some (dq "{'response':'Struct'}" ++ [10]).
Proof.
  assert (Hline : delta_of (dq "{'model':'llama2','response':'Struct','done':false}") =
                  Some (lit "Struct")) by (vm_compute; reflexivity).
  assert (Hd : valid_string (lit "Struct") = true) by reflexivity.
  split; [exact Hline|]. split; [exact Hd|].
  rewrite (proj1 (relay_keeps_only_response (engine := Sample.engine) _ _ Hline Hd)).
  vm_compute. reflexivity.
Defined.

(** ** The component: any reply *)

Section AnyReply.
Import H5PChat.
Context `{engine : Engine}.

Lemma trimStart_spaces (s : jsstring) :
  forallb is_js_space s = true -> trimStart s = [].
Proof.
  induction s as [|c s IH]; [done|]. cbn [forallb trimStart].
  intros [Hc Hs]%andb_true_iff. rewrite Hc. by apply IH.
Qed.

Lemma trim_spaces (s : jsstring) :
  forallb is_js_space s = true -> trim s = [].
Proof. intros Hs. unfold trim. by rewrite (trimStart_spaces s Hs). Qed.

(** X16: a blank input is not submitted.  When the input is empty or holds
    only white space, [handleSubmit] does nothing at all: no message is
    added, the input is not cleared, no request is sent. *)
Theorem submit_blank_input_is_noop (contentType : jsstring) (env : Env) (st : State) :
  forallb is_js_space (input st) = true ->
  handleSubmit contentType env st = (Ok tt, st).
Proof.
  intros Hblank. unfold handleSubmit. by rewrite trim_spaces.
Qed.

(** One line, whatever it is, leaves the state of a reply being read as it
    is but for the text of the open assistant message, which it may extend,
    and for the component going down. *)
Lemma handleLine_reading (line : jsstring) (env : Env) (st : State)
    (text : jsstring) (u : bool) :
  exists suffix u',
    handleLine line (set_unmounted u (reading env st text)) =
    set_unmounted u' (reading env st (text ++ suffix)).
Proof.
  assert (Hsame : exists suffix u',
             set_unmounted u (reading env st text) =
             set_unmounted u' (reading env st (text ++ suffix))).
  { exists [], u. by rewrite app_nil_r. }
  unfold handleLine. destruct (truthy (trim line)); [|exact Hsame].
  destruct (JSON_parse line) as [parsed|e]; [|exact Hsame].
  unfold setMessages. cbn [unmounted set_unmounted].
  destruct u; [exact Hsame|]. clear Hsame.
  unfold set_unmounted, reading, applyFragment.
  cbn [unmounted store messages input isLoading].
  rewrite length_app. cbn [length].
  rewrite lookup_app_r by lia.
  replace (length (messages st) + 2 - 1 - length (messages st))%nat with 1%nat by lia.
  cbn [lookup list_lookup]. rewrite lookup_app_r by lia.
  replace (S (length (store st)) - length (store st))%nat with 1%nat by lia.
  cbn [lookup list_lookup role].
  destruct (get_response parsed) as [delta|e]; cbn [bind].
  - destruct (ToString_value delta) as [t|e]; cbn [bind].
    + exists t, false. rewrite insert_app_r_alt by lia.
      replace (S (length (store st)) - length (store st))%nat with 1%nat by lia.
      reflexivity.
    + exists [], true. by rewrite app_nil_r.
  - exists [], true. by rewrite app_nil_r.
Qed.

Lemma handleLines_reading (lines : list jsstring) (env : Env) (st : State)
    (text : jsstring) (u : bool) :
  exists suffix u',
    handleLines lines (set_unmounted u (reading env st text)) =
    set_unmounted u' (reading env st (text ++ suffix)).
Proof.
  revert text u. induction lines as [|line lines IH]; intros text u.
  - exists [], u. by rewrite app_nil_r.
  - unfold handleLines. cbn [fold_left].
    destruct (handleLine_reading line env st text u) as (s1 & u1 & ->).
    destruct (IH (text ++ s1) u1) as (s2 & u2 & Hrest).
    exists (s1 ++ s2), u2. unfold handleLines in Hrest. by rewrite Hrest, app_assoc.
Qed.

Lemma handleChunks_reading (values : list bytes) (env : Env) (st : State)
    (text : jsstring) (u : bool) :
  exists suffix u',
    fold_left (fun s value => handleChunk value s) values
      (set_unmounted u (reading env st text)) =
    set_unmounted u' (reading env st (text ++ suffix)).
Proof.
  rewrite handleChunks_lines. apply handleLines_reading.
Qed.

(** X17: a read only appends.  Whatever bytes a read delivers (whole
    lines or not, valid or not), handling them leaves the log with the same
    messages in the same order, every earlier message unchanged, the input
    and the loading flag as they were; the text of the open assistant
    message keeps what it had and may get more at its end. *)
Theorem handleChunk_only_appends (value : bytes) (env : Env) (st : State)
    (text : jsstring) :
  exists suffix crashed,
    handleChunk value (reading env st text) =
    set_unmounted crashed (reading env st (text ++ suffix)).
Proof.
  destruct (handleChunks_reading [value] env st text false) as (suffix & u & H).
  by exists suffix, u.
Qed.

(** A line that parses to a value without a [response]. *)
Lemma handleLine_without_response (line : jsstring) (parsed : JValue)
    (env : Env) (st : State) (text : jsstring) :
  JSON_parse line = Ok parsed -> get_response parsed = Ok None ->
  handleLine line (reading env st text) = reading env st (text ++ lit "undefined").
Proof.
  intros Hparse Hresp. unfold handleLine.
  rewrite (JSON_parse_not_blank line parsed Hparse), Hparse.
  unfold setMessages, reading, applyFragment. cbn [unmounted store messages input isLoading].
  rewrite length_app. cbn [length].
  rewrite lookup_app_r by lia.
  replace (length (messages st) + 2 - 1 - length (messages st))%nat with 1%nat by lia.
  cbn [lookup list_lookup]. rewrite lookup_app_r by lia.
  replace (S (length (store st)) - length (store st))%nat with 1%nat by lia.
  cbn [lookup list_lookup role]. rewrite Hresp. cbn [bind ToString_value].
  rewrite insert_app_r_alt by lia.
  replace (S (length (store st)) - length (store st))%nat with 1%nat by lia.
  reflexivity.
Qed.

(** A read whose text is one line without line feed. *)
Lemma handleChunk_one_line (value : bytes) (line : jsstring) (st : State) :
  TextDecoder_decode value = line -> split 10 line = [line] ->
  handleChunk value st = handleLine line st.
Proof. intros Hdecode Hsplit. unfold handleChunk. by rewrite Hdecode, Hsplit. Qed.

(** X18: a line without [response] shows as [undefined].  For an upstream
    line that parses to a value other than [null] with no [response]
    property, the relay pushes the line [{}]; the component, reading that
    line or the upstream line itself, appends the text [undefined] to the
    open assistant message. *)
Theorem line_without_response_shows_undefined (line : jsstring) (parsed : JValue)
    (env : Env) (st : State) (text : jsstring) :
  JSON_parse line = Ok parsed -> get_response parsed = Ok None ->
  Routes.write_of line = Some (lit "{}" ++ [10]) /\
  handleChunk (utf8_encode (lit "{}" ++ [10])) (reading env st text) =
    reading env st (text ++ lit "undefined") /\
  handleLine line (reading env st text) = reading env st (text ++ lit "undefined").
Proof.
  intros Hparse Hresp. split_and!.
  - unfold Routes.write_of.
    rewrite (JSON_parse_not_blank line parsed Hparse), Hparse. cbn [bind].
    by rewrite Hresp.
  - unfold handleChunk.
    change (split 10 (TextDecoder_decode (utf8_encode (lit "{}" ++ [10]))))
      with [lit "{}"; []].
    cbn [fold_left]. rewrite (handleLine_without_response _ (JObject [])) by done.
    reflexivity.
  - by apply (handleLine_without_response line parsed).
Qed.

Lemma setIsLoading_idle (b : bool) (st : State) :
  unmounted (setIsLoading b st) = false -> isLoading (setIsLoading b st) = b.
Proof. unfold setIsLoading. by destruct (unmounted st) eqn:Hu; [rewrite Hu|]. Qed.

Lemma input_setIsLoading (b : bool) (st : State) :
  input (setIsLoading b st) = input st.
Proof. unfold setIsLoading. by destruct (unmounted st). Qed.

(** What the [catch] block does to a reply being read. *)
Lemma rendered_handleError_reading (env : Env) (st : State) (text : jsstring) (u : bool) :
  well_formed st ->
  rendered (handleError env (set_unmounted u (reading env st text))) =
  rendered st
  ++ [{| role := user; content := input st; timestamp := date_submit env |};
      {| role := assistant; content := text; timestamp := date_response env |}]
  ++ (if u then []
      else [{| role := assistant; content := apology; timestamp := date_error env |}]).
Proof.
  intros Hwf.
  unfold handleError, new_Message, setMessages, appendMessage, set_unmounted, reading.
  cbn [store messages input isLoading unmounted].
  destruct u; unfold rendered; cbn [store messages].
  - rewrite rendered_app.
    + rewrite app_nil_r. apply (rendered_reading env st text Hwf).
    + apply list.Forall_app. split.
      * eapply list.Forall_impl; [apply Hwf|]. intros r Hr. cbn beta in Hr.
        rewrite length_app. lia.
      * repeat constructor; rewrite length_app; cbn [length]; lia.
  - rewrite length_app. cbn [length].
    replace (length (store st) + 2)%nat with (S (S (length (store st)))) by lia.
    rewrite <- !app_assoc. cbn [app].
    apply (rendered_pushed (store st)
             [{| role := user; content := input st; timestamp := date_submit env |};
              {| role := assistant; content := text; timestamp := date_response env |};
              {| role := assistant; content := apology; timestamp := date_error env |}]
             (messages st)), Hwf.
Qed.

(** X19: what an accepted submit does to the log, whatever the reply.  The
    messages already shown stay as they are and in place; after them come
    the user message with the input as typed, then either the apology alone
    ([fetch] rejected), or one assistant message, or one assistant message
    and the apology.  The input is cleared, and the component is idle again
    unless it has gone down. *)
Theorem handleSubmit_appends_exchange (contentType : jsstring) (env : Env) (st : State) :
  well_formed st ->
  unmounted st = false -> isLoading st = false -> truthy (trim (input st)) = true ->
  let st' := (handleSubmit contentType env st).2 in
  let question := {| role := user; content := input st; timestamp := date_submit env |} in
  let answer text :=
    {| role := assistant; content := text; timestamp := date_response env |} in
  let sorry := {| role := assistant; content := apology; timestamp := date_error env |} in
  (rendered st' = rendered st ++ [question; sorry] \/
   exists text,
     rendered st' = rendered st ++ [question; answer text] \/
     rendered st' = rendered st ++ [question; answer text; sorry]) /\
  input st' = [] /\
  (unmounted st' = false -> isLoading st' = false).
Proof.
  intros Hwf Hun Hload Hin st' question answer sorry. subst st'.
  rewrite handleSubmit_accepted by done. cbn [snd].
  split_and!; [| |apply setIsLoading_idle].
  - rewrite rendered_setIsLoading. unfold requestAndRead.
    destruct (fetch env _) as [[status [b|]]|e] eqn:Hfetch; cbn [body].
    + right.
      unfold new_Message, setMessages, appendMessage, started.
      cbn [store messages input isLoading unmounted fst snd].
      rewrite !length_app, <- !app_assoc. cbn [length app].
      rewrite Nat.add_1_r.
      change {| store := _; messages := _; input := _; isLoading := _; unmounted := _ |}
        with (set_unmounted false (reading env st [])).
      destruct (handleChunks_reading (reads b) env st [] false) as (text & u & ->).
      cbn [app]. exists text. destruct (ending b).
      * left. apply (rendered_reading env st text Hwf).
      * rewrite rendered_handleError_reading by done. destruct u.
        -- left. by rewrite app_nil_r.
        -- right. reflexivity.
    + right. exists [].  right.
      unfold new_Message, setMessages, appendMessage, started.
      cbn [store messages input isLoading unmounted fst snd].
      rewrite !length_app, <- !app_assoc. cbn [length app].
      rewrite Nat.add_1_r.
      change {| store := _; messages := _; input := _; isLoading := _; unmounted := _ |}
        with (set_unmounted false (reading env st [])).
      by rewrite rendered_handleError_reading.
    + left.
      unfold handleError, new_Message, setMessages, appendMessage, started, rendered.
      cbn [store messages input isLoading unmounted fst snd].
      rewrite !length_app, <- !app_assoc. cbn [length app].
      rewrite Nat.add_1_r.
      apply (rendered_pushed (store st) [question; sorry] (messages st)), Hwf.
  - rewrite input_setIsLoading. unfold requestAndRead.
    destruct (fetch env _) as [[status [b|]]|e] eqn:Hfetch; cbn [body].
    + unfold new_Message, setMessages, appendMessage, started.
      cbn [store messages input isLoading unmounted fst snd].
      rewrite !length_app, <- !app_assoc. cbn [length app].
      rewrite Nat.add_1_r.
      change {| store := _; messages := _; input := _; isLoading := _; unmounted := _ |}
        with (set_unmounted false (reading env st [])).
      destruct (handleChunks_reading (reads b) env st [] false) as (text & u & ->).
      destruct (ending b); [done|].
      unfold handleError, new_Message, setMessages. cbn. by destruct u.
    + reflexivity.
    + reflexivity.
Qed.

End AnyReply.

Lemma submit_blank_input_is_noop_witness :
  forallb is_js_space (H5PChat.input (Sample.typing "   ")) = true /\
  H5PChat.handleSubmit (engine := Sample.engine) (lit "H5P.Course")
    Sample.env_unreachable (Sample.typing "   ") = (Ok tt, Sample.typing "   ").
Proof.
  assert (Hblank : forallb is_js_space (H5PChat.input (Sample.typing "   ")) = true)
    by reflexivity.
  split; [exact Hblank|].
  exact (submit_blank_input_is_noop (engine := Sample.engine) (lit "H5P.Course")
           Sample.env_unreachable (Sample.typing "   ") Hblank).
Defined.

Lemma line_without_response_shows_undefined_witness :
  JSON_parse (dq "{'error':'model not found'}") =
    Ok (JObject [(lit "error", JString (lit "model not found"))]) /\
  H5PChat.rendered
    (H5PChat.handleLine (engine := Sample.engine) (dq "{'error':'model not found'}")
       (H5PChat.reading Sample.env_unreachable (Sample.typing "intro to photosynthesis")
          (lit "Struct"))) =
  [ {| H5PChat.role := H5PChat.user; H5PChat.content := lit "intro to photosynthesis";
       H5PChat.timestamp := 1 |};
    {| H5PChat.role := H5PChat.assistant; H5PChat.content := lit "Structundefined";
       H5PChat.timestamp := 2 |} ].
Proof.
  assert (Hparse : JSON_parse (dq "{'error':'model not found'}") =
                   Ok (JObject [(lit "error", JString (lit "model not found"))]))
    by (vm_compute; reflexivity).
  split; [exact Hparse|].
  pose proof (line_without_response_shows_undefined (engine := Sample.engine) _ _
                Sample.env_unreachable (Sample.typing "intro to photosynthesis")
                (lit "Struct") Hparse eq_refl) as (_ & _ & Hline).
  rewrite Hline. vm_compute. reflexivity.
Defined.

Lemma handleSubmit_appends_exchange_witness :
  H5PChat.well_formed (Sample.typing "intro to photosynthesis") /\
  H5PChat.input
    (H5PChat.handleSubmit (engine := Sample.engine) (lit "H5P.Course")
       (Sample.env_reading [Sample.read_with_bad_line] (H5PChat.Rejects TypeError))
       (Sample.typing "intro to photosynthesis")).2 = [] /\
  H5PChat.isLoading
    (H5PChat.handleSubmit (engine := Sample.engine) (lit "H5P.Course")
       (Sample.env_reading [Sample.read_with_bad_line] (H5PChat.Rejects TypeError))
       (Sample.typing "intro to photosynthesis")).2 = false.
Proof.
  assert (Hwf : H5PChat.well_formed (Sample.typing "intro to photosynthesis"))
    by apply well_formed_initial.
  split; [exact Hwf|].
  pose proof (handleSubmit_appends_exchange (engine := Sample.engine) (lit "H5P.Course")
                (Sample.env_reading [Sample.read_with_bad_line] (H5PChat.Rejects TypeError))
                (Sample.typing "intro to photosynthesis") Hwf eq_refl eq_refl eq_refl)
    as (_ & Hinput & Hidle).
  split; [exact Hinput|]. apply Hidle. vm_compute. reflexivity.
Defined.

(** ** The relay and the component together *)

Section RelayedReply.
Import EndToEnd.
Context `{engine : Engine}.

(** The JSON replies of the streaming route: its two errors. *)
Lemma suggestionsStream_Json (up : OllamaService.Upstream) (body : Routes.RequestBody)
    (w : OllamaService.World) (this : OllamaService.Service)
    (status : Z) (text : jsstring) :
  (Routes.suggestionsStream up body w this).1.1 = Routes.Json status text ->
  text = Routes.json_field (lit "error")
           (lit "Content type and description are required") \/
  text = Routes.json_field (lit "error") (lit "Failed to stream content suggestions").
Proof.
  unfold Routes.suggestionsStream.
  destruct (Routes.missing _ || Routes.missing _); cbn [fst].
  - intros [= _ <-]. by left.
  - destruct (OllamaService.getH5PContentSuggestions _ _ _ _ _) as [[prompt|e] w1];
      cbn [fst].
    + destruct (OllamaService.chatStream _ _ _ _ _ _ _) as [[[[[]|e] w2] this2] pushed];
        cbn [fst]; [discriminate|].
      destruct pushed; cbn [fst]; [|discriminate]. intros [= _ <-]. by right.
    + intros [= _ <-]. by right.
Qed.

(** A read without bytes changes nothing. *)
Lemma handleChunk_empty_read (st : H5PChat.State) :
  H5PChat.handleChunk (read_of []) st = st.
Proof. reflexivity. Qed.

(** One write, however the reads are cut around it, is read at once. *)
Lemma handleChunks_one_write (sizes : list nat) (write : jsstring) (st : H5PChat.State) :
  fold_left (fun s value => H5PChat.handleChunk value s)
    (map read_of (regroup sizes [write])) st =
  H5PChat.handleChunk (read_of [write]) st.
Proof.
  assert (Hnone : forall sizes' st',
    fold_left (fun s value => H5PChat.handleChunk value s)
      (map read_of (regroup sizes' ([] : list jsstring))) st' = st').
  { induction sizes' as [|n sizes' IH]; intros st'; [done|].
    cbn [regroup map fold_left]. rewrite take_nil, drop_nil.
    rewrite handleChunk_empty_read. apply IH. }
  revert st. induction sizes as [|n sizes IH]; intros st; [done|].
  cbn [regroup map fold_left]. destruct n as [|n].
  - cbn [take drop]. rewrite handleChunk_empty_read. apply IH.
  - cbn [take drop]. rewrite take_nil, drop_nil. apply Hnone.
Qed.

(** The state an accepted submit ends in when the streaming route answers
    with a JSON error and the body of that reply reaches the component in
    one read: the open assistant message holds the text [undefined]. *)
Lemma handleSubmit_error_reply (up : OllamaService.Upstream)
    (sizes : list nat) (w : OllamaService.World) (this : OllamaService.Service)
    (contentType : jsstring) (t1 t2 t3 : Z) (st : H5PChat.State)
    (status : Z) (text : jsstring) :
  H5PChat.unmounted st = false -> H5PChat.isLoading st = false ->
  truthy (trim (H5PChat.input st)) = true ->
  (Routes.suggestionsStream up
     {| Routes.contentType := Some contentType;
        Routes.description := Some (H5PChat.input st) |} w this).1.1 =
    Routes.Json status text ->
  let env := {| H5PChat.fetch := relay up sizes w this;
                H5PChat.date_submit := t1; H5PChat.date_response := t2;
                H5PChat.date_error := t3 |} in
  (H5PChat.handleSubmit contentType env st).2 =
  H5PChat.setIsLoading false (H5PChat.reading env st (lit "undefined")).
Proof.
  intros Hun Hload Hin Hreply env.
  rewrite handleSubmit_accepted by done. cbn [snd].
  assert (Hfetch :
    H5PChat.fetch env {| H5PChat.contentType := contentType;
                         H5PChat.description := H5PChat.input st |} =
    Ok {| H5PChat.status := status;
          H5PChat.body := Some {| H5PChat.reads := map read_of (regroup sizes [text]);
                                  H5PChat.ending := H5PChat.Done |} |}).
  { unfold env, relay. cbn [H5PChat.fetch H5PChat.contentType H5PChat.description].
    by rewrite Hreply. }
  rewrite (requestAndRead_resolved contentType env st status _ Hfetch).
  cbn [H5PChat.reads H5PChat.ending]. cbv zeta.
  rewrite handleChunks_one_write.
  assert (Hread :
    H5PChat.handleChunk (read_of [text]) (H5PChat.reading env st []) =
    H5PChat.reading env st (lit "undefined")).
  { apply suggestionsStream_Json in Hreply as [-> | ->].
    - rewrite (handleChunk_one_line _
                 (Routes.json_field (lit "error")
                    (lit "Content type and description are required")))
        by (vm_compute; reflexivity).
      by rewrite (handleLine_without_response _
                    (JObject [(lit "error",
                               JString (lit "Content type and description are required"))])).
    - rewrite (handleChunk_one_line _
                 (Routes.json_field (lit "error")
                    (lit "Failed to stream content suggestions")))
        by (vm_compute; reflexivity).
      by rewrite (handleLine_without_response _
                    (JObject [(lit "error",
                               JString (lit "Failed to stream content suggestions"))])). }
  by rewrite Hread.
Qed.

(** X20: an error reply of the relay that arrives in one read shows as
    [undefined].  Whenever the streaming route answers the request of the
    component with a JSON error (status 400 or 500) and the body of that
    reply reaches the component whole, in one read (the reads before and
    after it, if any, being empty), the component, which does not look at
    the status, reads the error object as a fragment: the log gets the user
    message and an assistant message whose text is [undefined], not the
    apology, and the component is idle again.  Nothing is said of a body
    that is cut inside: its pieces are then handled as lines of their
    own. *)
Theorem relay_error_reply_shows_undefined (up : OllamaService.Upstream)
    (sizes : list nat) (w : OllamaService.World) (this : OllamaService.Service)
    (contentType : jsstring) (t1 t2 t3 : Z) (st : H5PChat.State)
    (status : Z) (text : jsstring) :
  H5PChat.well_formed st ->
  H5PChat.unmounted st = false -> H5PChat.isLoading st = false ->
  truthy (trim (H5PChat.input st)) = true ->
  (Routes.suggestionsStream up
     {| Routes.contentType := Some contentType;
        Routes.description := Some (H5PChat.input st) |} w this).1.1 =
    Routes.Json status text ->
  let env := {| H5PChat.fetch := relay up sizes w this;
                H5PChat.date_submit := t1; H5PChat.date_response := t2;
                H5PChat.date_error := t3 |} in
  let st' := (H5PChat.handleSubmit contentType env st).2 in
  H5PChat.rendered st' =
    H5PChat.rendered st
    ++ [ {| H5PChat.role := H5PChat.user; H5PChat.content := H5PChat.input st;
            H5PChat.timestamp := t1 |};
         {| H5PChat.role := H5PChat.assistant; H5PChat.content := lit "undefined";
            H5PChat.timestamp := t2 |} ] /\
  H5PChat.isLoading st' = false.
Proof.
  intros Hwf Hun Hload Hin Hreply env st'. subst st'.
  pose proof (handleSubmit_error_reply up sizes w this contentType t1 t2 t3 st
                status text Hun Hload Hin Hreply) as Hstate.
  cbv zeta in Hstate. fold env in Hstate. rewrite Hstate.
  split; [|reflexivity].
  rewrite rendered_setIsLoading. apply (rendered_reading env st _ Hwf).
Qed.

(** C8 (the code where the upstream cannot be reached): the apology is not
    shown.  The relay's first call upstream fails, for whatever reason,
    before any byte of a reply; the streaming route catches the failure and
    answers with status 500 and its JSON error.  For the component that is a
    response like any other: [fetch] resolves, the [catch] block is never
    entered, and the body, reaching the component in one read, is handled as
    a line of the stream (the reads before and after it, if any, being
    empty), an object without [response].  The log gets the user message
    and one assistant message whose text is [undefined]; the apology is not
    among the messages added.  The rest of the claim holds: the component
    is idle again, and a later submit is accepted. *)
Theorem upstream_failure_shows_undefined (up : OllamaService.Upstream)
    (sizes : list nat) (w : OllamaService.World) (this : OllamaService.Service)
    (contentType : jsstring) (t1 t2 t3 : Z) (st : H5PChat.State) :
  contentType <> [] ->
  H5PChat.well_formed st ->
  H5PChat.unmounted st = false -> H5PChat.isLoading st = false ->
  truthy (trim (H5PChat.input st)) = true ->
  (exists e,
     OllamaService.post_generate up
       (OllamaService.generateRequest this
          (Some (JString (OllamaService.suggestionsPrompt contentType (H5PChat.input st)
                            (OllamaService.getContentTypePrompt contentType))))
          None false) = Throw e) ->
  let request := {| H5PChat.contentType := contentType;
                    H5PChat.description := H5PChat.input st |} in
  let env := {| H5PChat.fetch := relay up sizes w this;
                H5PChat.date_submit := t1; H5PChat.date_response := t2;
                H5PChat.date_error := t3 |} in
  let st' := (H5PChat.handleSubmit contentType env st).2 in
  (Routes.suggestionsStream up
     {| Routes.contentType := Some contentType;
        Routes.description := Some (H5PChat.input st) |} w this).1.1 =
    Routes.Json 500 (dq "{'error':'Failed to stream content suggestions'}") /\
  H5PChat.resolved (H5PChat.fetch env request) = true /\
  H5PChat.rendered st' =
    H5PChat.rendered st
    ++ [ {| H5PChat.role := H5PChat.user; H5PChat.content := H5PChat.input st;
            H5PChat.timestamp := t1 |};
         {| H5PChat.role := H5PChat.assistant; H5PChat.content := lit "undefined";
            H5PChat.timestamp := t2 |} ] /\
  H5PChat.last_text st' = Some (lit "undefined") /\
  H5PChat.last_text st' <> Some H5PChat.apology /\
  H5PChat.isLoading st' = false /\
  (forall (text : jsstring) (env2 : H5PChat.Env),
      truthy (trim text) = true ->
      H5PChat.handleSubmit contentType env2 (H5PChat.setInput text st') =
        (Ok tt, H5PChat.setIsLoading false
                  (H5PChat.requestAndRead contentType text env2
                     (H5PChat.started env2 (H5PChat.setInput text st'))))).
Proof.
  intros Hct Hwf Hun Hload Hin Hfail request env st'.
  assert (Hinput : H5PChat.input st <> []).
  { intros Hnil. rewrite Hnil in Hin. discriminate. }
  assert (Hreply :
    (Routes.suggestionsStream up
       {| Routes.contentType := Some contentType;
          Routes.description := Some (H5PChat.input st) |} w this).1.1 =
    Routes.Json 500 (dq "{'error':'Failed to stream content suggestions'}")).
  { unfold Routes.suggestionsStream. cbn [Routes.contentType Routes.description].
    destruct contentType as [|c ct]; [done|].
    destruct (H5PChat.input st) as [|d desc]; [done|].
    cbn [Routes.missing orb default from_option]. unfold id.
    unfold OllamaService.getH5PContentSuggestions, OllamaService.chat. cbv zeta.
    destruct Hfail as [e ->]. reflexivity. }
  assert (Hstate : st' = H5PChat.setIsLoading false
                           (H5PChat.reading env st (lit "undefined"))).
  { subst st'.
    exact (handleSubmit_error_reply up sizes w this contentType t1 t2 t3 st 500
             (dq "{'error':'Failed to stream content suggestions'}")
             Hun Hload Hin Hreply). }
  assert (Hlog : H5PChat.rendered st' =
    H5PChat.rendered st
    ++ [ {| H5PChat.role := H5PChat.user; H5PChat.content := H5PChat.input st;
            H5PChat.timestamp := t1 |};
         {| H5PChat.role := H5PChat.assistant; H5PChat.content := lit "undefined";
            H5PChat.timestamp := t2 |} ]).
  { rewrite Hstate, rendered_setIsLoading. apply (rendered_reading env st _ Hwf). }
  assert (Hlast : H5PChat.last_text st' = Some (lit "undefined")).
  { unfold H5PChat.last_text. rewrite Hlog.
    change [?a; ?b] with ([a] ++ [b]). rewrite app_assoc, last_lookup_snoc.
    reflexivity. }
  split_and!.
  - exact Hreply.
  - reflexivity.
  - exact Hlog.
  - exact Hlast.
  - rewrite Hlast. intros Heq. vm_compute in Heq. discriminate.
  - by rewrite Hstate.
  - intros text env2 Htext. clear Hlog Hlast. clearbody st'. subst st'.
    by apply handleSubmit_accepted.
Qed.

End RelayedReply.

Lemma relay_error_reply_shows_undefined_witness :
  H5PChat.well_formed (Sample.typing "intro to photosynthesis") /\
  (Routes.suggestionsStream (engine := Sample.engine) Sample.unreachable
     {| Routes.contentType := Some (lit "H5P.Course");
        Routes.description := Some (H5PChat.input (Sample.typing "intro to photosynthesis")) |}
     Sample.world Sample.service).1.1 =
    Routes.Json 500 (dq "{'error':'Failed to stream content suggestions'}") /\
  H5PChat.rendered
    (H5PChat.handleSubmit (engine := Sample.engine) (lit "H5P.Course")
       {| H5PChat.fetch := EndToEnd.relay (engine := Sample.engine) Sample.unreachable
                             [1%nat] Sample.world Sample.service;
          H5PChat.date_submit := 1; H5PChat.date_response := 2;
          H5PChat.date_error := 3 |}
       (Sample.typing "intro to photosynthesis")).2 =
  [ {| H5PChat.role := H5PChat.user; H5PChat.content := lit "intro to photosynthesis";
       H5PChat.timestamp := 1 |};
    {| H5PChat.role := H5PChat.assistant; H5PChat.content := lit "undefined";
       H5PChat.timestamp := 2 |} ].
Proof.
  assert (Hwf : H5PChat.well_formed (Sample.typing "intro to photosynthesis"))
    by apply well_formed_initial.
  assert (Hreply :
    (Routes.suggestionsStream (engine := Sample.engine) Sample.unreachable
       {| Routes.contentType := Some (lit "H5P.Course");
          Routes.description :=
            Some (H5PChat.input (Sample.typing "intro to photosynthesis")) |}
       Sample.world Sample.service).1.1 =
    Routes.Json 500 (dq "{'error':'Failed to stream content suggestions'}"))
    by (vm_compute; reflexivity).
  split; [exact Hwf|]. split; [exact Hreply|].
  exact (proj1 (relay_error_reply_shows_undefined (engine := Sample.engine)
                  Sample.unreachable [1%nat] Sample.world Sample.service (lit "H5P.Course")
                  1 2 3 (Sample.typing "intro to photosynthesis") 500 _
                  Hwf eq_refl eq_refl eq_refl Hreply)).
Defined.

Lemma upstream_failure_shows_undefined_witness :
  lit "H5P.Course" <> [] /\
  H5PChat.well_formed (Sample.typing "intro to photosynthesis") /\
  (exists e,
     OllamaService.post_generate Sample.unreachable
       (OllamaService.generateRequest Sample.service
          (Some (JString
                   (OllamaService.suggestionsPrompt (engine := Sample.engine)
                      (lit "H5P.Course")
                      (H5PChat.input (Sample.typing "intro to photosynthesis"))
                      (OllamaService.getContentTypePrompt (lit "H5P.Course")))))
          None false) = Throw e) /\
  H5PChat.rendered
    (H5PChat.handleSubmit (engine := Sample.engine) (lit "H5P.Course")
       {| H5PChat.fetch := EndToEnd.relay (engine := Sample.engine) Sample.unreachable
                             [] Sample.world Sample.service;
          H5PChat.date_submit := 1; H5PChat.date_response := 2;
          H5PChat.date_error := 3 |}
       (Sample.typing "intro to photosynthesis")).2 =
  [ {| H5PChat.role := H5PChat.user; H5PChat.content := lit "intro to photosynthesis";
       H5PChat.timestamp := 1 |};
    {| H5PChat.role := H5PChat.assistant; H5PChat.content := lit "undefined";
       H5PChat.timestamp := 2 |} ].
Proof.
  assert (Hct : lit "H5P.Course" <> []) by (vm_compute; discriminate).
  assert (Hwf : H5PChat.well_formed (Sample.typing "intro to photosynthesis"))
    by apply well_formed_initial.
  assert (Hfail : exists e,
    OllamaService.post_generate Sample.unreachable
      (OllamaService.generateRequest Sample.service
         (Some (JString
                  (OllamaService.suggestionsPrompt (engine := Sample.engine)
                     (lit "H5P.Course")
                     (H5PChat.input (Sample.typing "intro to photosynthesis"))
                     (OllamaService.getContentTypePrompt (lit "H5P.Course")))))
         None false) = Throw e).
  { eexists. reflexivity. }
  split; [exact Hct|]. split; [exact Hwf|]. split; [exact Hfail|].
  pose proof (upstream_failure_shows_undefined (engine := Sample.engine)
                Sample.unreachable [] Sample.world Sample.service (lit "H5P.Course")
                1 2 3 (Sample.typing "intro to photosynthesis")
                Hct Hwf eq_refl eq_refl eq_refl Hfail) as (_ & _ & Hlog & _).
  exact Hlog.
Defined.

(** ** Any upstream lines, end to end *)

Section AnyLines.
Import OllamaService EndToEnd.
Context `{engine : Engine}.

(** A well-formed string leaves what follows it as well formed as it was. *)
Lemma well_formed_string_app (s : jsstring) :
  well_formed_string s = true ->
  forall tail, well_formed_string (s ++ tail) = well_formed_string tail.
Proof.
  induction s as [| |x y l IH1 IH2] using list_pair_ind; [done|..].
  - cbn [well_formed_string]. intros Hx tail. cbn [app well_formed_string].
    destruct (is_high_surrogate x); [done|]. destruct (is_low_surrogate x); [done|].
    rewrite andb_true_r in Hx. rewrite Hx. done.
  - intros Hs tail. cbn [app]. cbn [well_formed_string] in Hs |- *.
    destruct (is_high_surrogate x).
    + apply andb_true_iff in Hs as [Hy Hl]. rewrite Hy. cbn [andb]. by apply IH1.
    + destruct (is_low_surrogate x); [done|].
      apply andb_true_iff in Hs as [Hx Hl]. rewrite Hx. cbn [andb].
      by apply (IH2 Hl).
Qed.

(** No JSON text starts with a byte order mark. *)
Lemma JSON_parse_head (line : jsstring) (parsed : JValue) :
  JSON_parse line = Ok parsed -> head line <> Some 0xFEFF.
Proof.
  destruct line as [|c r]; [done|]. intros Hparse [= ->]. revert Hparse.
  unfold JSON_parse.
  assert (Hfuel : exists fuel, (2 * length (65279%Z :: r) + 2)%nat = S fuel).
  { exists (2 * length r + 3)%nat. cbn [length]. lia. }
  destruct Hfuel as [fuel ->].
  cbn [parse_value]. unfold value_step. cbn [skip_ws].
  change (is_json_ws 65279) with false. cbv iota.
  change (65279 =? 34) with false. change (65279 =? 91) with false.
  change (65279 =? 123) with false. change (65279 =? 116) with false.
  change (65279 =? 102) with false. change (65279 =? 110) with false. cbv iota.
  unfold parse_number. change (65279 =? 45) with false. cbv iota.
  change (65279 =? 48) with false. change (is_digit 65279) with false. cbv iota.
  discriminate.
Qed.

Lemma omap_write_of_lines (fragments : list (jsstring * jsstring)) :
  Forall carries fragments ->
  omap Routes.write_of (map fst fragments) = map (fun f => serialize f.2) fragments.
Proof.
  induction 1 as [|[line delta] fragments (_ & _ & Hf) _ IH]; [done|].
  cbn [map omap list_omap fst snd]. rewrite (write_of_delta line delta Hf).
  cbn. by f_equal.
Qed.

(** One read of whole lines, as the relay's loop sees it. *)
Lemma write_of_read (fragments : list (jsstring * jsstring)) :
  Forall carries fragments ->
  omap Routes.write_of
    (split 10 (TextDecoder_decode (read_of (map (fun f => f.1 ++ [10]) fragments)))) =
  map (fun f => serialize f.2) fragments.
Proof.
  intros Hall.
  assert (Hdecode : TextDecoder_decode (read_of (map (fun f => f.1 ++ [10]) fragments)) =
                    terminated (map fst fragments)).
  { rewrite decode_read_of.
    - unfold terminated. by rewrite map_map.
    - apply list.Forall_fmap. eapply list.Forall_impl; [exact Hall|].
      intros f (_ & Hwf & _). cbn. by rewrite well_formed_string_app.
    - destruct Hall as [|[line delta] fragments (_ & _ & Hf) _]; [done|].
      cbn [map concat fst]. destruct line as [|c r]; [done|].
      apply delta_of_parsed in Hf as (_ & parsed & Hparse & _).
      apply (JSON_parse_head _ _ Hparse). }
  rewrite Hdecode, split_terminated.
  - rewrite omap_app, omap_write_of_lines by done. cbn. by rewrite app_nil_r.
  - apply list.Forall_fmap. eapply list.Forall_impl; [exact Hall|]. by intros f (Hf & _).
Qed.

(** Reads of whole lines, however the lines are grouped. *)
Lemma write_of_reads (sizes : list nat) (fragments : list (jsstring * jsstring)) :
  Forall carries fragments ->
  omap Routes.write_of
    (lines_of (map read_of (regroup sizes (map (fun f => f.1 ++ [10]) fragments)))) =
  map (fun f => serialize f.2) fragments.
Proof.
  revert fragments. induction sizes as [|n sizes IH]; intros fragments Hall.
  - cbn [regroup map]. unfold lines_of. cbn [map concat]. rewrite app_nil_r.
    by apply write_of_read.
  - cbn [regroup map]. rewrite <- fmap_take, <- fmap_drop.
    change (read_of ?x :: ?rest) with ([read_of x] ++ rest).
    rewrite lines_of_app, omap_app. rewrite IH by by apply Forall_drop.
    unfold lines_of at 1. cbn [map concat]. rewrite app_nil_r.
    rewrite write_of_read by by apply Forall_take.
    by rewrite <- fmap_app, take_drop.
Qed.

(** X21: end to end, for any upstream lines.  The upstream streams lines
    that each carry a string [response] (whatever else they hold), grouped
    into reads of whole lines in any way; the relay's chunks reach the
    component grouped into reads of whole chunks in any way.  Then the log
    gets the user message and one assistant message whose text is the
    concatenation of the responses, in order, and the component is idle
    again. *)
Theorem end_to_end_whole_lines (post : GenerateRequest -> Throws JValue)
    (fragments : list (jsstring * jsstring)) (sizes_up sizes_down : list nat)
    (w : World) (this : Service) (contentType : jsstring) (t1 t2 t3 : Z)
    (st : H5PChat.State) :
  (forall request, exists data, post request = Ok data /\ data <> JNull) ->
  Forall carries fragments ->
  Forall (fun f => valid_string f.2 = true) fragments ->
  contentType <> [] ->
  H5PChat.well_formed st ->
  H5PChat.unmounted st = false -> H5PChat.isLoading st = false ->
  truthy (trim (H5PChat.input st)) = true ->
  let up := streaming_upstream post
              (schedule (upstream_body sizes_up (map fst fragments))) EndOfStream in
  let env := {| H5PChat.fetch := relay up sizes_down w this;
                H5PChat.date_submit := t1; H5PChat.date_response := t2;
                H5PChat.date_error := t3 |} in
  let st' := (H5PChat.handleSubmit contentType env st).2 in
  H5PChat.rendered st' =
    H5PChat.rendered st
    ++ [ {| H5PChat.role := H5PChat.user; H5PChat.content := H5PChat.input st;
            H5PChat.timestamp := t1 |};
         {| H5PChat.role := H5PChat.assistant;
            H5PChat.content := concat (map snd fragments);
            H5PChat.timestamp := t2 |} ] /\
  H5PChat.isLoading st' = false.
Proof.
  intros Hpost Hall Hvalid Hct Hwf Hun Hload Hin up env st'. subst st'.
  assert (Hfetch :
    H5PChat.fetch env {| H5PChat.contentType := contentType;
                         H5PChat.description := H5PChat.input st |} =
    Ok {| H5PChat.status := 200;
          H5PChat.body :=
            Some {| H5PChat.reads :=
                      map read_of (regroup sizes_down (map serialize (map snd fragments)));
                    H5PChat.ending := H5PChat.Done |} |}).
  { unfold env, relay. cbn [H5PChat.fetch H5PChat.contentType H5PChat.description].
    unfold up. rewrite suggestionsStream_pushes.
    - unfold upstream_body. cbn [schedule]. rewrite arrivals_Arrives.
      rewrite map_map. rewrite write_of_reads by done.
      unfold deliver. cbn [writes_of]. by rewrite map_map.
    - apply Stops_not_Arrives.
    - cbn [Routes.contentType Routes.description Routes.missing].
      destruct contentType; [done|]. destruct (H5PChat.input st); [done|]. done.
    - exact Hpost. }
  pose proof (rendered_handleSubmit_serialized contentType env st (map snd fragments)
                sizes_down 200 Hwf Hun Hload Hin) as H.
  cbv zeta in H. destruct H as (Hlog & _ & Hidle); [|exact Hfetch|].
  - by apply list.Forall_fmap.
  - split; [exact Hlog|exact Hidle].
Qed.

End AnyLines.

Lemma upstream_fragments_carried : Forall EndToEnd.carries Sample.upstream_fragments.
Proof.
  unfold Sample.upstream_fragments.
  constructor; [|constructor; [|constructor]];
    (unfold EndToEnd.carries; cbn [fst snd]; split_and!;
     [ apply (bool_decide_eq_false_1 (10 ∈ _)); vm_compute; reflexivity
     | vm_compute; reflexivity
     | vm_compute; reflexivity ]).
Qed.

Lemma end_to_end_whole_lines_witness :
  Forall EndToEnd.carries Sample.upstream_fragments /\
  Forall (fun f => valid_string f.2 = true) Sample.upstream_fragments /\
  H5PChat.well_formed (Sample.typing "intro to photosynthesis") /\
  H5PChat.rendered
    (H5PChat.handleSubmit (engine := Sample.engine) (lit "H5P.Course")
       {| H5PChat.fetch :=
            EndToEnd.relay (engine := Sample.engine)
              (OllamaService.streaming_upstream
                 (fun _ => Ok (JString (lit "1. Content Structure ...")))
                 (OllamaService.schedule
                    (EndToEnd.upstream_body [1%nat] (map fst Sample.upstream_fragments)))
                 OllamaService.EndOfStream)
              [2%nat] Sample.world Sample.service;
          H5PChat.date_submit := 1; H5PChat.date_response := 2;
          H5PChat.date_error := 3 |}
       (Sample.typing "intro to photosynthesis")).2 =
  [ {| H5PChat.role := H5PChat.user; H5PChat.content := lit "intro to photosynthesis";
       H5PChat.timestamp := 1 |};
    {| H5PChat.role := H5PChat.assistant; H5PChat.content := lit "Structure";
       H5PChat.timestamp := 2 |} ].
Proof.
  assert (Hvalid : Forall (fun f : jsstring * jsstring => valid_string f.2 = true)
                     Sample.upstream_fragments)
    by (repeat constructor).
  assert (Hwf : H5PChat.well_formed (Sample.typing "intro to photosynthesis"))
    by apply well_formed_initial.
  assert (Hct : lit "H5P.Course" <> []) by (vm_compute; discriminate).
  assert (Hpost : forall request : OllamaService.GenerateRequest,
    exists data, (fun _ : OllamaService.GenerateRequest =>
                    Ok (JString (lit "1. Content Structure ..."))) request = Ok data
                 /\ data <> JNull).
  { intros request. eexists. split; [reflexivity|discriminate]. }
  split; [exact upstream_fragments_carried|]. split; [exact Hvalid|].
  split; [exact Hwf|].
  exact (proj1 (end_to_end_whole_lines (engine := Sample.engine) _
                  Sample.upstream_fragments [1%nat] [2%nat] Sample.world Sample.service
                  (lit "H5P.Course") 1 2 3 (Sample.typing "intro to photosynthesis")
                  Hpost upstream_fragments_carried Hvalid Hct Hwf
                  eq_refl eq_refl eq_refl)).
Defined.
